(** * Synthetic supply-chain generator (faker-script.py): a shallow embedding

    The script is a straight-line notebook program: it seeds three
    pseudo-random generators (Faker, NumPy, Python's [random]), then runs
    five cells one after the other (suppliers, materials, BOM edges,
    approved-supplier list, purchase orders), each appending to
    module-level lists.

    Modelling choices.
    - Python [int] is [Z]; list positions are [nat].
    - Python [float] is modelled by exact rationals [Q]; binary rounding
      of products and sums is not modelled.
    - [date] is its proleptic Gregorian ordinal ([date.toordinal()]), so
      [d + timedelta(days=n)] is [d + n] and [>] is [Z.gt].
    - The module-level variables form a record [World]; a raised
      exception stops the script and leaves the variables as they are.
    - The cells draw from one abstract stream [rng] with the library
      draws as operations and their documented ranges as laws (class
      [RandomStream]); a tape of raw numbers gives an executable
      instance.  The seeding cell is modelled at the end of the file,
      over the states of the three generators the libraries keep.
    - The export cell works on frames of typed values and on a working
      directory given as a set of directories and a map of files; the
      CSV text is not modelled. *)

From Stdlib Require Import ZArith QArith Qround Qabs String Ascii List Lia Permutation.
From Stdlib Require Import DecimalString DecimalNat Lqa.
From stdpp Require Import base list gmap strings.

Import ListNotations.
Local Open Scope string_scope.
Local Open Scope list_scope.
Local Open Scope Z_scope.

(** ** Python built-ins used by the script *)

Module Py.

(** [str(n)] for a non-negative integer. *)
Definition str (n : Z) : string :=
  NilEmpty.string_of_uint (Nat.to_uint (Z.to_nat n)).

(** ['0' * k]. *)
Fixpoint zeros (k : nat) : string :=
  match k with
  | O => EmptyString
  | S k' => String "0"%char (zeros k')
  end.

(** [s.zfill(width)] for a string of digits (no sign). *)
Definition zfill (width : nat) (s : string) : string :=
  zeros (width - String.length s) ++ s.

(** [int(x)] on a float: truncation toward zero. *)
Definition int (x : Q) : Z := Z.quot (Qnum x) (Zpos (Qden x)).

(** [round(x)] to an integer, ties to even. *)
Definition round_half_even (x : Q) : Z :=
  let f := Qfloor x in
  let r := (x - inject_Z f)%Q in
  match (r ?= 1 # 2)%Q with
  | Lt => f
  | Gt => f + 1
  | Eq => if Z.even f then f else f + 1
  end.

(** [round(x, ndigits)]. *)
Definition round (x : Q) (ndigits : nat) : Q :=
  let scale := 10 ^ Z.of_nat ndigits in
  (inject_Z (round_half_even (x * inject_Z scale)) / inject_Z scale)%Q.

(** [a < b] and [a <= b] on floats. *)
Definition Qltb (a b : Q) : bool := negb (Qle_bool b a).
Definition Qleb (a b : Q) : bool := Qle_bool a b.

(** [itertools.accumulate(ws)]: running sums. *)
Fixpoint accumulate_from (acc : Q) (ws : list Q) : list Q :=
  match ws with
  | [] => []
  | w :: ws' => (acc + w)%Q :: accumulate_from (acc + w)%Q ws'
  end.
Definition accumulate (ws : list Q) : list Q :=
  match ws with
  | [] => []
  | w :: ws' => w :: accumulate_from w ws'
  end.

(** [sum(ws)]. *)
Definition Qsum (ws : list Q) : Q := fold_left Qplus ws 0%Q.

(** Insertion point to the right of [x] in an ascending list
    ([bisect.bisect_right], [ndarray.searchsorted(side='right')]):
    the number of entries that are [<= x]. *)
Definition bisect_right (a : list Q) (x : Q) : nat :=
  length (filter (fun c => Qleb c x = true) a).

(** *** Dates *)

Definition is_leap (y : Z) : bool :=
  (y mod 4 =? 0) && (negb (y mod 100 =? 0) || (y mod 400 =? 0)).

Definition days_before_year (y : Z) : Z :=
  let y1 := y - 1 in y1 * 365 + y1 / 4 - y1 / 100 + y1 / 400.

Definition days_in_month (y m : Z) : Z :=
  if m =? 2 then (if is_leap y then 29 else 28)
  else if (m =? 4) || (m =? 6) || (m =? 9) || (m =? 11) then 30
  else 31.

Fixpoint days_before_month_aux (y : Z) (k : nat) : Z :=
  match k with
  | O => 0
  | S k' => days_before_month_aux y k' + days_in_month y (Z.of_nat k)
  end.
Definition days_before_month (y m : Z) : Z :=
  days_before_month_aux y (Z.to_nat (m - 1)).

(** [date(y, m, d).toordinal()]. *)
Definition date (y m d : Z) : Z :=
  days_before_year y + days_before_month y m + d.

End Py.

(** ** Data model (the dict records the script appends) *)

Record Supplier := {
  supplier_id : string;
  name : string;
  country : string;
  capacity_score : Z
}.

Record Material := {
  material_id : string;
  description : string;
  tier_level : Z;
  base_unit : string;
  cost_estimate : Q
}.

Record BomEdge := {
  parent_material_id : string;
  child_material_id : string;
  quantity : Q
}.

Record Order := {
  po_id : string;
  po_supplier_id : string;
  po_material_id : string;
  order_date : Z;
  due_date : Z;
  receipt_date : option Z;
  quantity_ordered : Z;
  quantity_received : Z;
  unit_price : Q
}.

(** ** Configuration cells *)

Record Config := {
  seed : Z;
  NUM_SUPPLIERS : Z;
  NUM_MATERIALS : Z;
  TARGET_PO_COUNT : Z;
  TIER_DISTRIBUTION : list Q;
  COUNTRY_WEIGHTS : list (string * Q)
}.

(** The constants as they stand in the script. *)
Definition script_config : Config := {|
  seed := 42;
  NUM_SUPPLIERS := 3000;
  NUM_MATERIALS := 7000;
  TARGET_PO_COUNT := 80000;
  TIER_DISTRIBUTION := [5 # 100; 10 # 100; 20 # 100; 30 # 100; 35 # 100]%Q;
  COUNTRY_WEIGHTS :=
    [("CN", 45 # 100); ("KR", 15 # 100); ("JP", 10 # 100);
     ("DE", 10 # 100); ("US", 10 # 100); ("XX", 10 # 100)]%Q
|}.

(** The script's constants with other counts and tier probabilities. *)
Definition small_config (n m t : Z) (td : list Q) : Config := {|
  seed := 42;
  NUM_SUPPLIERS := n;
  NUM_MATERIALS := m;
  TARGET_PO_COUNT := t;
  TIER_DISTRIBUTION := td;
  COUNTRY_WEIGHTS := COUNTRY_WEIGHTS script_config
|}.

Definition tier_names : gmap Z (list string) :=
  list_to_map
    [(0, ["EV_Sedan"; "EV_SUV"; "EV_Truck"]);
     (1, ["Battery_Pack_HighRange"; "Battery_Pack_Std"; "Inverter_Assy"; "Drive_Unit"]);
     (2, ["Module_LFP"; "Module_NMC"; "BMS_Circuit"; "Cooling_Plate"]);
     (3, ["Cell_Prismatic"; "Cell_Cylindrical_4680"; "Cell_Pouch"; "Anode_Sheet"]);
     (4, ["Lithium_Hydroxide"; "Cobalt_Sulfate"; "Nickel_Class1"; "Graphite_Synth"; "Copper_Foil"])].

(** ** Exceptions and the script monad *)

Inductive exception :=
| ValueError (msg : string)
| IndexError (msg : string)
| KeyError (key : string)
| LoopFuel. (* model only: a [while] loop given too little fuel *)

Inductive result (A : Type) :=
| Ok (a : A)
| Raise (e : exception).
Arguments Ok {A} a.
Arguments Raise {A} e.

(** A statement maps the variables to an outcome and the variables after
    it; after [Raise] the variables are those at the point of the raise. *)
Definition M (W A : Type) : Type := W -> result A * W.

Definition ret {W A} (a : A) : M W A := fun w => (Ok a, w).
Definition raise {W A} (e : exception) : M W A := fun w => (Raise e, w).
Definition bind {W A B} (m : M W A) (k : A -> M W B) : M W B :=
  fun w => match m w with
           | (Ok a, w') => k a w'
           | (Raise e, w') => (Raise e, w')
           end.
Definition get {W} : M W W := fun w => (Ok w, w).
Definition modify {W} (f : W -> W) : M W unit := fun w => (Ok tt, f w).

Notation "x <- c ;; k" := (bind c (fun x => k))
  (at level 100, c at next level, right associativity).
Notation "c ;;; k" := (bind c (fun _ => k))
  (at level 100, right associativity).

(** [for x in xs: body]. *)
Fixpoint for_ {W A} (xs : list A) (body : A -> M W unit) : M W unit :=
  match xs with
  | [] => ret tt
  | x :: xs' => body x ;;; for_ xs' body
  end.

(** [while cond: body], cut off after [fuel] iterations. *)
Fixpoint while_ {W} (fuel : nat) (cond : W -> bool) (body : M W unit) : M W unit :=
  fun w =>
    if cond w then
      match fuel with
      | O => (Raise LoopFuel, w)
      | S fuel' => (body ;;; while_ fuel' cond body) w
      end
    else (Ok tt, w).

(** [range(n)]. *)
Definition range (n : Z) : list Z := map Z.of_nat (seq 0 (Z.to_nat n)).

(** [xs[i]]. *)
Definition index {W A} (xs : list A) (i : Z) : M W A :=
  match (if i <? 0 then None else xs !! Z.to_nat i) with
  | Some x => ret x
  | None => raise (IndexError "list index out of range")
  end.

(** ** The random streams

    One abstract state stands for the three seeded generators.  Each
    operation is one library draw; the laws are the ranges the libraries
    document. *)

Class RandomStream (rng : Type) := {
  rng_seed : Z -> rng;
  (* random *)
  rand_random : rng -> Q * rng;
  rand_below : nat -> rng -> nat * rng;
  rand_lognormvariate : Q -> Q -> rng -> Q * rng;
  (* numpy.random *)
  np_random_sample : rng -> Q * rng;
  np_zipf : Q -> rng -> Z * rng;
  np_poisson : Q -> rng -> Z * rng;
  np_pareto : Q -> rng -> Q * rng;
  np_permutation : nat -> rng -> list nat * rng;
  (* Faker *)
  fake_company : rng -> string * rng;
  fake_date_between : Z -> Z -> rng -> Z * rng;
  (* documented ranges *)
  rand_random_range : forall s, (0 <= fst (rand_random s) /\ fst (rand_random s) < 1)%Q;
  rand_below_lt : forall n s, (0 < n)%nat -> (fst (rand_below n s) < n)%nat;
  rand_lognormvariate_pos : forall mu sigma s, (0 < fst (rand_lognormvariate mu sigma s))%Q;
  np_random_sample_range :
    forall s, (0 <= fst (np_random_sample s) /\ fst (np_random_sample s) < 1)%Q;
  np_zipf_ge : forall a s, 1 <= fst (np_zipf a s);
  np_poisson_ge : forall lam s, 0 <= fst (np_poisson lam s);
  np_pareto_ge : forall a s, (0 <= fst (np_pareto a s))%Q;
  np_permutation_perm : forall n s, Permutation (fst (np_permutation n s)) (seq 0 n);
  fake_date_between_range :
    forall lo hi s, lo <= hi ->
      lo <= fst (fake_date_between lo hi s) <= hi
}.

(** ** Argument checks of the weighted draws *)

(** [sqrt(np.finfo(np.float64).eps)], that is 2^-26. *)
Definition atol : Q := 1 # (2 ^ 26).

(** The weights [random.choices] accepts for a population of [n]
    entries: as many weights, at least one, and a positive total. *)
Definition choices_accepts (n : nat) (weights : list Q) : bool :=
  (length weights =? n)%nat &&
  match last (Py.accumulate weights) with
  | Some total => Py.Qltb 0 total
  | None => false
  end.

(** The probabilities [np.random.choice(a, p=p)] accepts for [n]
    entries: [n > 0], as many probabilities, none negative, and a sum
    within [atol] of 1. *)
Definition choice_accepts (n : nat) (p : list Q) : bool :=
  negb (n =? 0)%nat && (length p =? n)%nat &&
  forallb (fun x => negb (Py.Qltb x 0)) p &&
  negb (Py.Qltb atol (Qabs (Py.Qsum p - 1))).

Section Script.
Context {rng : Type} `{RS : RandomStream rng}.

(** ** The module-level variables *)

Record World := {
  rng_state : rng;
  suppliers : list Supplier;
  materials : list Material;
  bom_edges : list BomEdge;
  mat_supplier_map : gmap string (list string);
  order_records : list Order;
  current_po_count : Z;
  po_id_counter : Z;
  current_date : Z;
  fulfillment_status : option string
}.

Definition with_rng (r : rng) (w : World) : World :=
  {| rng_state := r; suppliers := suppliers w; materials := materials w;
     bom_edges := bom_edges w; mat_supplier_map := mat_supplier_map w;
     order_records := order_records w; current_po_count := current_po_count w;
     po_id_counter := po_id_counter w; current_date := current_date w;
     fulfillment_status := fulfillment_status w |}.

Definition with_suppliers (x : list Supplier) (w : World) : World :=
  {| rng_state := rng_state w; suppliers := x; materials := materials w;
     bom_edges := bom_edges w; mat_supplier_map := mat_supplier_map w;
     order_records := order_records w; current_po_count := current_po_count w;
     po_id_counter := po_id_counter w; current_date := current_date w;
     fulfillment_status := fulfillment_status w |}.

Definition with_materials (x : list Material) (w : World) : World :=
  {| rng_state := rng_state w; suppliers := suppliers w; materials := x;
     bom_edges := bom_edges w; mat_supplier_map := mat_supplier_map w;
     order_records := order_records w; current_po_count := current_po_count w;
     po_id_counter := po_id_counter w; current_date := current_date w;
     fulfillment_status := fulfillment_status w |}.

Definition with_bom_edges (x : list BomEdge) (w : World) : World :=
  {| rng_state := rng_state w; suppliers := suppliers w; materials := materials w;
     bom_edges := x; mat_supplier_map := mat_supplier_map w;
     order_records := order_records w; current_po_count := current_po_count w;
     po_id_counter := po_id_counter w; current_date := current_date w;
     fulfillment_status := fulfillment_status w |}.

Definition with_mat_supplier_map (x : gmap string (list string)) (w : World) : World :=
  {| rng_state := rng_state w; suppliers := suppliers w; materials := materials w;
     bom_edges := bom_edges w; mat_supplier_map := x;
     order_records := order_records w; current_po_count := current_po_count w;
     po_id_counter := po_id_counter w; current_date := current_date w;
     fulfillment_status := fulfillment_status w |}.

Definition with_order_records (x : list Order) (w : World) : World :=
  {| rng_state := rng_state w; suppliers := suppliers w; materials := materials w;
     bom_edges := bom_edges w; mat_supplier_map := mat_supplier_map w;
     order_records := x; current_po_count := current_po_count w;
     po_id_counter := po_id_counter w; current_date := current_date w;
     fulfillment_status := fulfillment_status w |}.

Definition with_counters (count counter : Z) (w : World) : World :=
  {| rng_state := rng_state w; suppliers := suppliers w; materials := materials w;
     bom_edges := bom_edges w; mat_supplier_map := mat_supplier_map w;
     order_records := order_records w; current_po_count := count;
     po_id_counter := counter; current_date := current_date w;
     fulfillment_status := fulfillment_status w |}.

Definition with_current_date (d : Z) (w : World) : World :=
  {| rng_state := rng_state w; suppliers := suppliers w; materials := materials w;
     bom_edges := bom_edges w; mat_supplier_map := mat_supplier_map w;
     order_records := order_records w; current_po_count := current_po_count w;
     po_id_counter := po_id_counter w; current_date := d;
     fulfillment_status := fulfillment_status w |}.

Definition with_fulfillment_status (x : option string) (w : World) : World :=
  {| rng_state := rng_state w; suppliers := suppliers w; materials := materials w;
     bom_edges := bom_edges w; mat_supplier_map := mat_supplier_map w;
     order_records := order_records w; current_po_count := current_po_count w;
     po_id_counter := po_id_counter w; current_date := current_date w;
     fulfillment_status := x |}.

Abbreviation Script := (M World).

(** One draw from the stream. *)
Definition draw {A} (f : rng -> A * rng) : Script A :=
  fun w => (Ok (fst (f (rng_state w))), with_rng (snd (f (rng_state w))) w).

(** [[m for _ in range(k)]]. *)
Fixpoint replicateM {A} (k : nat) (m : Script A) : Script (list A) :=
  match k with
  | O => ret []
  | S k' => x <- m ;; xs <- replicateM k' m ;; ret (x :: xs)
  end.

(** [[f(x) for x in xs]]. *)
Fixpoint mapM {A B} (f : A -> Script B) (xs : list A) : Script (list B) :=
  match xs with
  | [] => ret []
  | x :: xs' => y <- f x ;; ys <- mapM f xs' ;; ret (y :: ys)
  end.

(** ** Library calls *)

(** *** [random] *)

Definition random_random : Script Q := draw rand_random.

(** [random.uniform(a, b)] is [a + (b - a) * random()]. *)
Definition random_uniform (a b : Q) : Script Q :=
  r <- random_random ;; ret (a + (b - a) * r)%Q.

(** [random.randint(a, b)] is [a + _randbelow(b - a + 1)]. *)
Definition random_randint (a b : Z) : Script Z :=
  if b <? a then raise (ValueError "empty range for randrange()")
  else j <- draw (rand_below (Z.to_nat (b - a + 1))) ;; ret (a + Z.of_nat j).

(** [random.choice(seq)] is [seq[_randbelow(len(seq))]]. *)
Definition random_choice {A} (seq : list A) : Script A :=
  match seq with
  | [] => raise (IndexError "Cannot choose from an empty sequence")
  | _ => j <- draw (rand_below (length seq)) ;; index seq (Z.of_nat j)
  end.

(** [random.choices(population, weights=weights, k=k)]. *)
Definition random_choices {A} (population : list A) (weights : list Q) (k : Z)
  : Script (list A) :=
  let n := length population in
  let cum_weights := Py.accumulate weights in
  if negb (length cum_weights =? n)%nat
  then raise (ValueError "The number of weights does not match the population")
  else
    match last cum_weights with
    | None => raise (IndexError "list index out of range")
    | Some total =>
        if Py.Qleb total 0
        then raise (ValueError "Total of weights must be greater than zero")
        else
          replicateM (Z.to_nat k)
            (r <- random_random ;;
             index population
               (Z.of_nat (Py.bisect_right (take (n - 1) cum_weights) (r * total)%Q)))
    end.

(** The selection loop of [random.sample]: [k] picks from a pool of
    which the first [n] entries are still unpicked. *)
Fixpoint sample_loop {A} (k : nat) (pool : list A) (n : nat) : Script (list A) :=
  match k with
  | O => ret []
  | S k' =>
      j <- draw (rand_below n) ;;
      x <- index pool (Z.of_nat j) ;;
      y <- index pool (Z.of_nat (n - 1)) ;;
      xs <- sample_loop k' (<[j := y]> pool) (n - 1) ;;
      ret (x :: xs)
  end.

(** [random.sample(population, k)]. *)
Definition random_sample {A} (population : list A) (k : Z) : Script (list A) :=
  let n := Z.of_nat (length population) in
  if (k <? 0) || (n <? k)
  then raise (ValueError "Sample larger than population or is negative")
  else sample_loop (Z.to_nat k) population (length population).

Definition random_lognormvariate (mu sigma : Q) : Script Q :=
  draw (rand_lognormvariate mu sigma).

(** *** [numpy.random] *)

(** [np.random.zipf(a, size=size)]. *)
Definition np_random_zipf (a : Q) (size : Z) : Script (list Z) :=
  if size <? 0 then raise (ValueError "negative dimensions are not allowed")
  else replicateM (Z.to_nat size) (draw (np_zipf a)).

(** [arr.max()]. *)
Definition ndarray_max (arr : list Z) : Script Z :=
  match arr with
  | [] => raise (ValueError
      "zero-size array to reduction operation maximum which has no identity")
  | x :: xs => ret (fold_left Z.max xs x)
  end.

(** [np.maximum(x, y)] on one entry. *)
Definition np_maximum (x y : Q) : Q := if Py.Qltb x y then y else x.

Definition np_random_poisson (lam : Q) : Script Z :=
  if Py.Qltb lam 0 then raise (ValueError "lam < 0 or lam is NaN")
  else draw (np_poisson lam).

Definition np_random_pareto (a : Q) : Script Q :=
  if Py.Qleb a 0 then raise (ValueError "a <= 0")
  else draw (np_pareto a).

(** [np.random.choice(a, p=p)]: one weighted draw. *)
Definition np_random_choice {A} (a : list A) (p : list Q) : Script A :=
  match a with
  | [] => raise (ValueError "'a' cannot be empty unless no samples are taken")
  | _ =>
      if negb (length p =? length a)%nat
      then raise (ValueError "'a' and 'p' must have same size")
      else if existsb (fun x => Py.Qltb x 0) p
      then raise (ValueError "probabilities are not non-negative")
      else if Py.Qltb atol (Qabs (Py.Qsum p - 1))
      then raise (ValueError "probabilities do not sum to 1")
      else
        let cdf := Py.accumulate p in
        let cdf := map (fun c => c / List.last cdf 1)%Q cdf in
        u <- draw np_random_sample ;;
        index a (Z.of_nat (Py.bisect_right cdf u))
  end.

(** [np.random.choice(a, size=size, replace=False)]: the first [size]
    entries of a permutation of [a]. *)
Definition np_random_choice_noreplace {A} (a : list A) (size : Z) : Script (list A) :=
  if size <? 0 then raise (ValueError "negative dimensions are not allowed")
  else if (Z.of_nat (length a) =? 0) && (0 <? size)
  then raise (ValueError "'a' cannot be empty unless no samples are taken")
  else if Z.of_nat (length a) <? size
  then raise (ValueError
      "Cannot take a larger sample than population when 'replace=False'")
  else
    perm <- draw (np_permutation (length a)) ;;
    mapM (fun i => index a (Z.of_nat i)) (take (Z.to_nat size) perm).

(** *** Faker *)

Definition fake_company_ : Script string := draw fake_company.

Definition fake_date_between_ (start_date end_date : Z) : Script Z :=
  if end_date <? start_date then raise (ValueError "empty range for randrange()")
  else draw (fake_date_between start_date end_date).

(** *** pandas *)

(** [df.groupby("tier_level")["material_id"].apply(list).to_dict()] on a
    frame with rows: the ids of each tier present, in row order. *)
Fixpoint groups_by_tier (rows : list Material) : gmap Z (list string) :=
  match rows with
  | [] => ∅
  | m :: rows' =>
      let d := groups_by_tier rows' in
      <[tier_level m := material_id m :: default [] (d !! tier_level m)]> d
  end.

(** [pd.DataFrame([])] has no columns, so grouping it by a column name
    raises [KeyError]. *)
Definition groupby_tier_level (rows : list Material) : Script (gmap Z (list string)) :=
  match rows with
  | [] => raise (KeyError "tier_level")
  | _ => ret (groups_by_tier rows)
  end.

(** [d[key]]. *)
Definition dict_get {K V} `{Countable K} (d : gmap K V) (key : K) (shown : string)
  : Script V :=
  match d !! key with
  | Some v => ret v
  | None => raise (KeyError shown)
  end.

(** ** Cell: Generate Supplier Nodes *)

Definition sup_id_of (country : string) (i : Z) : string :=
  ("SUP_" ++ country ++ "_" ++ Py.zfill 5 (Py.str (i + 1)))%string.

Definition append_supplier (s : Supplier) : Script unit :=
  modify (fun w => with_suppliers (suppliers w ++ [s]) w).

Definition generate_suppliers (cfg : Config) : Script unit :=
  let countries := map fst (COUNTRY_WEIGHTS cfg) in
  let weights := map snd (COUNTRY_WEIGHTS cfg) in
  dominance_scores <- np_random_zipf (3 # 2) (NUM_SUPPLIERS cfg) ;;
  mx <- ndarray_max dominance_scores ;;
  let dominance_scores :=
    map (fun z => (inject_Z z / inject_Z mx) * 50)%Q dominance_scores in
  let dominance_scores :=
    map (fun x => Py.int (np_maximum x 1)) dominance_scores in
  for_ (range (NUM_SUPPLIERS cfg)) (fun i =>
    cs <- random_choices countries weights 1 ;;
    country <- index cs 0 ;;
    let sup_id := sup_id_of country i in
    nm <- fake_company_ ;;
    score <- index dominance_scores i ;;
    append_supplier
      {| supplier_id := sup_id; name := nm; country := country;
         capacity_score := score |}).

(** ** Cell: Generate Material Nodes *)

Definition mat_id_of (tier i : Z) : string :=
  ("MAT_T" ++ Py.str tier ++ "_" ++ Py.zfill 5 (Py.str (i + 1)))%string.

Definition append_material (m : Material) : Script unit :=
  modify (fun w => with_materials (materials w ++ [m]) w).

Definition generate_materials (cfg : Config) : Script unit :=
  for_ (range (NUM_MATERIALS cfg)) (fun i =>
    tier <- np_random_choice [0; 1; 2; 3; 4] (TIER_DISTRIBUTION cfg) ;;
    names <- dict_get tier_names tier (Py.str tier) ;;
    base_name <- random_choice names ;;
    let mat_id := mat_id_of tier i in
    ln <- random_lognormvariate 3 1 ;;
    append_material
      {| material_id := mat_id; description := base_name; tier_level := tier;
         base_unit := if tier <? 4 then "EA" else "KG";
         cost_estimate := Py.round (ln * inject_Z (5 - tier)) 2 |}).

(** ** Cell: Generate BOM Edges *)

Definition append_bom_edge (e : BomEdge) : Script unit :=
  modify (fun w => with_bom_edges (bom_edges w ++ [e]) w).

(** The [if tier == 3 ... else ...] that selects the children. *)
Definition select_children (tier : Z) (potential_children : list string)
    (num_children : Z) : Script (list string) :=
  if tier =? 3
  then np_random_choice_noreplace potential_children num_children
  else random_sample potential_children
         (Z.min (Z.of_nat (length potential_children)) num_children).

(** The body of [for parent in parents]. *)
Definition bom_parent (tier : Z) (potential_children : list string)
    (parent : string) : Script unit :=
  p <- np_random_poisson (4 - inject_Z tier * (1 # 2)) ;;
  let num_children := Z.max 1 p in
  children <- select_children tier potential_children num_children ;;
  for_ children (fun child =>
    u <- random_uniform 1 20 ;;
    let qty := Py.round u 2 in
    qty <- (if tier =? 3
            then v <- random_uniform (1 # 2) 5 ;; ret (Py.round v 3)
            else ret qty) ;;
    append_bom_edge
      {| parent_material_id := parent; child_material_id := child;
         quantity := qty |}).

(** The body of [for tier in range(4)]. *)
Definition bom_tier (mats_by_tier : gmap Z (list string)) (tier : Z) : Script unit :=
  let parents := default [] (mats_by_tier !! tier) in
  let potential_children := default [] (mats_by_tier !! (tier + 1)) in
  match potential_children with
  | [] => ret tt (* continue *)
  | _ => for_ parents (bom_parent tier potential_children)
  end.

Definition generate_bom : Script unit :=
  w <- get ;;
  mats_by_tier <- groupby_tier_level (materials w) ;;
  for_ (range 4) (bom_tier mats_by_tier).

(** ** Cell: Assign Approved Supplier List *)

Definition set_mat_supplier (key : string) (v : list string) : Script unit :=
  modify (fun w => with_mat_supplier_map (<[key := v]> (mat_supplier_map w)) w).

Definition assign_asl : Script unit :=
  w <- get ;;
  let supplier_list := suppliers w in
  let material_list := materials w in
  for_ material_list (fun mat =>
    k <- random_randint 1 3 ;;
    candidates <- random_choices supplier_list
                    (map (fun s => inject_Z (capacity_score s)) supplier_list) k ;;
    set_mat_supplier (material_id mat) (map supplier_id candidates)).

(** ** Cell: Generate POs *)

(** The [if due_date > current_date ... else ...] block: the status
    drawn (if any), quantity received and receipt date. *)
Definition fulfil (due_date current_date quantity_ordered : Z)
  : Script (Z * option Z) :=
  if due_date >? current_date
  then ret (0, None)
  else
    status <- np_random_choice ["Full"; "Partial"; "Missing"]
                [85 # 100; 10 # 100; 5 # 100]%Q ;;
    modify (with_fulfillment_status (Some status)) ;;;
    if String.eqb status "Full" then
      d <- random_randint (-2) 10 ;;
      ret (quantity_ordered, Some (due_date + d))
    else if String.eqb status "Partial" then
      u <- random_uniform (1 # 10) (9 # 10) ;;
      let quantity_received := Py.int (inject_Z quantity_ordered * u) in
      d <- random_randint 1 15 ;;
      ret (quantity_received, Some (due_date + d))
    else
      ret (0, None).

Definition append_order (o : Order) : Script unit :=
  modify (fun w => with_order_records (order_records w ++ [o]) w).

(** The body of the [while] loop. *)
Definition po_iteration : Script unit :=
  w <- get ;;
  let material_list := materials w in
  mat <- random_choice material_list ;;
  valid_suppliers <- dict_get (mat_supplier_map w) (material_id mat) (material_id mat) ;;
  supplier <- random_choice valid_suppliers ;;
  po_date <- fake_date_between_ (Py.date 2024 1 1) (Py.date 2025 12 31) ;;
  lead_time <- random_randint 14 90 ;;
  let due := po_date + lead_time in
  r <- random_random ;;
  let is_bulk := Py.Qltb r (20 # 100) in
  qo <- (if is_bulk
         then x <- np_random_pareto (116 # 100) ;; ret (Py.int (x * 50) + 1)
         else random_randint 1 100) ;;
  rcv <- fulfil due (current_date w) qo ;;
  u <- random_uniform (95 # 100) (105 # 100) ;;
  let price := (cost_estimate mat * u)%Q in
  append_order
    {| po_id := ("PO-" ++ Py.str (po_id_counter w))%string;
       po_supplier_id := supplier;
       po_material_id := material_id mat;
       order_date := po_date;
       due_date := due;
       receipt_date := snd rcv;
       quantity_ordered := qo;
       quantity_received := fst rcv;
       unit_price := Py.round price 2 |} ;;;
  modify (fun w' =>
    with_counters (current_po_count w' + 1) (po_id_counter w' + 1) w').

Definition simulate_orders (cfg : Config) : Script unit :=
  modify (fun w => with_current_date (Py.date 2025 10 31) (with_counters 0 100000 w)) ;;;
  while_ (Z.to_nat (TARGET_PO_COUNT cfg))
    (fun w => current_po_count w <? TARGET_PO_COUNT cfg)
    po_iteration.

(** ** The whole script *)

Definition initial_world (s : rng) : World :=
  {| rng_state := s; suppliers := []; materials := [];
     bom_edges := []; mat_supplier_map := ∅; order_records := [];
     current_po_count := 0; po_id_counter := 0; current_date := 0;
     fulfillment_status := None |}.

Definition script (cfg : Config) : Script unit :=
  generate_suppliers cfg ;;;
  generate_materials cfg ;;;
  generate_bom ;;;
  assign_asl ;;;
  simulate_orders cfg.

(** The script started on a given stream state. *)
Definition run_from (cfg : Config) (s : rng) : result unit * World :=
  script cfg (initial_world s).

(** [Faker.seed(seed); np.random.seed(seed); random.seed(seed)], then
    the cells. *)
Definition run (cfg : Config) : result unit * World :=
  run_from cfg (rng_seed (seed cfg)).

End Script.

Arguments World : clear implicits.

(** ** An executable stream: a tape of raw draws

    The state is a finite tape of raw numbers followed by a linear
    congruential generator; each library draw consumes one raw number
    and maps it into the documented range.  Every value in a draw's
    range is the image of some raw number, so a tape can script any
    outcome the libraries may produce. *)

Module Tape.

Record t := { tape : list N; lcg : N }.

Definition lcg_next (g : N) : N :=
  ((6364136223846793005 * g + 1442695040888963407) mod 2 ^ 64)%N.

Definition next (s : t) : N * t :=
  match tape s with
  | x :: rest => (x, {| tape := rest; lcg := lcg s |})
  | [] => (lcg_next (lcg s), {| tape := []; lcg := lcg_next (lcg s) |})
  end.

Definition of_list (xs : list N) : t := {| tape := xs; lcg := 0 |}.

Definition seed (z : Z) : t := {| tape := []; lcg := Z.to_N z |}.

(** A number in [0, 1) with 53 bits, as [random.random()] returns. *)
Definition unit_interval (s : t) : Q * t :=
  (Z.of_N (fst (next s) mod 2 ^ 53) # 2 ^ 53, snd (next s)).

Definition below (n : nat) (s : t) : nat * t :=
  (match n with
   | O => O
   | _ => N.to_nat (fst (next s) mod N.of_nat n)
   end, snd (next s)).

(** Hundredths, strictly positive. *)
Definition positive_real (s : t) : Q * t :=
  (Z.of_N (fst (next s)) + 1 # 100, snd (next s)).

(** Hundredths, non-negative. *)
Definition nonneg_real (s : t) : Q * t :=
  (Z.of_N (fst (next s)) # 100, snd (next s)).

Definition positive_int (s : t) : Z * t := (1 + Z.of_N (fst (next s)), snd (next s)).

Definition nonneg_int (s : t) : Z * t := (Z.of_N (fst (next s)), snd (next s)).

(** A permutation of [0 .. n-1] from one raw number: entry [k] goes to
    the place given by the [k]-th digit of the number in the factorial
    number system. *)
Fixpoint insertions (n : nat) (x : N) : list nat :=
  match n with
  | O => []
  | S n' =>
      let j := N.to_nat (x mod N.of_nat (S n')) in
      let p := insertions n' (x / N.of_nat (S n')) in
      take j p ++ n' :: drop j p
  end.

Definition permutation (n : nat) (s : t) : list nat * t :=
  (insertions n (fst (next s)), snd (next s)).

Definition company (s : t) : string * t :=
  (("Company " ++ Py.str (Z.of_N (fst (next s) mod 1000)))%string, snd (next s)).

Definition date_between (lo hi : Z) (s : t) : Z * t :=
  (if hi <? lo then lo else lo + Z.of_N (fst (next s)) mod (hi - lo + 1),
   snd (next s)).

End Tape.

(** * Properties *)

(** ** The tape stream satisfies the documented ranges *)

Lemma tape_unit_interval_range s :
  (0 <= fst (Tape.unit_interval s) /\ fst (Tape.unit_interval s) < 1)%Q.
Proof.
  unfold Tape.unit_interval; cbn [fst].
  pose proof (N.mod_upper_bound (fst (Tape.next s)) (2 ^ 53) ltac:(discriminate)) as Hlt.
  set (m := (fst (Tape.next s) mod 2 ^ 53)%N) in *.
  change (2 ^ 53)%N with 9007199254740992%N in Hlt.
  change (2 ^ 53)%positive with 9007199254740992%positive.
  split.
  - unfold Qle; cbn [Qnum Qden]. lia.
  - unfold Qlt; cbn [Qnum Qden]. lia.
Qed.

Lemma tape_below_lt n s : (0 < n)%nat -> (fst (Tape.below n s) < n)%nat.
Proof.
  intros Hn. unfold Tape.below; cbn [fst].
  destruct n as [|n']; [lia|].
  pose proof (N.mod_upper_bound (fst (Tape.next s)) (N.of_nat (S n')) ltac:(lia)).
  lia.
Qed.

Lemma tape_positive_real_pos s : (0 < fst (Tape.positive_real s))%Q.
Proof. unfold Tape.positive_real, Qlt; cbn. lia. Qed.

Lemma tape_nonneg_real_ge s : (0 <= fst (Tape.nonneg_real s))%Q.
Proof. unfold Tape.nonneg_real, Qle; cbn. lia. Qed.

Lemma tape_positive_int_ge s : 1 <= fst (Tape.positive_int s).
Proof. unfold Tape.positive_int; cbn. lia. Qed.

Lemma tape_nonneg_int_ge s : 0 <= fst (Tape.nonneg_int s).
Proof. unfold Tape.nonneg_int; cbn. lia. Qed.

Lemma tape_insertions_perm n : forall x, Permutation (Tape.insertions n x) (seq 0 n).
Proof.
  induction n as [|n IH]; intros x; [constructor|].
  cbn [Tape.insertions].
  rewrite seq_S; cbn [Nat.add].
  etransitivity; [symmetry; apply Permutation_middle|].
  rewrite take_drop.
  etransitivity; [apply Permutation_cons_append|].
  apply Permutation_app_tail, IH.
Qed.

Lemma tape_date_between_range lo hi s :
  lo <= hi -> lo <= fst (Tape.date_between lo hi s) <= hi.
Proof.
  intros H. unfold Tape.date_between; cbn [fst].
  destruct (Z.ltb_spec hi lo); [lia|].
  pose proof (Z.mod_pos_bound (Z.of_N (fst (Tape.next s))) (hi - lo + 1) ltac:(lia)).
  lia.
Qed.

#[export] Instance tape_stream : RandomStream Tape.t := {|
  rng_seed := Tape.seed;
  rand_random := Tape.unit_interval;
  rand_below := Tape.below;
  rand_lognormvariate := fun _ _ => Tape.positive_real;
  np_random_sample := Tape.unit_interval;
  np_zipf := fun _ => Tape.positive_int;
  np_poisson := fun _ => Tape.nonneg_int;
  np_pareto := fun _ => Tape.nonneg_real;
  np_permutation := Tape.permutation;
  fake_company := Tape.company;
  fake_date_between := Tape.date_between;
  rand_random_range := tape_unit_interval_range;
  rand_below_lt := tape_below_lt;
  rand_lognormvariate_pos := fun _ _ => tape_positive_real_pos;
  np_random_sample_range := tape_unit_interval_range;
  np_zipf_ge := fun _ => tape_positive_int_ge;
  np_poisson_ge := fun _ => tape_nonneg_int_ge;
  np_pareto_ge := fun _ => tape_nonneg_real_ge;
  np_permutation_perm := fun n s => tape_insertions_perm n (fst (Tape.next s));
  fake_date_between_range := tape_date_between_range
|}.

(** The script on a scripted tape. *)
Definition run_tape (cfg : Config) (raw : list N) : result unit * World Tape.t :=
  run_from cfg (Tape.of_list raw).

(** ** Reasoning about scripts *)

Section Logic.
Context {rng : Type} `{RS : RandomStream rng}.

Abbreviation World := (World rng).
Abbreviation Script := (M World).

(** A library call: it touches nothing but the stream, every value it
    returns satisfies [post], and it raises only when [pre] fails. *)
Definition lib {A} (m : Script A) (pre : Prop) (post : A -> Prop) : Prop :=
  forall w, exists r, snd (m w) = with_rng r w /\
    match fst (m w) with
    | Ok a => post a
    | Raise _ => ~ pre
    end.

(** A statement run from [P]: [Q] after a value, [E] after a raise. *)
Definition triple {A} (P : World -> Prop) (m : Script A)
    (Q : A -> World -> Prop) (E : exception -> World -> Prop) : Prop :=
  forall w, P w ->
    match fst (m w) with
    | Ok a => Q a (snd (m w))
    | Raise e => E e (snd (m w))
    end.

(** A predicate on the variables that does not read the stream. *)
Definition rng_stable (P : World -> Prop) : Prop :=
  forall r w, P w -> P (with_rng r w).

Lemma with_rng_id (w : World) : with_rng (rng_state w) w = w.
Proof. destruct w; reflexivity. Qed.

Lemma bind_ok {A B} (m : Script A) (k : A -> Script B) w a w' :
  m w = (Ok a, w') -> bind m k w = k a w'.
Proof. unfold bind; intros ->; reflexivity. Qed.

Lemma bind_raise {A B} (m : Script A) (k : A -> Script B) w e w' :
  m w = (Raise e, w') -> bind m k w = (Raise e, w').
Proof. unfold bind; intros ->; reflexivity. Qed.

Lemma lib_ret {A} (a : A) (post : A -> Prop) pre :
  post a -> lib (ret a) pre post.
Proof. intros H w; exists (rng_state w); rewrite with_rng_id; split; [reflexivity|exact H]. Qed.

Lemma lib_raise {A} e (post : A -> Prop) (pre : Prop) :
  ~ pre -> lib (raise e) pre post.
Proof. intros H w; exists (rng_state w); rewrite with_rng_id; split; [reflexivity|exact H]. Qed.

Lemma lib_draw {A} (f : rng -> A * rng) (post : A -> Prop) pre :
  (forall s, post (fst (f s))) -> lib (draw f) pre post.
Proof. intros H w; eexists; split; [reflexivity|apply H]. Qed.

Lemma lib_weaken {A} (m : Script A) (pre pre' : Prop) (post post' : A -> Prop) :
  lib m pre post -> (pre' -> pre) -> (forall a, post a -> post' a) ->
  lib m pre' post'.
Proof.
  intros Hm Hp Hq w. destruct (Hm w) as (r & Hw & Hr). exists r; split; [exact Hw|].
  destruct (fst (m w)); [apply Hq, Hr | intros H; apply Hr, Hp, H].
Qed.

Lemma lib_bind {A B} (m : Script A) (k : A -> Script B)
    (pre : Prop) (mid : A -> Prop) (pre' : A -> Prop) (post : B -> Prop) :
  lib m pre mid ->
  (forall a, mid a -> lib (k a) (pre' a) post) ->
  lib (bind m k) (pre /\ forall a, mid a -> pre' a) post.
Proof.
  intros Hm Hk w. destruct (Hm w) as (r & Hw & Hr).
  unfold bind. destruct (m w) as [[a|e] w1]; cbn [fst snd] in *; subst w1.
  - destruct (Hk a Hr (with_rng r w)) as (r' & Hw' & Hr').
    exists r'; split; [exact Hw'|].
    destruct (fst (k a (with_rng r w))); [exact Hr'|].
    intros [_ H]; exact (Hr' (H a Hr)).
  - exists r; split; [reflexivity|]. intros [H _]; exact (Hr H).
Qed.

Lemma lib_seq {A B} (m : Script A) (k : A -> Script B)
    (pre : Prop) (mid : A -> Prop) (pre' : A -> Prop) (P : Prop) (post : B -> Prop) :
  lib m pre mid ->
  (forall a, mid a -> lib (k a) (pre' a) post) ->
  (P -> pre /\ forall a, mid a -> pre' a) ->
  lib (bind m k) P post.
Proof.
  intros Hm Hk HP. eapply lib_weaken; [exact (lib_bind _ _ _ _ _ _ Hm Hk)|exact HP|auto].
Qed.

(** The usual step: the call [m] cannot raise under [P], and the rest
    is a call under [P] again. *)
Lemma lib_step {A B} (m : Script A) (k : A -> Script B)
    (pre : Prop) (mid : A -> Prop) (P : Prop) (post : B -> Prop) :
  lib m pre mid -> (P -> pre) ->
  (forall a, mid a -> lib (k a) P post) ->
  lib (bind m k) P post.
Proof.
  intros Hm HP Hk. apply (lib_seq m k pre mid (fun _ => P) P post Hm Hk). auto.
Qed.

Lemma lib_post {A} (m : Script A) (pre : Prop) (post post' : A -> Prop) :
  lib m pre post -> (forall a, post a -> post' a) -> lib m pre post'.
Proof. intros Hm H. eapply lib_weaken; [exact Hm|auto|exact H]. Qed.

Lemma lib_pre {A} (m : Script A) (pre pre' : Prop) (post : A -> Prop) :
  lib m pre post -> (pre' -> pre) -> lib m pre' post.
Proof. intros Hm H. eapply lib_weaken; [exact Hm|exact H|auto]. Qed.

(** The value of a call whose precondition holds. *)
Lemma lib_ok {A} (m : Script A) (pre : Prop) (post : A -> Prop) w :
  lib m pre post -> pre ->
  exists a r, m w = (Ok a, with_rng r w) /\ post a.
Proof.
  intros Hm Hp. destruct (Hm w) as (r & Hw & Hr).
  destruct (m w) as [[a|e] w1]; cbn [fst snd] in *; subst w1.
  - exists a, r; split; [reflexivity|exact Hr].
  - destruct (Hr Hp).
Qed.

Lemma triple_conseq {A} (P P' : World -> Prop) (m : Script A) Q Q' E E' :
  triple P m Q E -> (forall w, P' w -> P w) ->
  (forall a w, Q a w -> Q' a w) -> (forall e w, E e w -> E' e w) ->
  triple P' m Q' E'.
Proof.
  intros H HP HQ HE w Hw. specialize (H w (HP w Hw)).
  destruct (fst (m w)); auto.
Qed.

Lemma triple_pre {A} (P P' : World -> Prop) (m : Script A) Q E :
  triple P m Q E -> (forall w, P' w -> P w) -> triple P' m Q E.
Proof. intros H HP. eapply triple_conseq; [exact H|exact HP|auto|auto]. Qed.

Lemma triple_post {A} (P : World -> Prop) (m : Script A) Q Q' E :
  triple P m Q E -> (forall a w, Q a w -> Q' a w) -> triple P m Q' E.
Proof. intros H HQ. eapply triple_conseq; [exact H|auto|exact HQ|auto]. Qed.

Lemma triple_ret {A} (a : A) (P : World -> Prop) Q E :
  (forall w, P w -> Q a w) -> triple P (ret a) Q E.
Proof. intros H w Hw; apply H, Hw. Qed.

Lemma triple_modify (f : World -> World) (P : World -> Prop) Q E :
  (forall w, P w -> Q tt (f w)) -> triple P (modify f) Q E.
Proof. intros H w Hw; apply H, Hw. Qed.

Lemma triple_bind {A B} (m : Script A) (k : A -> Script B) P R Q E :
  triple P m R E -> (forall a, triple (R a) (k a) Q E) ->
  triple P (bind m k) Q E.
Proof.
  intros Hm Hk w Hw. specialize (Hm w Hw). unfold bind.
  destruct (m w) as [[a|e] w1]; cbn [fst snd] in *.
  - apply (Hk a w1 Hm).
  - exact Hm.
Qed.

Lemma triple_get_bind {B} (k : World -> Script B) (P : World -> Prop) Q E :
  (forall w1, P w1 -> triple (eq w1) (k w1) Q E) ->
  triple P (bind get k) Q E.
Proof. intros H w Hw. exact (H w Hw w eq_refl). Qed.

(** A library call inside a cell whose exceptional outcome is: the
    variables have shape [S], and the cell's precondition [Pre] was
    false. *)
Lemma triple_call {A B} (m : Script A) (k : A -> Script B)
    (pre : Prop) (post : A -> Prop) (P : World -> Prop) Q
    (S : World -> Prop) (Pre : Prop) :
  lib m pre post -> rng_stable P -> (Pre -> pre) -> (forall w, P w -> S w) ->
  (forall a, post a -> triple P (k a) Q (fun _ w => S w /\ ~ Pre)) ->
  triple P (bind m k) Q (fun _ w => S w /\ ~ Pre).
Proof.
  intros Hm HP Hpre HS Hk w Hw. destruct (Hm w) as (r & Hw' & Hr). unfold bind.
  destruct (m w) as [[a|e] w1]; cbn [fst snd] in *; subst w1.
  - apply (Hk a Hr), HP, Hw.
  - split; [apply HS, HP, Hw|]. intros HPre. exact (Hr (Hpre HPre)).
Qed.

Lemma triple_for {A} (xs : list A) (body : A -> Script unit)
    (I : list A -> World -> Prop) E :
  (forall done x rest, xs = done ++ x :: rest ->
     triple (I done) (body x) (fun _ => I (done ++ [x])) E) ->
  triple (I []) (for_ xs body) (fun _ => I xs) E.
Proof.
  intros Hbody.
  enough (Hgen : forall rest done, xs = done ++ rest ->
            triple (I done) (for_ rest body) (fun _ => I xs) E)
    by (apply (Hgen xs []); reflexivity).
  induction rest as [|x rest IH]; intros done Hxs.
  - rewrite app_nil_r in Hxs; rewrite Hxs. apply triple_ret; auto.
  - cbn [for_]. eapply triple_bind; [apply (Hbody done x rest Hxs)|].
    intros u; cbn beta. apply IH. rewrite <- app_assoc; exact Hxs.
Qed.

(** A loop whose body keeps an invariant. *)
Lemma triple_for_inv {A} (xs : list A) (body : A -> Script unit)
    (I : World -> Prop) E :
  (forall x, x ∈ xs -> triple I (body x) (fun _ => I) E) ->
  triple I (for_ xs body) (fun _ => I) E.
Proof.
  intros Hbody. apply (triple_for xs body (fun _ => I)).
  intros done x rest ->. apply Hbody. set_solver.
Qed.

(** A loop that is given as much fuel as it has iterations left. *)
Lemma triple_while_fuel (fuel : nat) (cond : World -> bool) (body : Script unit)
    (I : nat -> World -> Prop) E :
  (forall n, triple (fun w => I (S n) w /\ cond w = true) body (fun _ => I n) E) ->
  (forall w, I O w -> cond w = false) ->
  triple (I fuel) (while_ fuel cond body)
         (fun _ w => exists n, I n w /\ cond w = false) E.
Proof.
  intros Hbody Hend. induction fuel as [|fuel IH]; intros w Hw.
  - cbn [while_]. rewrite (Hend w Hw). exists O; split; [exact Hw|apply Hend, Hw].
  - cbn [while_]. destruct (cond w) eqn:Hc.
    + refine (triple_bind body (fun _ => while_ fuel cond body)
                (fun w => I (S fuel) w /\ cond w = true) (fun _ => I fuel) _ E
                (Hbody fuel) (fun _ => IH) w (conj Hw Hc)).
    + exists (S fuel); split; [exact Hw|exact Hc].
Qed.

End Logic.

(** ** What the library calls return *)

Section Library.
Context {rng : Type} `{RS : RandomStream rng}.

Abbreviation Call := (M (World rng)).

Lemma lib_index {A} (xs : list A) (i : Z) :
  lib (index xs i : Call A) (0 <= i < Z.of_nat (length xs))
      (fun a => 0 <= i /\ xs !! Z.to_nat i = Some a).
Proof.
  unfold index. destruct (Z.ltb_spec i 0) as [Hi|Hi].
  - apply lib_raise; lia.
  - destruct (xs !! Z.to_nat i) as [a|] eqn:Hl.
    + apply lib_ret; auto.
    + apply lib_raise. apply lookup_ge_None in Hl. lia.
Qed.

Lemma lib_index_nat {A} (xs : list A) (j : nat) :
  lib (index xs (Z.of_nat j) : Call A) (j < length xs)%nat
      (fun a => xs !! j = Some a).
Proof.
  eapply lib_weaken; [apply lib_index| |]; cbn beta.
  - lia.
  - intros a H; cbn beta in H; destruct H as [_ H].
    rewrite Nat2Z.id in H; exact H.
Qed.

Lemma lib_random_random :
  lib (random_random : Call Q) True (fun r => 0 <= r /\ r < 1)%Q.
Proof. apply lib_draw, rand_random_range. Qed.

Lemma lib_random_uniform (a b : Q) :
  lib (random_uniform a b : Call Q) True
      (fun x => exists r, (0 <= r /\ r < 1)%Q /\ x = (a + (b - a) * r)%Q).
Proof.
  unfold random_uniform. eapply lib_seq; [apply lib_random_random| |].
  - intros r Hr. apply (lib_ret _ _ True). exists r; split; [exact Hr|reflexivity].
  - tauto.
Qed.

Lemma lib_random_randint (a b : Z) :
  lib (random_randint a b : Call Z) (a <= b) (fun x => a <= x <= b).
Proof.
  unfold random_randint. destruct (Z.ltb_spec b a) as [H|H].
  - apply lib_raise; lia.
  - eapply lib_seq;
      [apply (lib_draw _ (fun j => (j < Z.to_nat (b - a + 1))%nat) True)| |].
    + intros s. apply rand_below_lt. lia.
    + intros j Hj; cbn beta in Hj. apply (lib_ret _ _ True). lia.
    + tauto.
Qed.

Lemma lib_random_choice {A} (seq : list A) :
  lib (random_choice seq : Call A) (seq <> []) (fun a => a ∈ seq).
Proof.
  unfold random_choice. destruct seq as [|x seq'] eqn:Hseq.
  - apply lib_raise; auto.
  - rewrite <- Hseq.
    eapply lib_seq;
      [apply (lib_draw _ (fun j => (j < length seq)%nat) True)| |].
    + intros s. apply rand_below_lt. subst seq; cbn; lia.
    + intros j Hj. eapply lib_post; [apply lib_index_nat|]; cbn beta.
      intros a Ha. apply list_elem_of_lookup; eauto.
    + cbn beta; auto.
Qed.

Lemma lib_replicateM {A} (k : nat) (m : Call A) (pre : Prop) (post : A -> Prop) :
  lib m pre post ->
  lib (replicateM k m) pre (fun xs => length xs = k /\ Forall post xs).
Proof.
  intros Hm. induction k as [|k IH]; cbn [replicateM].
  - apply lib_ret; auto.
  - eapply lib_seq; [exact Hm| |].
    + intros x Hx. eapply lib_seq; [exact IH| |].
      * intros xs [Hlen Hxs]. apply (lib_ret _ _ True). cbn; auto.
      * intros Hp. split; [exact Hp|auto].
    + cbn beta. tauto.
Qed.

Lemma lib_mapM {A B} (f : A -> Call B) (xs : list A)
    (pre : A -> Prop) (post : A -> B -> Prop) :
  (forall x, x ∈ xs -> lib (f x) (pre x) (post x)) ->
  lib (mapM f xs) (Forall pre xs) (fun ys => Forall2 post xs ys).
Proof.
  induction xs as [|x xs IH]; intros Hf; cbn [mapM].
  - apply lib_ret; constructor.
  - eapply lib_seq; [apply Hf; set_solver| |].
    + intros y Hy. eapply lib_seq; [apply IH; intros; apply Hf; set_solver| |].
      * intros ys Hys. apply (lib_ret _ _ True). constructor; auto.
      * intros Hp. split; [exact Hp|auto].
    + cbn beta. intros H. apply Forall_cons in H. tauto.
Qed.

Lemma lib_random_lognormvariate mu sigma :
  lib (random_lognormvariate mu sigma : Call Q) True (fun x => 0 < x)%Q.
Proof. apply lib_draw, rand_lognormvariate_pos. Qed.

Lemma lib_np_random_zipf a size :
  lib (np_random_zipf a size : Call (list Z)) (0 <= size)
      (fun zs => length zs = Z.to_nat size /\ Forall (fun z => 1 <= z) zs).
Proof.
  unfold np_random_zipf. destruct (Z.ltb_spec size 0).
  - apply lib_raise; lia.
  - eapply lib_pre; [apply lib_replicateM, (lib_draw _ _ True), np_zipf_ge|auto].
Qed.

Lemma fold_left_max_spec (xs : list Z) (x : Z) :
  x <= fold_left Z.max xs x /\ Forall (fun y => y <= fold_left Z.max xs x) xs.
Proof.
  revert x; induction xs as [|y xs IH]; intros x; cbn [fold_left].
  - split; [lia|constructor].
  - destruct (IH (Z.max x y)) as [H1 H2]. split; [lia|].
    constructor; [lia|exact H2].
Qed.

Lemma lib_ndarray_max (arr : list Z) :
  lib (ndarray_max arr : Call Z) (arr <> []) (fun mx => Forall (fun y => y <= mx) arr).
Proof.
  unfold ndarray_max. destruct arr as [|x xs].
  - apply lib_raise; auto.
  - apply lib_ret. destruct (fold_left_max_spec xs x). constructor; auto.
Qed.

Lemma Qltb_lt (a b : Q) : Py.Qltb a b = true <-> (a < b)%Q.
Proof.
  unfold Py.Qltb. rewrite negb_true_iff. split.
  - intros H. apply Qnot_le_lt. intros Hle. apply Qle_bool_iff in Hle. congruence.
  - intros H. destruct (Qle_bool b a) eqn:E; [|reflexivity].
    apply Qle_bool_iff in E. exfalso. exact (Qlt_not_le _ _ H E).
Qed.

Lemma Qltb_ge (a b : Q) : Py.Qltb a b = false <-> (b <= a)%Q.
Proof.
  unfold Py.Qltb. rewrite negb_false_iff. apply Qle_bool_iff.
Qed.

Lemma Qleb_le (a b : Q) : Py.Qleb a b = true <-> (a <= b)%Q.
Proof. apply Qle_bool_iff. Qed.

Lemma lib_np_random_poisson lam :
  lib (np_random_poisson lam : Call Z) (0 <= lam)%Q (fun p => 0 <= p).
Proof.
  unfold np_random_poisson. destruct (Py.Qltb lam 0) eqn:E.
  - apply lib_raise. apply Qltb_lt in E. intros H. exact (Qlt_not_le _ _ E H).
  - apply lib_draw, np_poisson_ge.
Qed.

Lemma lib_np_random_pareto a :
  lib (np_random_pareto a : Call Q) (0 < a)%Q (fun x => 0 <= x)%Q.
Proof.
  unfold np_random_pareto. destruct (Py.Qleb a 0) eqn:E.
  - apply lib_raise. apply Qleb_le in E. intros H. exact (Qlt_not_le _ _ H E).
  - apply lib_draw, np_pareto_ge.
Qed.

Lemma lib_fake_company : lib (fake_company_ : Call string) True (fun _ => True).
Proof. apply lib_draw; auto. Qed.

Lemma lib_fake_date_between lo hi :
  lib (fake_date_between_ lo hi : Call Z) (lo <= hi) (fun d => lo <= d <= hi).
Proof.
  unfold fake_date_between_. destruct (Z.ltb_spec hi lo).
  - apply lib_raise; lia.
  - apply lib_draw. intros s. apply fake_date_between_range; lia.
Qed.

Lemma lib_groupby_tier_level rows :
  lib (groupby_tier_level rows : Call _) (rows <> [])
      (fun d => d = groups_by_tier rows).
Proof.
  unfold groupby_tier_level. destruct rows.
  - apply lib_raise; auto.
  - apply lib_ret; reflexivity.
Qed.

Lemma lib_dict_get {K V} `{Countable K} (d : gmap K V) key shown :
  lib (dict_get d key shown : Call V) (is_Some (d !! key))
      (fun v => d !! key = Some v).
Proof.
  unfold dict_get. destruct (d !! key) as [v|].
  - apply lib_ret; reflexivity.
  - apply lib_raise. intros [v Hv]; discriminate.
Qed.

(** *** The weighted draws *)

Lemma length_accumulate_from acc ws :
  length (Py.accumulate_from acc ws) = length ws.
Proof. revert acc; induction ws; intros; cbn; auto. Qed.

Lemma length_accumulate ws : length (Py.accumulate ws) = length ws.
Proof. destruct ws; cbn; [|rewrite length_accumulate_from]; reflexivity. Qed.

Lemma bisect_right_le (a : list Q) x : (Py.bisect_right a x <= length a)%nat.
Proof. apply length_filter. Qed.

Lemma lib_random_choices {A} (population : list A) weights k :
  lib (random_choices population weights k : Call (list A))
      (choices_accepts (length population) weights = true)
      (fun xs => length xs = Z.to_nat k /\ Forall (fun x => x ∈ population) xs).
Proof.
  unfold random_choices, choices_accepts.
  rewrite length_accumulate.
  destruct (Nat.eqb_spec (length weights) (length population)) as [Hlen|Hlen];
    cbn [negb andb]; [|apply lib_raise; discriminate].
  destruct (last (Py.accumulate weights)) as [total|] eqn:Hlast;
    [|apply lib_raise; discriminate].
  unfold Py.Qltb, Py.Qleb.
  destruct (Qle_bool total 0); cbn [negb]; [apply lib_raise; discriminate|].
  assert (Hn : (0 < length population)%nat).
  { rewrite <- Hlen, <- length_accumulate.
    destruct (Py.accumulate weights); [discriminate|cbn; lia]. }
  eapply lib_pre; [apply lib_replicateM|intros _; exact I].
  eapply lib_step; [apply lib_random_random|auto|].
  intros r _. eapply lib_weaken; [apply lib_index_nat| |]; cbn beta.
  - intros _.
    pose proof (bisect_right_le (take (length population - 1) (Py.accumulate weights))
                  (r * total)%Q) as Hb.
    rewrite length_take in Hb. lia.
  - intros a Ha. apply list_elem_of_lookup; eauto.
Qed.

Lemma elem_of_insert_inv {A} (l : list A) (j : nat) (y z : A) :
  z ∈ <[j := y]> l -> z = y \/ z ∈ l.
Proof.
  intros [i Hi]%list_elem_of_lookup.
  apply list_lookup_insert_Some in Hi as [(-> & -> & _)|[_ Hi]]; [auto|].
  right. apply list_elem_of_lookup; eauto.
Qed.

Lemma lib_sample_loop {A} (population : list A) (k : nat) :
  forall (pool : list A) (n : nat),
    (k <= n <= length pool)%nat ->
    (forall x, x ∈ pool -> x ∈ population) ->
    lib (sample_loop k pool n : Call (list A)) True
        (fun xs => length xs = k /\ Forall (fun x => x ∈ population) xs).
Proof.
  induction k as [|k IH]; intros pool n Hn Hsub; cbn [sample_loop].
  - apply lib_ret; auto.
  - eapply lib_step; [apply (lib_draw _ (fun j => (j < n)%nat) True)|auto|].
    { intros s. apply rand_below_lt. lia. }
    intros j Hj; cbn beta in Hj.
    eapply lib_step; [apply lib_index_nat|intros _; lia|].
    intros x Hx; cbn beta in Hx.
    eapply lib_step; [apply lib_index_nat|intros _; lia|].
    intros y Hy; cbn beta in Hy.
    eapply lib_step; [apply (IH (<[j := y]> pool) (n - 1)%nat)|auto|].
    + rewrite length_insert. lia.
    + intros z Hz. apply elem_of_insert_inv in Hz as [->|Hz]; [|auto].
      apply Hsub, list_elem_of_lookup; eauto.
    + intros xs [Hlen Hxs]. apply lib_ret. split; [cbn; lia|].
      constructor; [|exact Hxs]. apply Hsub, list_elem_of_lookup; eauto.
Qed.

Lemma lib_random_sample {A} (population : list A) (k : Z) :
  lib (random_sample population k : Call (list A))
      (0 <= k <= Z.of_nat (length population))
      (fun xs => length xs = Z.to_nat k /\ Forall (fun x => x ∈ population) xs).
Proof.
  unfold random_sample.
  destruct (Z.ltb_spec k 0); cbn [orb]; [apply lib_raise; lia|].
  destruct (Z.ltb_spec (Z.of_nat (length population)) k); [apply lib_raise; lia|].
  eapply lib_pre; [apply (lib_sample_loop population)|auto]; [lia|auto].
Qed.

Lemma lib_np_random_choice_noreplace {A} (a : list A) (size : Z) :
  lib (np_random_choice_noreplace a size : Call (list A))
      (0 <= size <= Z.of_nat (length a))
      (fun xs => exists perm, Permutation perm (seq 0 (length a)) /\
                   Forall2 (fun i x => a !! i = Some x)
                     (take (Z.to_nat size) perm) xs).
Proof.
  unfold np_random_choice_noreplace.
  destruct (Z.ltb_spec size 0); [apply lib_raise; lia|].
  destruct ((Z.of_nat (length a) =? 0) && (0 <? size)) eqn:E.
  { apply lib_raise. apply andb_true_iff in E as [E1 E2]. lia. }
  destruct (Z.ltb_spec (Z.of_nat (length a)) size); [apply lib_raise; lia|].
  eapply lib_step;
    [apply (lib_draw _ (fun perm => Permutation perm (seq 0 (length a))) True),
       np_permutation_perm|auto|].
  intros perm Hperm; cbn beta in Hperm.
  eapply lib_weaken;
    [apply (lib_mapM _ _ (fun i => (i < length a)%nat) (fun i x => a !! i = Some x));
     intros i _; apply lib_index_nat| |].
  - intros _. apply Forall_forall. intros i Hi.
    apply subseteq_take in Hi. rewrite Hperm in Hi.
    apply elem_of_seq in Hi. lia.
  - cbn beta. intros xs Hxs. exists perm. auto.
Qed.

Lemma fold_left_Qplus (ws : list Q) (acc : Q) :
  (fold_left Qplus ws acc == acc + Py.Qsum ws)%Q.
Proof.
  unfold Py.Qsum. revert acc; induction ws as [|w ws IH]; intros acc; cbn [fold_left].
  - ring.
  - rewrite (IH (acc + w)%Q), (IH (0 + w)%Q). ring.
Qed.

Lemma Qsum_cons (w : Q) (ws : list Q) : (Py.Qsum (w :: ws) == w + Py.Qsum ws)%Q.
Proof.
  unfold Py.Qsum at 1. cbn [fold_left]. rewrite fold_left_Qplus. ring.
Qed.

Lemma last_accumulate_from (ws : list Q) : forall w acc d,
  (List.last (Py.accumulate_from acc (w :: ws)) d == acc + Py.Qsum (w :: ws))%Q.
Proof.
  induction ws as [|w' ws IH]; intros w acc d.
  - rewrite Qsum_cons. cbn. ring.
  - change (Py.accumulate_from acc (w :: w' :: ws))
      with ((acc + w)%Q :: Py.accumulate_from (acc + w)%Q (w' :: ws)).
    change (List.last ((acc + w)%Q :: Py.accumulate_from (acc + w)%Q (w' :: ws)) d)
      with (List.last (Py.accumulate_from (acc + w)%Q (w' :: ws)) d).
    rewrite IH, (Qsum_cons w). ring.
Qed.

Lemma last_accumulate (w : Q) (ws : list Q) (d : Q) :
  (List.last (Py.accumulate (w :: ws)) d == Py.Qsum (w :: ws))%Q.
Proof.
  destruct ws as [|w' ws].
  - rewrite Qsum_cons. cbn. ring.
  - change (List.last (Py.accumulate (w :: w' :: ws)) d)
      with (List.last (Py.accumulate_from w (w' :: ws)) d).
    rewrite last_accumulate_from, (Qsum_cons w). ring.
Qed.

Lemma last_elem_of {A} (x : A) (l : list A) (d : A) : List.last (x :: l) d ∈ x :: l.
Proof.
  revert x; induction l as [|y l IH]; intros x.
  - cbn. set_solver.
  - change (List.last (x :: y :: l) d) with (List.last (y :: l) d).
    apply list_elem_of_further, IH.
Qed.

Lemma existsb_forallb_negb {A} (f : A -> bool) (l : list A) :
  existsb f l = true -> forallb (fun x => negb (f x)) l = false.
Proof.
  induction l as [|x l IH]; cbn; [discriminate|].
  destruct (f x); cbn; auto.
Qed.

Lemma lib_np_random_choice {A} (a : list A) (p : list Q) :
  lib (np_random_choice a p : Call A)
      (choice_accepts (length a) p = true) (fun x => x ∈ a).
Proof.
  unfold np_random_choice, choice_accepts.
  destruct a as [|a0 a'] eqn:Ha; [apply lib_raise; discriminate|].
  rewrite <- Ha. assert (Hn : (0 < length a)%nat) by (subst a; cbn; lia).
  replace (length a =? 0)%nat with false by (symmetry; apply Nat.eqb_neq; lia).
  cbn [negb andb].
  destruct (Nat.eqb_spec (length p) (length a)) as [Hlen|Hlen];
    cbn [negb andb]; [|apply lib_raise; discriminate].
  destruct (existsb (fun x => Py.Qltb x 0) p) eqn:Hneg.
  { apply lib_raise. rewrite (existsb_forallb_negb _ _ Hneg). discriminate. }
  destruct (Py.Qltb atol (Qabs (Py.Qsum p - 1))) eqn:Hsum.
  { apply lib_raise. rewrite andb_false_r. discriminate. }
  eapply lib_step;
    [apply (lib_draw _ (fun u => 0 <= u /\ u < 1)%Q True np_random_sample_range)
    |intros _; exact I|].
  intros u Hu; cbn beta in Hu; destruct Hu as [Hu0 Hu1].
  eapply lib_weaken; [apply lib_index_nat| |]; cbn beta.
  - intros _. rewrite <- Hlen, <- (length_accumulate p).
    destruct p as [|w ws]; [cbn in Hlen; lia|].
    set (L := List.last (Py.accumulate (w :: ws)) 1%Q).
    rewrite <- (length_map (fun c => (c / L)%Q) (Py.accumulate (w :: ws))).
    apply (length_filter_lt _ _ (L / L)%Q).
    + apply list_elem_of_fmap. exists L; split; [reflexivity|].
      apply (last_elem_of w (Py.accumulate_from w ws)).
    + assert (HL : (0 < L)%Q).
      { unfold L. rewrite last_accumulate.
        apply Qltb_ge, Qabs_Qle_condition in Hsum. unfold atol in Hsum.
        destruct Hsum as [Hlo _].
        apply (Qlt_le_trans _ (1 + - (1 # 2 ^ 26))%Q); [reflexivity|].
        lra. }
      intros Hle. apply Qleb_le in Hle.
      assert (HLL : (L / L == 1)%Q) by (field; lra).
      rewrite HLL in Hle. exact (Qlt_not_le _ _ Hu1 Hle).
  - intros x Hx. apply list_elem_of_lookup; eauto.
Qed.

End Library.

(** ** The cells *)

Section Cells.
Context {rng : Type} `{RS : RandomStream rng}.

Abbreviation Wd := (World rng).

Lemma range_nth (n : Z) (pre : list Z) (x : Z) (rest : list Z) :
  range n = pre ++ x :: rest ->
  x = Z.of_nat (length pre) /\ 0 <= x < n.
Proof.
  unfold range. intros H.
  assert (Hl : map Z.of_nat (seq 0 (Z.to_nat n)) !! length pre = Some x).
  { rewrite H. rewrite lookup_app_r by lia. rewrite Nat.sub_diag. reflexivity. }
  rewrite list_lookup_fmap in Hl.
  destruct (seq 0 (Z.to_nat n) !! length pre) as [k|] eqn:Hk; [|discriminate].
  apply lookup_seq in Hk as [-> Hlt]. cbn in Hl. injection Hl as <-. lia.
Qed.

Lemma length_range (n : Z) : length (range n) = Z.to_nat n.
Proof. unfold range. rewrite length_map, length_seq. reflexivity. Qed.

(** *** Suppliers *)

(** What the supplier cell needs in order not to raise. *)
Definition suppliers_pre (cfg : Config) : Prop :=
  1 <= NUM_SUPPLIERS cfg /\
  choices_accepts (length (COUNTRY_WEIGHTS cfg)) (map snd (COUNTRY_WEIGHTS cfg)) = true.

Lemma int_maximum_ge_1 (x : Q) : 1 <= Py.int (np_maximum x 1).
Proof.
  assert (H : (1 <= np_maximum x 1)%Q).
  { unfold np_maximum. destruct (Py.Qltb x 1) eqn:E.
    - apply Qle_refl.
    - apply Qltb_ge in E. exact E. }
  unfold Py.int. destruct (np_maximum x 1) as [n d]. unfold Qle in H; cbn in *.
  rewrite Z.quot_div_nonneg by lia.
  apply Z.div_le_lower_bound; lia.
Qed.

Definition suppliers_shape (w0 : Wd) (new : list Supplier) (w : Wd) : Prop :=
  exists r, w = with_rng r (with_suppliers (suppliers w0 ++ new) w0).

Lemma generate_suppliers_spec (cfg : Config) (w0 : Wd) :
  triple (eq w0) (generate_suppliers cfg)
    (fun _ w => exists new, suppliers_shape w0 new w /\
                  length new = Z.to_nat (NUM_SUPPLIERS cfg) /\
                  Forall (fun s => 1 <= capacity_score s) new)
    (fun _ w => (exists new, suppliers_shape w0 new w /\
                   Forall (fun s => 1 <= capacity_score s) new) /\
                ~ suppliers_pre cfg).
Proof.
  set (S := fun w : Wd => exists new, suppliers_shape w0 new w /\
                   Forall (fun s => 1 <= capacity_score s) new).
  set (I := fun (pre : list Z) (w : Wd) =>
              exists new, suppliers_shape w0 new w /\ length new = length pre /\
                          Forall (fun s => 1 <= capacity_score s) new).
  assert (HIS : forall pre w, I pre w -> S w).
  { intros pre w (new & Hs & _ & Hc). exists new; auto. }
  assert (HIst : forall pre, rng_stable (I pre)).
  { intros pre r w (new & (r0 & ->) & Hl & Hc). exists new.
    split; [exists r; reflexivity|auto]. }
  unfold generate_suppliers.
  apply (triple_pre (I [])).
  2:{ intros w <-; exists []; split;
      [exists (rng_state w0); rewrite app_nil_r; destruct w0; reflexivity
      |split; [reflexivity|constructor]]. }
  eapply triple_call; [apply lib_np_random_zipf|apply HIst| |apply HIS|].
  { intros [H _]; lia. }
  intros zs [Hzlen Hzs].
  eapply triple_call; [apply lib_ndarray_max|apply HIst| |apply HIS|].
  { intros [H _] ->. cbn in Hzlen. lia. }
  intros mx _.
  set (scores := map _ (map _ zs)).
  assert (Hscores : length scores = Z.to_nat (NUM_SUPPLIERS cfg)).
  { unfold scores. rewrite !length_map. exact Hzlen. }
  assert (Hge : forall i x, scores !! i = Some x -> 1 <= x).
  { intros i x Hx. unfold scores in Hx. rewrite !list_lookup_fmap in Hx.
    destruct (zs !! i); [|discriminate]. cbn in Hx. injection Hx as <-.
    apply int_maximum_ge_1. }
  eapply triple_post; [apply (triple_for _ _ I)|].
  2:{ cbn beta. intros _ w (new & Hs & Hl & Hc). exists new.
      rewrite Hl, length_range. auto. }
  intros pre i rest Hrange. apply range_nth in Hrange as [Hi Hin].
  eapply triple_call; [apply lib_random_choices|apply HIst| |apply HIS|].
  { intros [_ H]. rewrite length_map. exact H. }
  intros cs [Hcs _].
  eapply triple_call; [apply lib_index|apply HIst| |apply HIS|].
  { intros _. rewrite Hcs. cbn. lia. }
  intros country _.
  eapply triple_call; [apply lib_fake_company|apply HIst|auto|apply HIS|].
  intros nm _.
  eapply triple_call; [apply lib_index|apply HIst| |apply HIS|].
  { intros _. rewrite Hscores. lia. }
  intros score [_ Hscore]. apply Hge in Hscore.
  apply triple_modify.
  intros w (new & (r & ->) & Hl & Hc). cbn.
  exists (new ++ [ {| supplier_id := sup_id_of country i; name := nm;
                      country := country; capacity_score := score |} ]).
  split; [exists r; rewrite app_assoc; reflexivity|].
  split; [rewrite !length_app; cbn; lia|].
  apply Forall_app; split; [exact Hc|]. constructor; [exact Hscore|constructor].
Qed.

(** *** Materials *)

Definition materials_pre (cfg : Config) : Prop :=
  choice_accepts 5 (TIER_DISTRIBUTION cfg) = true.

(** Row [k] of the cell's output: the id is built from the row's tier
    and [k + 1], and the tier is one of the five. *)
Definition materials_ok (ms : list Material) : Prop :=
  forall k m, ms !! k = Some m ->
    material_id m = mat_id_of (tier_level m) (Z.of_nat k) /\
    0 <= tier_level m <= 4.

Definition materials_shape (w0 : Wd) (new : list Material) (w : Wd) : Prop :=
  exists r, w = with_rng r (with_materials (materials w0 ++ new) w0).

Lemma tier_names_lookup (t : Z) :
  0 <= t <= 4 -> exists names, tier_names !! t = Some names /\ names <> [].
Proof.
  intros H.
  assert (Ht : t = 0 \/ t = 1 \/ t = 2 \/ t = 3 \/ t = 4) by lia.
  destruct Ht as [->|[->|[->|[->| ->]]]];
    (eexists; split; [vm_compute; reflexivity|discriminate]).
Qed.

Lemma elem_of_tiers (t : Z) : t ∈ [0; 1; 2; 3; 4] -> 0 <= t <= 4.
Proof.
  intros H. repeat (apply elem_of_cons in H as [->|H]; [lia|]).
  apply elem_of_nil in H. destruct H.
Qed.

Lemma generate_materials_spec (cfg : Config) (w0 : Wd) :
  triple (eq w0) (generate_materials cfg)
    (fun _ w => exists new, materials_shape w0 new w /\
                  length new = Z.to_nat (NUM_MATERIALS cfg) /\
                  materials_ok new)
    (fun _ w => (exists new, materials_shape w0 new w /\ materials_ok new) /\
                ~ materials_pre cfg).
Proof.
  set (S := fun w : Wd => exists new, materials_shape w0 new w /\ materials_ok new).
  set (I := fun (pre : list Z) (w : Wd) =>
              exists new, materials_shape w0 new w /\ length new = length pre /\
                          materials_ok new).
  assert (HIS : forall pre w, I pre w -> S w).
  { intros pre w (new & Hs & _ & Hc). exists new; auto. }
  assert (HIst : forall pre, rng_stable (I pre)).
  { intros pre r w (new & (r0 & ->) & Hl & Hc). exists new.
    split; [exists r; reflexivity|auto]. }
  unfold generate_materials.
  apply (triple_pre (I [])).
  2:{ intros w <-; exists []; split;
      [exists (rng_state w0); rewrite app_nil_r; destruct w0; reflexivity
      |split; [reflexivity|intros k m Hk; rewrite lookup_nil in Hk; discriminate]]. }
  eapply triple_post; [apply (triple_for _ _ I)|].
  2:{ cbn beta. intros _ w (new & Hs & Hl & Hc). exists new.
      rewrite Hl, length_range. auto. }
  intros pre i rest Hrange. apply range_nth in Hrange as [Hi Hin].
  eapply triple_call; [apply lib_np_random_choice|apply HIst| |apply HIS|].
  { intros H; exact H. }
  intros tier Htier; cbn beta in Htier. apply elem_of_tiers in Htier.
  destruct (tier_names_lookup tier Htier) as (names & Hnames & Hne).
  eapply triple_call; [apply lib_dict_get|apply HIst| |apply HIS|].
  { intros _. rewrite Hnames. eauto. }
  intros names' Hn'. rewrite Hnames in Hn'. injection Hn' as <-.
  eapply triple_call; [apply lib_random_choice|apply HIst|auto|apply HIS|].
  intros base_name _.
  eapply triple_call; [apply lib_random_lognormvariate|apply HIst|auto|apply HIS|].
  intros ln _.
  apply triple_modify.
  intros w (new & (r & ->) & Hl & Hc). cbn.
  eexists (new ++ [ _ ]).
  split; [exists r; rewrite app_assoc; reflexivity|].
  split; [rewrite !length_app; cbn; lia|].
  intros k m Hk. apply lookup_app_Some in Hk as [Hk|[Hge Hk]]; [apply Hc, Hk|].
  apply list_lookup_singleton_Some in Hk as [Hk <-]. cbn.
  split; [|exact Htier]. f_equal. lia.
Qed.

(** *** BOM edges *)

(** The ids of the materials of one tier, in row order. *)
Definition ids_of_tier (t : Z) (ms : list Material) : list string :=
  map material_id (filter (fun m => tier_level m = t) ms).

Lemma groups_by_tier_lookup (ms : list Material) (t : Z) :
  default [] (groups_by_tier ms !! t) = ids_of_tier t ms.
Proof.
  unfold ids_of_tier. induction ms as [|m ms IH]; [reflexivity|].
  cbn [groups_by_tier]. rewrite filter_cons.
  destruct (decide (tier_level m = t)) as [->|Hne].
  - rewrite lookup_insert_eq. cbn. rewrite IH. reflexivity.
  - rewrite lookup_insert_ne by exact Hne. exact IH.
Qed.

(** An edge from a material of some tier [t] to one of tier [t + 1]. *)
Definition edge_ok (ms : list Material) (e : BomEdge) : Prop :=
  exists t, 0 <= t <= 3 /\
    parent_material_id e ∈ ids_of_tier t ms /\
    child_material_id e ∈ ids_of_tier (t + 1) ms.

Definition bom_shape (w0 : Wd) (new : list BomEdge) (w : Wd) : Prop :=
  exists r, w = with_rng r (with_bom_edges (bom_edges w0 ++ new) w0).

Lemma lib_select_children (tier : Z) (pool : list string) (n : Z) :
  lib (select_children tier pool n : M Wd (list string))
      (0 <= n /\ (tier = 3 -> n <= Z.of_nat (length pool)))
      (fun cs => Forall (fun c => c ∈ pool) cs /\
                 length cs = Z.to_nat (Z.min (Z.of_nat (length pool)) n)).
Proof.
  unfold select_children. destruct (Z.eqb_spec tier 3) as [->|Hne].
  - eapply lib_weaken; [apply lib_np_random_choice_noreplace| |]; cbn beta.
    + intros [H1 H2]. split; [exact H1|auto].
    + intros cs (perm & Hperm & Hcs). split.
      * apply Forall_forall. intros c Hc.
        apply list_elem_of_lookup in Hc as [i Hi].
        destruct (Forall2_lookup_r _ _ _ _ _ Hcs Hi) as (j & _ & Hj).
        apply list_elem_of_lookup; eauto.
      * rewrite <- (Forall2_length _ _ _ Hcs).
        rewrite length_take, (Permutation_length Hperm), length_seq. lia.
  - eapply lib_weaken; [apply lib_random_sample| |]; cbn beta.
    + intros [H1 _]. lia.
    + intros cs [Hlen Hcs]. auto.
Qed.

Lemma generate_bom_spec (w0 : Wd) :
  triple (eq w0) generate_bom
    (fun _ w => exists new, bom_shape w0 new w /\
                            Forall (edge_ok (materials w0)) new)
    (fun _ w => exists new, bom_shape w0 new w /\
                            Forall (edge_ok (materials w0)) new).
Proof.
  set (I := fun w : Wd => exists new, bom_shape w0 new w /\
                                      Forall (edge_ok (materials w0)) new).
  assert (HIst : rng_stable I).
  { intros r w (new & (r0 & ->) & Hc). exists new.
    split; [exists r; reflexivity|auto]. }
  apply (triple_conseq I (eq w0) _ (fun _ => I) _ (fun _ w => I w /\ ~ False));
    [|intros w <-; exists []; split;
        [exists (rng_state w0); rewrite app_nil_r; destruct w0; reflexivity
        |constructor]
     |auto|intros e w [H _]; exact H].
  unfold generate_bom. apply triple_get_bind.
  intros w1 (new1 & (r1 & ->) & Hnew1).
  apply (triple_pre I); [|intros w <-; exists new1; split; [exists r1; reflexivity|auto]].
  cbn [materials with_rng with_bom_edges].
  eapply triple_call; [apply lib_groupby_tier_level|exact HIst|tauto|auto|].
  intros d ->.
  apply triple_for_inv. intros tier Htier.
  assert (Ht : 0 <= tier <= 3).
  { unfold range in Htier. apply list_elem_of_fmap in Htier as (k & -> & Hk).
    apply elem_of_seq in Hk. cbn in Hk. lia. }
  unfold bom_tier. rewrite !groups_by_tier_lookup.
  destruct (ids_of_tier (tier + 1) (materials w0)) as [|c0 pool'] eqn:Hpool.
  { apply triple_ret; auto. }
  rewrite <- Hpool.
  apply triple_for_inv. intros parent Hparent.
  unfold bom_parent.
  eapply triple_call; [apply lib_np_random_poisson|exact HIst|tauto|auto|].
  intros p _.
  eapply triple_call; [apply lib_select_children|exact HIst|tauto|auto|].
  intros children [Hchildren _].
  apply triple_for_inv. intros child Hchild.
  assert (Hin : child ∈ ids_of_tier (tier + 1) (materials w0)).
  { rewrite Forall_forall in Hchildren. apply Hchildren, Hchild. }
  eapply triple_call; [apply lib_random_uniform|exact HIst|tauto|auto|].
  intros u _.
  eapply (triple_call _ _ True (fun _ => True));
    [|exact HIst|tauto|auto|].
  { destruct (tier =? 3).
    - eapply lib_step; [apply lib_random_uniform|auto|].
      intros v _. apply lib_ret. constructor.
    - apply lib_ret. constructor. }
  intros qty _. apply triple_modify.
  intros w (new & (r & ->) & Hc). cbn.
  eexists (new ++ [ _ ]).
  split; [exists r; rewrite app_assoc; reflexivity|].
  apply Forall_app; split; [exact Hc|]. constructor; [|constructor].
  exists tier. cbn. auto.
Qed.

(** *** Approved supplier list *)

(** Every list in the map has one to three entries, all of them ids of
    suppliers of [sl]. *)
Definition asl_ok (sl : list Supplier) (mp : gmap string (list string)) : Prop :=
  forall key l, mp !! key = Some l ->
    (1 <= length l <= 3)%nat /\ Forall (fun x => x ∈ map supplier_id sl) l.

Definition asl_pre (w0 : Wd) : Prop :=
  suppliers w0 <> [] /\ Forall (fun s => 1 <= capacity_score s) (suppliers w0).

Definition asl_shape (w0 : Wd) (mp : gmap string (list string)) (w : Wd) : Prop :=
  exists r, w = with_rng r (with_mat_supplier_map mp w0).

Lemma accumulate_from_pos (ws : list Q) : forall acc,
  (0 <= acc)%Q -> Forall (fun x => 0 < x)%Q ws ->
  Forall (fun x => 0 < x)%Q (Py.accumulate_from acc ws).
Proof.
  induction ws as [|w ws IH]; intros acc Hacc Hws; cbn; [constructor|].
  apply Forall_cons in Hws as [Hw Hws].
  assert (0 < acc + w)%Q by lra.
  constructor; [assumption|]. apply IH; [lra|exact Hws].
Qed.

Lemma choices_accepts_positive (ws : list Q) :
  ws <> [] -> Forall (fun x => 0 < x)%Q ws ->
  choices_accepts (length ws) ws = true.
Proof.
  intros Hne Hws. unfold choices_accepts. rewrite Nat.eqb_refl. cbn [andb].
  destruct ws as [|w ws]; [congruence|].
  apply Forall_cons in Hws as [Hw Hws].
  assert (Hall : Forall (fun x => 0 < x)%Q (Py.accumulate (w :: ws))).
  { cbn. constructor; [exact Hw|]. apply accumulate_from_pos; [lra|exact Hws]. }
  destruct (last (Py.accumulate (w :: ws))) as [total|] eqn:Hlast.
  - apply last_Some_elem_of in Hlast. rewrite Forall_forall in Hall.
    apply Qltb_lt, Hall, Hlast.
  - apply last_None in Hlast. discriminate.
Qed.

Lemma assign_asl_spec (w0 : Wd) :
  asl_ok (suppliers w0) (mat_supplier_map w0) ->
  triple (eq w0) assign_asl
    (fun _ w => exists mp, asl_shape w0 mp w /\ asl_ok (suppliers w0) mp /\
                  forall m, m ∈ materials w0 -> is_Some (mp !! material_id m))
    (fun _ w => (exists mp, asl_shape w0 mp w /\ asl_ok (suppliers w0) mp) /\
                ~ asl_pre w0).
Proof.
  intros Hok0.
  set (S := fun w : Wd => exists mp, asl_shape w0 mp w /\ asl_ok (suppliers w0) mp).
  set (J := fun (pre : list Material) (w : Wd) =>
              exists mp, asl_shape w0 mp w /\ asl_ok (suppliers w0) mp /\
                forall m, m ∈ pre -> is_Some (mp !! material_id m)).
  assert (HJS : forall pre w, J pre w -> S w).
  { intros pre w (mp & Hs & Hc & _). exists mp; auto. }
  assert (HJst : forall pre, rng_stable (J pre)).
  { intros pre r w (mp & (r0 & ->) & Hl). exists mp.
    split; [exists r; reflexivity|auto]. }
  unfold assign_asl.
  apply (triple_pre (J [])).
  2:{ intros w <-. exists (mat_supplier_map w0). split;
      [exists (rng_state w0); destruct w0; reflexivity|].
      split; [exact Hok0|]. intros m Hm. apply elem_of_nil in Hm. destruct Hm. }
  apply triple_get_bind. intros w1 (mp1 & (r1 & ->) & Hok1 & Hcov1).
  cbn [materials suppliers with_rng with_mat_supplier_map].
  apply (triple_pre (J [])).
  2:{ intros w <-. exists mp1. split; [exists r1; reflexivity|auto]. }
  eapply triple_post; [apply (triple_for _ _ J)|].
  2:{ cbn beta. intros _ w H. exact H. }
  intros pre mat rest Hmats.
  eapply triple_call; [apply lib_random_randint|apply HJst|lia|apply HJS|].
  intros k Hk; cbn beta in Hk.
  eapply triple_call; [apply lib_random_choices|apply HJst| |apply HJS|].
  { intros [Hne Hcap]. rewrite <- (length_map (fun s => inject_Z (capacity_score s))).
    apply choices_accepts_positive.
    - destruct (suppliers w0); [congruence|discriminate].
    - apply Forall_fmap. eapply Forall_impl; [exact Hcap|].
      intros s Hs; cbn in Hs |- *. unfold compose, Qlt; cbn. lia. }
  intros candidates [Hlen Hcands].
  apply triple_modify.
  intros w (mp & (r & ->) & Hok & Hcov). cbn.
  exists (<[material_id mat := map supplier_id candidates]> mp).
  split; [exists r; reflexivity|]. split.
  - intros key l Hl. apply lookup_insert_Some in Hl as [[_ <-]|[_ Hl]];
      [|exact (Hok key l Hl)].
    rewrite length_map, Hlen. split; [lia|].
    apply Forall_fmap. eapply Forall_impl; [exact Hcands|].
    intros s Hs; cbn. apply list_elem_of_fmap. eauto.
  - intros m Hm. destruct (decide (material_id mat = material_id m)) as [->|Hne].
    + rewrite lookup_insert_eq. eauto.
    + rewrite lookup_insert_ne by exact Hne.
      apply elem_of_app in Hm as [Hm|Hm]; [apply Hcov, Hm|].
      apply list_elem_of_singleton in Hm. subst m. congruence.
Qed.

(** *** Purchase orders *)

(** The variables up to the stream and the last status drawn. *)
Definition po_frame (w1 w : Wd) : Prop :=
  exists r fs, w = with_rng r (with_fulfillment_status fs w1).

Lemma po_frame_stable w1 : rng_stable (po_frame w1).
Proof. intros r w (r0 & fs & ->). exists r, fs. reflexivity. Qed.

Lemma po_frame_refl w1 : po_frame w1 w1.
Proof. exists (rng_state w1), (fulfillment_status w1). destruct w1; reflexivity. Qed.

(** What the fulfilment block leaves: [fs] is the status variable
    afterwards, [rcv] the quantity received and the receipt date. *)
Definition fulfil_outcome (due cur qo : Z) (fs : option string)
    (rcv : Z * option Z) : Prop :=
  (cur < due /\ rcv = (0, None)) \/
  (due <= cur /\
   ((fs = Some "Full" /\ fst rcv = qo /\
      exists d, -2 <= d <= 10 /\ snd rcv = Some (due + d)) \/
    (fs = Some "Partial" /\ 0 <= fst rcv < qo /\
      exists d, 1 <= d <= 15 /\ snd rcv = Some (due + d)) \/
    (fs = Some "Missing" /\ rcv = (0, None)))).

Lemma int_nonneg (x : Q) : (0 <= x)%Q -> Py.int x = Qfloor x.
Proof.
  destruct x as [n d]. unfold Qle, Py.int; cbn. intros H.
  apply Z.quot_div_nonneg; lia.
Qed.

Lemma int_partial (qo : Z) (r : Q) :
  1 <= qo -> (0 <= r /\ r < 1)%Q ->
  0 <= Py.int (inject_Z qo * ((1 # 10) + ((9 # 10) - (1 # 10)) * r)) < qo.
Proof.
  intros Hqo [Hr0 Hr1].
  set (u := ((1 # 10) + ((9 # 10) - (1 # 10)) * r)%Q).
  assert (Hu : (0 <= u /\ u < 1)%Q) by (unfold u; split; lra).
  assert (Hq : (1 <= inject_Z qo)%Q) by (rewrite <- (Zle_Qle 1); exact Hqo).
  assert (Hx0 : (0 <= inject_Z qo * u)%Q) by (apply Qmult_le_0_compat; lra).
  assert (Hx1 : (inject_Z qo * u < inject_Z qo)%Q).
  { assert (H : (inject_Z qo * u < inject_Z qo * 1)%Q) by (apply Qmult_lt_l; lra).
    rewrite Qmult_1_r in H. exact H. }
  rewrite int_nonneg by exact Hx0. split.
  - change 0 with (Qfloor 0). apply Qfloor_resp_le, Hx0.
  - rewrite Zlt_Qlt. eapply Qle_lt_trans; [apply Qfloor_le|exact Hx1].
Qed.

Lemma fulfil_spec (w1 : Wd) (due cur qo : Z) :
  1 <= qo ->
  triple (po_frame w1) (fulfil due cur qo)
    (fun rcv w => po_frame w1 w /\
                  fulfil_outcome due cur qo (fulfillment_status w) rcv)
    (fun _ w => po_frame w1 w /\ ~ True).
Proof.
  intros Hqo. unfold fulfil. destruct (Z.gtb_spec due cur) as [Hgt|Hle].
  { apply triple_ret. intros w Hw. split; [exact Hw|]. left. auto. }
  eapply triple_call;
    [apply lib_np_random_choice|apply po_frame_stable| |auto|].
  { intros _. vm_compute. reflexivity. }
  intros status Hstatus; cbn beta in Hstatus.
  eapply triple_bind; [apply (triple_modify _ _
    (fun _ w => po_frame w1 w /\ fulfillment_status w = Some status))|].
  { intros w (r & fs & ->). split; [exists r, (Some status)|]; reflexivity. }
  intros tt0; cbn beta.
  set (P := fun w : Wd => po_frame w1 w /\ fulfillment_status w = Some status).
  assert (HP : rng_stable P).
  { intros r w [(r0 & fs & ->) Hfs]. split; [exists r, fs; reflexivity|exact Hfs]. }
  assert (HPS : forall w, P w -> po_frame w1 w) by (intros w [H _]; exact H).
  repeat (apply elem_of_cons in Hstatus as [->|Hstatus]);
    [| | |apply elem_of_nil in Hstatus; destruct Hstatus]; cbn [String.eqb Ascii.eqb Bool.eqb].
  - eapply triple_call; [apply lib_random_randint|exact HP|lia|exact HPS|].
    intros d Hd; cbn beta in Hd. apply triple_ret. intros w [Hw Hfs].
    split; [exact Hw|]. right. split; [lia|]. left. rewrite Hfs. eauto.
  - eapply triple_call; [apply lib_random_uniform|exact HP|auto|exact HPS|].
    intros u (r & Hr & ->).
    eapply triple_call; [apply lib_random_randint|exact HP|lia|exact HPS|].
    intros d Hd; cbn beta in Hd. apply triple_ret. intros w [Hw Hfs].
    split; [exact Hw|]. right. split; [lia|]. right; left. rewrite Hfs.
    split; [reflexivity|]. split; [apply int_partial; auto|eauto].
  - apply triple_ret. intros w [Hw Hfs].
    split; [exact Hw|]. right. split; [lia|]. right; right. rewrite Hfs. auto.
Qed.

(** What holds of every order the loop body appends, given the
    supplier map and the horizon it ran with. *)
Definition order_ok (mp : gmap string (list string)) (cur : Z) (o : Order) : Prop :=
  (exists l, mp !! po_material_id o = Some l /\ po_supplier_id o ∈ l) /\
  Py.date 2024 1 1 <= order_date o <= Py.date 2025 12 31 /\
  (exists lead, 14 <= lead <= 90 /\ due_date o = order_date o + lead) /\
  1 <= quantity_ordered o /\
  (exists fs, fulfil_outcome (due_date o) cur (quantity_ordered o) fs
                (quantity_received o, receipt_date o)).

(** What the loop body needs in order not to raise. *)
Definition po_pre (w1 : Wd) : Prop :=
  materials w1 <> [] /\
  forall m, m ∈ materials w1 ->
    exists l, mat_supplier_map w1 !! material_id m = Some l /\ l <> [].

(** The variables after one more order. *)
Definition po_step (w1 : Wd) (o : Order) (w : Wd) : Prop :=
  exists r fs,
    w = with_rng r (with_fulfillment_status fs
          (with_order_records (order_records w1 ++ [o])
             (with_counters (current_po_count w1 + 1) (po_id_counter w1 + 1) w1))).

Lemma lib_quantity_ordered (is_bulk : bool) :
  lib ((if is_bulk
        then x <- np_random_pareto (116 # 100) ;; ret (Py.int (x * 50) + 1)
        else random_randint 1 100) : M Wd Z) True (fun qo => 1 <= qo).
Proof.
  destruct is_bulk.
  - eapply lib_step; [apply lib_np_random_pareto|intros _; reflexivity|].
    intros x Hx; cbn beta in Hx. apply lib_ret.
    rewrite int_nonneg by (apply Qmult_le_0_compat; [exact Hx|discriminate]).
    assert (0 <= Qfloor (x * 50)); [|lia].
    change 0 with (Qfloor 0). apply Qfloor_resp_le.
    apply Qmult_le_0_compat; [exact Hx|discriminate].
  - eapply lib_weaken; [apply lib_random_randint| |]; cbn beta; intros; lia.
Qed.

Lemma po_iteration_spec (w1 : Wd) :
  triple (eq w1) po_iteration
    (fun _ w => exists o, po_step w1 o w /\
                          order_ok (mat_supplier_map w1) (current_date w1) o)
    (fun _ w => po_frame w1 w /\ ~ po_pre w1).
Proof.
  unfold po_iteration. apply triple_get_bind. intros w <-.
  apply (triple_pre (po_frame w1)); [|intros w <-; apply po_frame_refl].
  eapply triple_call; [apply lib_random_choice|apply po_frame_stable| |auto|].
  { intros [H _]; exact H. }
  intros mat Hmat; cbn beta in Hmat.
  eapply triple_call; [apply lib_dict_get|apply po_frame_stable| |auto|].
  { intros [_ H]. destruct (H mat Hmat) as (l & Hl & _). rewrite Hl; eauto. }
  intros valid Hvalid; cbn beta in Hvalid.
  eapply triple_call; [apply lib_random_choice|apply po_frame_stable| |auto|].
  { intros [_ H]. destruct (H mat Hmat) as (l & Hl & Hne). congruence. }
  intros supplier Hsupplier; cbn beta in Hsupplier.
  eapply triple_call; [apply lib_fake_date_between|apply po_frame_stable| |auto|].
  { intros _. vm_compute. discriminate. }
  intros po_date Hdate; cbn beta in Hdate.
  eapply triple_call; [apply lib_random_randint|apply po_frame_stable|lia|auto|].
  intros lead Hlead; cbn beta in Hlead.
  eapply triple_call; [apply lib_random_random|apply po_frame_stable|auto|auto|].
  intros r _.
  eapply triple_call; [apply lib_quantity_ordered|apply po_frame_stable|auto|auto|].
  intros qo Hqo; cbn beta in Hqo.
  apply (triple_bind _ _ _
           (fun rcv w => po_frame w1 w /\
              fulfil_outcome (po_date + lead) (current_date w1) qo
                (fulfillment_status w) rcv)).
  { eapply triple_conseq; [apply (fulfil_spec w1 _ _ _ Hqo)|auto| |].
    - intros a w H; exact H.
    - cbn beta. intros e w [Hw Hn]. destruct Hn. exact I. }
  intros [qr rd]. cbn [fst snd].
  set (P := fun w : Wd => po_frame w1 w /\
              fulfil_outcome (po_date + lead) (current_date w1) qo
                (fulfillment_status w) (qr, rd)).
  assert (HP : rng_stable P).
  { intros r0 w [(r1 & fs & ->) Hfs]. split; [exists r0, fs; reflexivity|exact Hfs]. }
  assert (HPS : forall w, P w -> po_frame w1 w) by (intros w [H _]; exact H).
  eapply triple_call; [apply lib_random_uniform|exact HP|auto|exact HPS|].
  intros u _.
  intros w [(r1 & fs & ->) Hfs]. cbn.
  eexists. split; [exists r1, fs; reflexivity|].
  unfold order_ok; cbn.
  split; [exists valid; auto|]. split; [exact Hdate|].
  split; [exists lead; auto|]. split; [exact Hqo|]. exists fs. exact Hfs.
Qed.

(** The variables after the order cell appended [new]. *)
Definition orders_shape (w0 : Wd) (new : list Order) (w : Wd) : Prop :=
  exists r fs,
    w = with_rng r (with_fulfillment_status fs
          (with_order_records (order_records w0 ++ new)
             (with_counters (Z.of_nat (length new)) (100000 + Z.of_nat (length new))
                (with_current_date (Py.date 2025 10 31) w0)))).

Lemma simulate_orders_spec (cfg : Config) (w0 : Wd) :
  triple (eq w0) (simulate_orders cfg)
    (fun _ w => exists new, orders_shape w0 new w /\
                  Forall (order_ok (mat_supplier_map w0) (Py.date 2025 10 31)) new /\
                  length new = Z.to_nat (TARGET_PO_COUNT cfg))
    (fun _ w => (exists new, orders_shape w0 new w /\
                   Forall (order_ok (mat_supplier_map w0) (Py.date 2025 10 31)) new) /\
                ~ po_pre w0).
Proof.
  set (T := TARGET_PO_COUNT cfg).
  set (J := fun (n : nat) (w : Wd) =>
              exists new, orders_shape w0 new w /\
                Forall (order_ok (mat_supplier_map w0) (Py.date 2025 10 31)) new /\
                Z.of_nat (length new) + Z.of_nat n = Z.max 0 T).
  unfold simulate_orders. fold T.
  apply (triple_bind _ _ _ (fun _ => J (Z.to_nat T))).
  { apply triple_modify. intros w <-. exists []. split.
    - exists (rng_state w0), (fulfillment_status w0).
      rewrite app_nil_r. destruct w0; reflexivity.
    - split; [constructor|]. cbn. lia. }
  intros tt0.
  eapply triple_post; [apply (triple_while_fuel _ _ _ J)|].
  - intros n w [(new & (r & fs & ->) & Hok & Hlen) Hc].
    match goal with |- context [po_iteration ?W] =>
      pose proof (po_iteration_spec W W eq_refl) as Hit;
      destruct (po_iteration W) as [[[]|e] w'] end; cbn [fst snd] in *.
    + destruct Hit as (o & (r' & fs' & ->) & Ho). exists (new ++ [o]).
      split; [|split].
      * exists r', fs'. cbn. rewrite length_app, <- app_assoc. cbn.
        replace (Z.of_nat (length new + 1)) with (Z.of_nat (length new) + 1) by lia.
        rewrite Z.add_assoc. reflexivity.
      * apply Forall_app; split; [exact Hok|]. constructor; [exact Ho|constructor].
      * rewrite length_app. cbn. lia.
    + destruct Hit as [(r' & fs' & ->) Hpre]. split; [|exact Hpre].
      exists new. split; [exists r', fs'; reflexivity|exact Hok].
  - intros w (new & (r & fs & ->) & Hok & Hlen). cbn. apply Z.ltb_ge. lia.
  - cbn beta. intros _ w (n & (new & Hs & Hok & Hlen) & Hc). exists new.
    split; [exact Hs|]. split; [exact Hok|].
    destruct Hs as (r & fs & ->). cbn in Hc. apply Z.ltb_ge in Hc. lia.
Qed.

(** *** The whole script *)

(** What holds of the variables when the script stops, whether it ran
    to the end or raised on the way. *)
Definition run_inv (w : Wd) : Prop :=
  Forall (fun s => 1 <= capacity_score s) (suppliers w) /\
  materials_ok (materials w) /\
  Forall (edge_ok (materials w)) (bom_edges w) /\
  asl_ok (suppliers w) (mat_supplier_map w) /\
  Forall (order_ok (mat_supplier_map w) (Py.date 2025 10 31)) (order_records w) /\
  (order_records w = [] \/
   forall m, m ∈ materials w -> is_Some (mat_supplier_map w !! material_id m)).

Lemma asl_ok_empty (sl : list Supplier) : asl_ok sl ∅.
Proof. intros key l H. rewrite lookup_empty in H. discriminate. Qed.

Lemma materials_ok_nil : materials_ok [].
Proof. intros k m H. rewrite lookup_nil in H. discriminate. Qed.

Ltac inv_done :=
  unfold run_inv; repeat match goal with x := _ |- _ => subst x end; cbn;
  refine (conj _ (conj _ (conj _ (conj _ (conj _ _)))));
  auto using materials_ok_nil, asl_ok_empty.

Lemma run_from_inv (cfg : Config) (s : rng) : run_inv (snd (run_from cfg s)).
Proof.
  unfold run_from, script. set (w0 := initial_world s).
  pose proof (generate_suppliers_spec cfg w0 w0 eq_refl) as H1.
  unfold bind at 1.
  destruct (generate_suppliers cfg w0) as [[[]|e1] w1]; cbn [fst snd] in *.
  2:{ destruct H1 as [(sup & (r1 & ->) & Hsup) _].
      inv_done. }
  destruct H1 as (sup & (r1 & ->) & _ & Hsup).
  unfold bind at 1.
  match goal with |- context [generate_materials cfg ?W] => set (w1 := W) end.
  pose proof (generate_materials_spec cfg w1 w1 eq_refl) as H2.
  destruct (generate_materials cfg w1) as [[[]|e2] w2]; cbn [fst snd] in *.
  2:{ destruct H2 as [(mats & (r2 & ->) & Hmats) _].
      inv_done. }
  destruct H2 as (mats & (r2 & ->) & _ & Hmats).
  unfold bind at 1.
  match goal with |- context [generate_bom ?W] => set (w2 := W) end.
  pose proof (generate_bom_spec w2 w2 eq_refl) as H3.
  destruct (generate_bom w2) as [[[]|e3] w3]; cbn [fst snd] in *.
  2:{ destruct H3 as (edges & (r3 & ->) & Hedges).
      inv_done. }
  destruct H3 as (edges & (r3 & ->) & Hedges).
  unfold bind at 1.
  match goal with |- context [assign_asl ?W] => set (w3 := W) end.
  pose proof (assign_asl_spec w3 (asl_ok_empty _) w3 eq_refl) as H4.
  destruct (assign_asl w3) as [[[]|e4] w4]; cbn [fst snd] in *.
  2:{ destruct H4 as [(mp & (r4 & ->) & Hmp) _].
      inv_done. }
  destruct H4 as (mp & (r4 & ->) & Hmp & Hcov).
  subst w3 w2 w1 w0. cbn in Hcov.
  match goal with |- context [simulate_orders cfg ?W] => set (w4 := W) end.
  pose proof (simulate_orders_spec cfg w4 w4 eq_refl) as H5.
  destruct (simulate_orders cfg w4) as [[[]|e5] w5]; cbn [fst snd] in *.
  2:{ destruct H5 as [(orders & (r5 & fs & ->) & Horders) _].
      inv_done. }
  destruct H5 as (orders & (r5 & fs & ->) & Horders & _).
  inv_done.
Qed.

End Cells.

(** ** The claims *)

Section Claims.
Context {rng : Type} `{RS : RandomStream rng}.

Abbreviation Wc := (World rng).

(** The tier is readable from a material id. *)
Lemma mat_id_of_tier (t t' i i' : Z) :
  0 <= t <= 4 -> 0 <= t' <= 4 -> mat_id_of t i = mat_id_of t' i' -> t = t'.
Proof.
  intros Ht Ht' H.
  assert (Hc : t = 0 \/ t = 1 \/ t = 2 \/ t = 3 \/ t = 4) by lia.
  assert (Hc' : t' = 0 \/ t' = 1 \/ t' = 2 \/ t' = 3 \/ t' = 4) by lia.
  destruct Hc as [->|[->|[->|[->| ->]]]];
    destruct Hc' as [->|[->|[->|[->| ->]]]];
    try reflexivity; unfold mat_id_of in H; cbn in H; discriminate.
Qed.

Lemma ids_of_tier_elem (t : Z) (ms : list Material) (x : string) :
  x ∈ ids_of_tier t ms <->
  exists m, m ∈ ms /\ tier_level m = t /\ material_id m = x.
Proof.
  unfold ids_of_tier. rewrite list_elem_of_fmap. split.
  - intros (m & -> & Hm). apply list_elem_of_filter in Hm as [Ht Hm]. eauto.
  - intros (m & Hm & Ht & <-). exists m. split; [reflexivity|].
    apply list_elem_of_filter. auto.
Qed.

Lemma materials_ok_tier (ms : list Material) (p q : Material) :
  materials_ok ms -> p ∈ ms -> q ∈ ms ->
  material_id p = material_id q -> tier_level p = tier_level q.
Proof.
  intros Hok [kp Hp]%list_elem_of_lookup [kq Hq]%list_elem_of_lookup Hid.
  destruct (Hok kp p Hp) as [Hidp Htp]. destruct (Hok kq q Hq) as [Hidq Htq].
  rewrite Hidp, Hidq in Hid. exact (mat_id_of_tier _ _ _ _ Htp Htq Hid).
Qed.

(** C6. Every BOM edge the script has produced when it stops joins a
    material of some tier to a material of the next tier: both ends
    are ids of generated materials, whatever materials carry these ids
    have tiers [t] and [t + 1], and the two ends differ.  And a tier
    whose child pool is empty is passed over: the tier step returns
    without raising and leaves every variable as it was. *)
Theorem bom_edges_join_adjacent_tiers (cfg : Config) (s : rng)
    (mats_by_tier : gmap Z (list string)) (tier : Z) (w0 : Wc) :
  default [] (mats_by_tier !! (tier + 1)) = [] ->
  (forall e, e ∈ bom_edges (snd (run_from cfg s)) ->
     let ms := materials (snd (run_from cfg s)) in
     (exists p c, p ∈ ms /\ c ∈ ms /\
        material_id p = parent_material_id e /\
        material_id c = child_material_id e) /\
     (forall p c, p ∈ ms -> c ∈ ms ->
        material_id p = parent_material_id e ->
        material_id c = child_material_id e ->
        tier_level c = tier_level p + 1) /\
     parent_material_id e <> child_material_id e) /\
  bom_tier mats_by_tier tier w0 = (Ok tt, w0).
Proof.
  intros Hempty. split.
  - intros e He ms. destruct (run_from_inv cfg s) as (_ & Hmats & Hedges & _).
    fold ms in Hmats, Hedges. rewrite Forall_forall in Hedges.
    destruct (Hedges e He) as (t & Ht & Hp & Hc).
    apply ids_of_tier_elem in Hp as (p0 & Hp0 & Htp0 & Hidp0).
    apply ids_of_tier_elem in Hc as (c0 & Hc0 & Htc0 & Hidc0).
    assert (Hadj : forall p c, p ∈ ms -> c ∈ ms ->
              material_id p = parent_material_id e ->
              material_id c = child_material_id e ->
              tier_level c = tier_level p + 1).
    { intros p c Hp Hc Hidp Hidc.
      rewrite (materials_ok_tier ms p p0 Hmats Hp Hp0) by congruence.
      rewrite (materials_ok_tier ms c c0 Hmats Hc Hc0) by congruence.
      lia. }
    split; [exists p0, c0; auto|]. split; [exact Hadj|].
    intros Heq.
    pose proof (Hadj p0 c0 Hp0 Hc0 Hidp0 Hidc0) as H1.
    pose proof (materials_ok_tier ms p0 c0 Hmats Hp0 Hc0 ltac:(congruence)) as H2.
    lia.
  - unfold bom_tier. rewrite Hempty. reflexivity.
Qed.

(** *** Cells that cannot raise, and draws that must *)

Lemma generate_suppliers_ok (cfg : Config) (w0 : Wc) :
  suppliers_pre cfg ->
  exists w new, generate_suppliers cfg w0 = (Ok tt, w) /\
    suppliers_shape w0 new w /\
    length new = Z.to_nat (NUM_SUPPLIERS cfg) /\
    Forall (fun s => 1 <= capacity_score s) new.
Proof.
  intros Hpre. pose proof (generate_suppliers_spec cfg w0 w0 eq_refl) as H.
  destruct (generate_suppliers cfg w0) as [[[]|e] w]; cbn [fst snd] in H.
  - destruct H as (new & H). exists w, new. auto.
  - destruct H as [_ H]. contradiction.
Qed.

Lemma generate_materials_ok (cfg : Config) (w0 : Wc) :
  materials_pre cfg ->
  exists w new, generate_materials cfg w0 = (Ok tt, w) /\
    materials_shape w0 new w /\
    length new = Z.to_nat (NUM_MATERIALS cfg) /\ materials_ok new.
Proof.
  intros Hpre. pose proof (generate_materials_spec cfg w0 w0 eq_refl) as H.
  destruct (generate_materials cfg w0) as [[[]|e] w]; cbn [fst snd] in H.
  - destruct H as (new & H). exists w, new. auto.
  - destruct H as [_ H]. contradiction.
Qed.

Lemma simulate_orders_ok (cfg : Config) (w0 : Wc) :
  po_pre w0 ->
  exists w new, simulate_orders cfg w0 = (Ok tt, w) /\
    orders_shape w0 new w /\
    Forall (order_ok (mat_supplier_map w0) (Py.date 2025 10 31)) new /\
    length new = Z.to_nat (TARGET_PO_COUNT cfg).
Proof.
  intros Hpre. pose proof (simulate_orders_spec cfg w0 w0 eq_refl) as H.
  destruct (simulate_orders cfg w0) as [[[]|e] w]; cbn [fst snd] in H.
  - destruct H as (new & H). exists w, new. auto.
  - destruct H as [_ H]. contradiction.
Qed.

Lemma random_choices_rejects {A} (population : list A) (weights : list Q) (k : Z) :
  choices_accepts (length population) weights = false ->
  exists e, forall w : Wc, random_choices population weights k w = (Raise e, w).
Proof.
  unfold choices_accepts, random_choices. rewrite length_accumulate.
  destruct (Nat.eqb_spec (length weights) (length population)); cbn [andb negb].
  - destruct (last (Py.accumulate weights)) as [total|].
    + unfold Py.Qltb, Py.Qleb. intros H. apply negb_false_iff in H. rewrite H.
      eexists; reflexivity.
    + intros _. eexists; reflexivity.
  - intros _. eexists; reflexivity.
Qed.

Lemma forallb_negb_existsb {A} (f : A -> bool) (l : list A) :
  forallb (fun x => negb (f x)) l = false -> existsb f l = true.
Proof.
  induction l as [|x l IH]; cbn; [discriminate|].
  destruct (f x); cbn; auto.
Qed.

Lemma np_random_choice_rejects {A} (a : list A) (p : list Q) :
  choice_accepts (length a) p = false ->
  exists msg, forall w : Wc, np_random_choice a p w = (Raise (ValueError msg), w).
Proof.
  unfold choice_accepts, np_random_choice.
  destruct a as [|a0 a']; [intros _; eexists; reflexivity|].
  set (n := length (a0 :: a')).
  replace (n =? 0)%nat with false by (symmetry; apply Nat.eqb_neq; unfold n; cbn; lia).
  cbn [negb andb].
  destruct (length p =? n)%nat; cbn [negb andb]; [|intros _; eexists; reflexivity].
  destruct (forallb (fun x => negb (Py.Qltb x 0)) p) eqn:Hall; cbn [andb].
  - assert (Hex : existsb (fun x => Py.Qltb x 0) p = false).
    { destruct (existsb (fun x => Py.Qltb x 0) p) eqn:E; [|reflexivity].
      rewrite (existsb_forallb_negb _ _ E) in Hall. discriminate. }
    rewrite Hex. intros H. apply negb_false_iff in H. rewrite H.
    eexists; reflexivity.
  - intros _. rewrite (forallb_negb_existsb _ _ Hall). eexists; reflexivity.
Qed.

Lemma range_pos (n : Z) : 1 <= n -> exists rest, range n = 0 :: rest.
Proof.
  intros H. unfold range. destruct (Z.to_nat n) as [|k] eqn:E; [lia|].
  cbn. eauto.
Qed.

Lemma range_nonpos (n : Z) : n <= 0 -> range n = [].
Proof.
  intros H. unfold range. replace (Z.to_nat n) with O by lia. reflexivity.
Qed.

Lemma generate_materials_rejects (cfg : Config) (w0 : Wc) :
  choice_accepts 5 (TIER_DISTRIBUTION cfg) = false -> 1 <= NUM_MATERIALS cfg ->
  exists msg, generate_materials cfg w0 = (Raise (ValueError msg), w0).
Proof.
  intros Hrej HM. destruct (range_pos _ HM) as [rest Hrange].
  destruct (np_random_choice_rejects [0; 1; 2; 3; 4] (TIER_DISTRIBUTION cfg) Hrej)
    as [msg Hmsg].
  exists msg. unfold generate_materials. rewrite Hrange. cbn [for_].
  unfold bind at 1. unfold bind at 1. rewrite Hmsg. reflexivity.
Qed.

Lemma generate_suppliers_rejects (cfg : Config) (w0 : Wc) :
  1 <= NUM_SUPPLIERS cfg ->
  choices_accepts (length (COUNTRY_WEIGHTS cfg)) (map snd (COUNTRY_WEIGHTS cfg)) = false ->
  exists e r, generate_suppliers cfg w0 = (Raise e, with_rng r w0).
Proof.
  intros HN Hrej. destruct (range_pos _ HN) as [rest Hrange].
  destruct (random_choices_rejects (map fst (COUNTRY_WEIGHTS cfg))
              (map snd (COUNTRY_WEIGHTS cfg)) 1) as [e He].
  { rewrite length_map. exact Hrej. }
  destruct (lib_ok _ _ _ w0 (lib_np_random_zipf (3 # 2) (NUM_SUPPLIERS cfg))
              ltac:(lia)) as (zs & r1 & Hz & Hzlen & _).
  assert (Hzne : zs <> []) by (intros ->; cbn in Hzlen; lia).
  destruct (lib_ok _ _ _ (with_rng r1 w0) (lib_ndarray_max zs) Hzne)
    as (mx & r2 & Hmx & _).
  exists e, r2. unfold generate_suppliers.
  rewrite (bind_ok _ _ _ _ _ Hz), (bind_ok _ _ _ _ _ Hmx), Hrange. cbn [for_].
  unfold bind at 1. unfold bind at 1. rewrite He. reflexivity.
Qed.

(** *** Tier 3 to tier 4 *)

Lemma omap_lookup_seq_from {A} (a : list A) : forall pre : list A,
  omap (fun i => (pre ++ a) !! i) (seq (length pre) (length a)) = a.
Proof.
  induction a as [|x a IH]; intros pre; [reflexivity|].
  cbn [length seq]. simpl omap.
  rewrite list_lookup_middle by reflexivity. f_equal.
  specialize (IH (pre ++ [x])).
  rewrite <- app_assoc, length_app in IH. cbn in IH.
  rewrite Nat.add_1_r in IH. exact IH.
Qed.

Lemma omap_lookup_Forall2 {A} (a : list A) (idx : list nat) (xs : list A) :
  Forall2 (fun i x => a !! i = Some x) idx xs -> omap (fun i => a !! i) idx = xs.
Proof.
  induction 1 as [|i x idx xs Hi _ IH]; [reflexivity|].
  simpl omap. rewrite Hi. f_equal. exact IH.
Qed.

(** C2. At tier 3 the children of a parent are the pool entries at the
    first [n] places of one permutation of all pool positions: a draw
    without replacement over the whole tier-4 pool, with no weights
    and no smaller candidate subset.  The positions are pairwise
    distinct, and a fan-out equal to the pool size returns every
    tier-4 material exactly once. *)
Theorem tier3_children_are_an_unweighted_sample
    (pool : list string) (n : Z) (w : Wc) :
  0 <= n <= Z.of_nat (length pool) ->
  exists children perm w',
    select_children 3 pool n w = (Ok children, w') /\
    Permutation perm (seq 0 (length pool)) /\
    NoDup (take (Z.to_nat n) perm) /\
    Forall2 (fun i c => pool !! i = Some c) (take (Z.to_nat n) perm) children /\
    (n = Z.of_nat (length pool) -> Permutation children pool).
Proof.
  intros Hn. unfold select_children. cbn [Z.eqb Pos.eqb].
  destruct (lib_ok _ _ _ w (lib_np_random_choice_noreplace pool n) Hn)
    as (children & r & Heq & perm & Hperm & Hcs).
  exists children, perm, (with_rng r w).
  split; [exact Heq|]. split; [exact Hperm|]. split; [|split; [exact Hcs|]].
  - apply (sublist_NoDup _ perm); [|apply sublist_take].
    rewrite Hperm. apply NoDup_seq.
  - intros ->. rewrite Nat2Z.id in Hcs.
    rewrite take_ge in Hcs
      by (rewrite (Permutation_length Hperm), length_seq; lia).
    rewrite <- (omap_lookup_Forall2 _ _ _ Hcs), Hperm.
    pose proof (omap_lookup_seq_from pool []) as Hall. cbn in Hall.
    rewrite Hall. reflexivity.
Qed.

(** The other tiers ask for at most the pool size, so their sample
    cannot be refused; tier 3 asks for the fan-out as drawn. *)
Lemma other_tiers_clamp (tier : Z) (pool : list string) (n : Z) (w : Wc) :
  tier <> 3 -> 0 <= n ->
  exists children r,
    select_children tier pool n w = (Ok children, with_rng r w) /\
    length children = Z.to_nat (Z.min (Z.of_nat (length pool)) n).
Proof.
  intros Ht Hn.
  destruct (lib_ok _ _ _ w (lib_select_children tier pool n))
    as (children & r & Heq & _ & Hlen); [split; [exact Hn|contradiction]|].
  exists children, r. auto.
Qed.

Lemma tier3_does_not_clamp (pool : list string) (n : Z) (w : Wc) :
  Z.of_nat (length pool) < n ->
  exists msg, select_children 3 pool n w = (Raise (ValueError msg), w).
Proof.
  intros Hn. unfold select_children, np_random_choice_noreplace. cbn [Z.eqb Pos.eqb].
  destruct (Z.ltb_spec n 0); [lia|].
  destruct ((Z.of_nat (length pool) =? 0) && (0 <? n)); [eexists; reflexivity|].
  destruct (Z.ltb_spec (Z.of_nat (length pool)) n); [eexists; reflexivity|lia].
Qed.

(** *** Zero suppliers *)

(** C3. With [NUM_SUPPLIERS = 0] the script stops in the supplier cell:
    [np.random.zipf(size=0)] is an empty array and its [max()] raises
    [ValueError]; no supplier list is produced. *)
Theorem zero_suppliers_raises (sd m t : Z) (td : list Q) (cw : list (string * Q))
    (s : rng) :
  fst (run_from (Build_Config sd 0 m t td cw) s) =
    Raise (ValueError
      "zero-size array to reduction operation maximum which has no identity") /\
  suppliers (snd (run_from (Build_Config sd 0 m t td cw) s)) = [].
Proof. split; reflexivity. Qed.

(** *** Counts *)

Lemma assign_asl_ok (w0 : Wc) :
  asl_ok (suppliers w0) (mat_supplier_map w0) -> asl_pre w0 ->
  exists w mp, assign_asl w0 = (Ok tt, w) /\ asl_shape w0 mp w /\
    asl_ok (suppliers w0) mp /\
    forall m, m ∈ materials w0 -> is_Some (mp !! material_id m).
Proof.
  intros Hok Hpre. pose proof (assign_asl_spec w0 Hok w0 eq_refl) as H.
  destruct (assign_asl w0) as [[[]|e] w]; cbn [fst snd] in H.
  - destruct H as (mp & H). exists w, mp. auto.
  - destruct H as [_ H]. contradiction.
Qed.

(** A run on a valid configuration: the supplier and material counts
    are met; the run then either completes with the order count met,
    or stopped in the BOM cell before any order. *)
Lemma run_counts (cfg : Config) (s : rng) :
  suppliers_pre cfg -> materials_pre cfg -> 1 <= NUM_MATERIALS cfg ->
  length (suppliers (snd (run_from cfg s))) = Z.to_nat (NUM_SUPPLIERS cfg) /\
  length (materials (snd (run_from cfg s))) = Z.to_nat (NUM_MATERIALS cfg) /\
  ((fst (run_from cfg s) = Ok tt /\
    length (order_records (snd (run_from cfg s))) = Z.to_nat (TARGET_PO_COUNT cfg)) \/
   ((exists e, fst (run_from cfg s) = Raise e) /\
    mat_supplier_map (snd (run_from cfg s)) = ∅ /\
    order_records (snd (run_from cfg s)) = [])).
Proof.
  intros Hs Hm HM. remember (run_from cfg s) as out eqn:Hout.
  unfold run_from, script in Hout.
  destruct (generate_suppliers_ok cfg (initial_world s) Hs)
    as (w1 & sup & E1 & (r1 & ->) & Hlen1 & Hcap).
  rewrite (bind_ok _ _ _ _ _ E1) in Hout.
  match type of Hout with context [bind (generate_materials cfg) _ ?W] =>
    set (w1 := W) in * end.
  destruct (generate_materials_ok cfg w1 Hm) as (w2 & mats & E2 & (r2 & ->) & Hlen2 & _).
  rewrite (bind_ok _ _ _ _ _ E2) in Hout.
  match type of Hout with context [bind generate_bom _ ?W] =>
    set (w2 := W) in * end.
  pose proof (generate_bom_spec w2 w2 eq_refl) as H3. unfold bind at 1 in Hout.
  destruct (generate_bom w2) as [[[]|e3] w3]; cbn [fst snd] in H3.
  2:{ destruct H3 as (edges & (r3 & ->) & _). subst out w2 w1. cbn.
      split; [exact Hlen1|]. split; [exact Hlen2|]. right. eauto. }
  destruct H3 as (edges & (r3 & ->) & _).
  match type of Hout with context [bind assign_asl _ ?W] =>
    set (w3 := W) in * end.
  destruct (assign_asl_ok w3) as (w4 & mp & E4 & (r4 & ->) & Hasl & Hcov).
  { apply asl_ok_empty. }
  { subst w3 w2 w1. split; cbn; [|exact Hcap].
    destruct sup; [cbn in Hlen1; destruct Hs; lia|discriminate]. }
  rewrite (bind_ok _ _ _ _ _ E4) in Hout.
  match type of Hout with context [simulate_orders cfg ?W] =>
    set (w4 := W) in * end.
  destruct (simulate_orders_ok cfg w4) as (w5 & orders & E5 & (r5 & fs & ->) & _ & Hlen5).
  { subst w4 w3 w2 w1. split; cbn.
    - destruct mats; [cbn in Hlen2; lia|discriminate].
    - intros m Hm'. cbn in Hcov. destruct (Hcov m Hm') as [l Hl]. exists l.
      split; [exact Hl|]. destruct (Hasl _ l Hl) as [Hlen _].
      destruct l; [cbn in Hlen; lia|discriminate]. }
  rewrite E5 in Hout. subst out w4 w3 w2 w1. cbn.
  split; [exact Hlen1|]. split; [exact Hlen2|]. left. auto.
Qed.

(** Counts on a valid configuration (at least one supplier, country
    weights and tier probabilities the draws accept, a non-negative
    target).  The order loop, started with at least one material and a
    non-empty supplier list for each, returns after appending exactly
    [TARGET_PO_COUNT] orders, one per iteration: the counter ends at
    the target and the id counter at [100000 + TARGET_PO_COUNT].  The
    supplier cell appends exactly [NUM_SUPPLIERS] suppliers and the
    material cell exactly [NUM_MATERIALS] materials; a whole run meets
    both counts and, unless it stopped in the BOM cell, the order
    count too. *)
Theorem counts_are_met_exactly (cfg : Config) :
  0 <= TARGET_PO_COUNT cfg -> suppliers_pre cfg -> materials_pre cfg ->
  1 <= NUM_MATERIALS cfg ->
  (forall w0 : Wc, po_pre w0 ->
     exists w new, simulate_orders cfg w0 = (Ok tt, w) /\
       order_records w = order_records w0 ++ new /\
       Z.of_nat (length new) = TARGET_PO_COUNT cfg /\
       current_po_count w = TARGET_PO_COUNT cfg /\
       po_id_counter w = 100000 + TARGET_PO_COUNT cfg) /\
  (forall w0 : Wc,
     exists w new, generate_suppliers cfg w0 = (Ok tt, w) /\
       suppliers w = suppliers w0 ++ new /\
       Z.of_nat (length new) = NUM_SUPPLIERS cfg) /\
  (forall w0 : Wc,
     exists w new, generate_materials cfg w0 = (Ok tt, w) /\
       materials w = materials w0 ++ new /\
       Z.of_nat (length new) = NUM_MATERIALS cfg) /\
  (forall s : rng,
     Z.of_nat (length (suppliers (snd (run_from cfg s)))) = NUM_SUPPLIERS cfg /\
     Z.of_nat (length (materials (snd (run_from cfg s)))) = NUM_MATERIALS cfg /\
     ((fst (run_from cfg s) = Ok tt /\
       Z.of_nat (length (order_records (snd (run_from cfg s)))) =
         TARGET_PO_COUNT cfg) \/
      ((exists e, fst (run_from cfg s) = Raise e) /\
       mat_supplier_map (snd (run_from cfg s)) = ∅ /\
       order_records (snd (run_from cfg s)) = []))).
Proof.
  intros HT Hs Hm HM. split; [|split; [|split]].
  - intros w0 Hpre.
    destruct (simulate_orders_ok cfg w0 Hpre) as (w & new & E & (r & fs & ->) & _ & Hlen).
    eexists; exists new. split; [exact E|]. cbn. rewrite Hlen. repeat split; lia.
  - intros w0.
    destruct (generate_suppliers_ok cfg w0 Hs) as (w & new & E & (r & ->) & Hlen & _).
    eexists; exists new. split; [exact E|]. cbn. destruct Hs. split; [reflexivity|lia].
  - intros w0.
    destruct (generate_materials_ok cfg w0 Hm) as (w & new & E & (r & ->) & Hlen & _).
    eexists; exists new. split; [exact E|]. cbn. split; [reflexivity|lia].
  - intros s. destruct (run_counts cfg s Hs Hm HM) as (H1 & H2 & H3).
    destruct Hs. rewrite H1, H2.
    split; [lia|]. split; [lia|].
    destruct H3 as [[Hok Hlen]|H3]; [left|right; exact H3].
    split; [exact Hok|]. rewrite Hlen. lia.
Qed.

(** *** Configuration errors *)

(** No record of any kind. *)
Definition no_records (w : Wc) : Prop :=
  suppliers w = [] /\ materials w = [] /\ bom_edges w = [] /\
  mat_supplier_map w = ∅ /\ order_records w = [].

(** [n] suppliers and nothing else. *)
Definition only_suppliers (n : nat) (w : Wc) : Prop :=
  length (suppliers w) = n /\ materials w = [] /\ bom_edges w = [] /\
  mat_supplier_map w = ∅ /\ order_records w = [].

Lemma generate_suppliers_nonpos (cfg : Config) (w0 : Wc) :
  NUM_SUPPLIERS cfg <= 0 ->
  exists msg, generate_suppliers cfg w0 = (Raise (ValueError msg), w0).
Proof.
  intros HN. unfold generate_suppliers, np_random_zipf.
  destruct (Z.ltb_spec (NUM_SUPPLIERS cfg) 0); [eexists; reflexivity|].
  replace (Z.to_nat (NUM_SUPPLIERS cfg)) with O by lia.
  eexists; reflexivity.
Qed.

Lemma simulate_orders_nonpos (cfg : Config) (w0 : Wc) :
  TARGET_PO_COUNT cfg <= 0 ->
  simulate_orders cfg w0 =
    (Ok tt, with_current_date (Py.date 2025 10 31) (with_counters 0 100000 w0)).
Proof.
  intros HT. unfold simulate_orders.
  replace (Z.to_nat (TARGET_PO_COUNT cfg)) with O by lia.
  unfold bind, modify. cbn [while_ current_po_count with_current_date with_counters].
  replace (0 <? TARGET_PO_COUNT cfg) with false by (symmetry; apply Z.ltb_ge; lia).
  reflexivity.
Qed.

(** C5 (as amended). Nothing is validated before generation starts; a
    bad constant makes the cell that first uses it raise.
    - [NUM_SUPPLIERS <= 0]: [ValueError] in the supplier cell, no
      record of any kind.
    - Country weights that [random.choices] refuses (none, or a total
      that is not positive), with at least one supplier asked for: the
      first country draw raises, no record of any kind.
    - Tier probabilities that [np.random.choice] refuses (not five, a
      negative one, a sum off 1), with at least one material asked
      for: [ValueError] at the first tier draw, after all
      [NUM_SUPPLIERS] suppliers were produced and nothing else.
    - [NUM_MATERIALS <= 0]: [KeyError] when the BOM cell groups the
      empty frame, after all suppliers were produced and nothing else.
    - [TARGET_PO_COUNT <= 0] is no error: the order cell returns with
      no order appended. *)
Theorem bad_configuration_raises_where_it_is_used (cfg : Config) (s : rng) :
  (NUM_SUPPLIERS cfg <= 0 ->
     (exists msg, fst (run_from cfg s) = Raise (ValueError msg)) /\
     no_records (snd (run_from cfg s))) /\
  (1 <= NUM_SUPPLIERS cfg ->
   choices_accepts (length (COUNTRY_WEIGHTS cfg)) (map snd (COUNTRY_WEIGHTS cfg)) = false ->
     (exists e, fst (run_from cfg s) = Raise e) /\
     no_records (snd (run_from cfg s))) /\
  (suppliers_pre cfg -> choice_accepts 5 (TIER_DISTRIBUTION cfg) = false ->
   1 <= NUM_MATERIALS cfg ->
     (exists msg, fst (run_from cfg s) = Raise (ValueError msg)) /\
     only_suppliers (Z.to_nat (NUM_SUPPLIERS cfg)) (snd (run_from cfg s))) /\
  (suppliers_pre cfg -> NUM_MATERIALS cfg <= 0 ->
     fst (run_from cfg s) = Raise (KeyError "tier_level") /\
     only_suppliers (Z.to_nat (NUM_SUPPLIERS cfg)) (snd (run_from cfg s))) /\
  (forall w0 : Wc, TARGET_PO_COUNT cfg <= 0 ->
     simulate_orders cfg w0 =
       (Ok tt, with_current_date (Py.date 2025 10 31) (with_counters 0 100000 w0))).
Proof.
  split; [|split; [|split; [|split]]].
  - intros HN. remember (run_from cfg s) as out eqn:Hout.
    unfold run_from, script in Hout.
    destruct (generate_suppliers_nonpos cfg (initial_world s) HN) as [msg E].
    rewrite (bind_raise _ _ _ _ _ E) in Hout. subst out. cbn.
    split; [eauto|]. repeat split.
  - intros HN Hrej. remember (run_from cfg s) as out eqn:Hout.
    unfold run_from, script in Hout.
    destruct (generate_suppliers_rejects cfg (initial_world s) HN Hrej) as (e & r & E).
    rewrite (bind_raise _ _ _ _ _ E) in Hout. subst out. cbn.
    split; [eauto|]. repeat split.
  - intros Hs Hrej HM. remember (run_from cfg s) as out eqn:Hout.
    unfold run_from, script in Hout.
    destruct (generate_suppliers_ok cfg (initial_world s) Hs)
      as (w1 & sup & E1 & (r1 & ->) & Hlen1 & _).
    rewrite (bind_ok _ _ _ _ _ E1) in Hout.
    match type of Hout with context [bind (generate_materials cfg) _ ?W] =>
      destruct (generate_materials_rejects cfg W Hrej HM) as [msg E2] end.
    rewrite (bind_raise _ _ _ _ _ E2) in Hout. subst out. cbn.
    split; [eauto|]. repeat split. exact Hlen1.
  - intros Hs HM. remember (run_from cfg s) as out eqn:Hout.
    unfold run_from, script in Hout.
    destruct (generate_suppliers_ok cfg (initial_world s) Hs)
      as (w1 & sup & E1 & (r1 & ->) & Hlen1 & _).
    rewrite (bind_ok _ _ _ _ _ E1) in Hout.
    unfold generate_materials in Hout. rewrite (range_nonpos _ HM) in Hout.
    subst out. cbn. split; [reflexivity|]. repeat split. exact Hlen1.
  - intros w0. apply simulate_orders_nonpos.
Qed.

End Claims.

(** ** Runs on scripted tapes *)

(** One supplier, one material, one order; the order is dated
    2024-01-01, is not bulk, asks for one unit, and the status drawn is
    "Partial". *)
Definition partial_tape : list N :=
  [0; 0; 0; 0; 0; 0; 0; 0; 0; 0; 0; 0; 4503599627370496; 0;
   8106479329266893; 4503599627370496; 0; 0]%N.

(** The same run with the order dated 2025-12-31. *)
Definition late_tape : list N :=
  [0; 0; 0; 0; 0; 0; 0; 0; 0; 0; 730; 0; 4503599627370496; 0]%N.

(** One supplier, a tier-3 and a tier-4 material; the Poisson draw for
    the tier-3 parent is the last entry. *)
Definition nexus_tape (fan_out : N) : list N :=
  [0; 0; 0; 4503599627370496; 0; 0; 6755399441055744; 0; 0; fan_out]%N.

(** C1. A run in which the status drawn for an order of one unit is
    "Partial": the order is recorded with nothing received and with a
    receipt date.  [int(1 * u)] is 0 for every [u] below 1. *)
Theorem partial_order_of_one_unit_receives_nothing :
  fst (run_tape (small_config 1 1 1 (TIER_DISTRIBUTION script_config)) partial_tape)
    = Ok tt /\
  fulfillment_status
    (snd (run_tape (small_config 1 1 1 (TIER_DISTRIBUTION script_config)) partial_tape))
    = Some "Partial"%string /\
  map (fun o => (order_date o, due_date o, quantity_ordered o,
                 quantity_received o, receipt_date o))
    (order_records
      (snd (run_tape (small_config 1 1 1 (TIER_DISTRIBUTION script_config)) partial_tape)))
    = [(738886, 738900, 1, 0, Some 738901)].
Proof. vm_compute. repeat split; reflexivity. Qed.

(** C4. A run with one tier-3 parent, a tier-4 pool of one material and
    a Poisson draw of 2: the tier-3 selection asks for two children
    without replacement and the run stops on numpy's [ValueError], with
    no edge and no order. *)
Theorem tier3_fan_out_over_pool_stops_the_run :
  fst (run_tape (small_config 1 2 0 (TIER_DISTRIBUTION script_config)) (nexus_tape 2))
    = Raise (ValueError
        "Cannot take a larger sample than population when 'replace=False'") /\
  map (fun m => (material_id m, tier_level m))
    (materials
      (snd (run_tape (small_config 1 2 0 (TIER_DISTRIBUTION script_config)) (nexus_tape 2))))
    = [("MAT_T3_00001"%string, 3); ("MAT_T4_00002"%string, 4)] /\
  bom_edges
    (snd (run_tape (small_config 1 2 0 (TIER_DISTRIBUTION script_config)) (nexus_tape 2)))
    = [] /\
  order_records
    (snd (run_tape (small_config 1 2 0 (TIER_DISTRIBUTION script_config)) (nexus_tape 2)))
    = [].
Proof. vm_compute. repeat split; reflexivity. Qed.

(** A tier-probability vector that sums to 3/2 is found only by the
    material cell, after a supplier has been produced. *)
Lemma bad_tier_vector_leaves_a_supplier :
  choice_accepts 5 [1 # 2; 1 # 2; 1 # 2; 0; 0]%Q = false /\
  fst (run_tape (small_config 1 1 1 [1 # 2; 1 # 2; 1 # 2; 0; 0]%Q) [])
    = Raise (ValueError "probabilities do not sum to 1") /\
  map supplier_id
    (suppliers (snd (run_tape (small_config 1 1 1 [1 # 2; 1 # 2; 1 # 2; 0; 0]%Q) [])))
    = ["SUP_CN_00001"%string].
Proof. vm_compute. repeat split; reflexivity. Qed.

Lemma late_order_on_tape :
  exists o,
    o ∈ order_records
          (snd (run_tape (small_config 1 1 1 (TIER_DISTRIBUTION script_config)) late_tape)) /\
    Py.date 2025 10 31 < order_date o.
Proof.
  eexists. split.
  - vm_compute. apply list_elem_of_here.
  - vm_compute. reflexivity.
Qed.

(** C10. Some runs date an order after the horizon 2025-10-31 (the
    sampling window ends on 2025-12-31); and in every run, an order
    dated after the horizon is due after it, has received nothing and
    has no receipt date. *)
Theorem orders_dated_after_the_horizon_are_open :
  (exists raw o,
     o ∈ order_records
           (snd (run_tape (small_config 1 1 1 (TIER_DISTRIBUTION script_config)) raw)) /\
     Py.date 2025 10 31 < order_date o) /\
  (forall (rng : Type) (RS : RandomStream rng) (cfg : Config) (s : rng) (o : Order),
     o ∈ order_records (snd (run_from cfg s)) ->
     Py.date 2025 10 31 < order_date o ->
     Py.date 2025 10 31 < due_date o /\
     quantity_received o = 0 /\ receipt_date o = None).
Proof.
  split.
  - exists late_tape. exact late_order_on_tape.
  - intros rng RS cfg s o Ho Hlate.
    destruct (run_from_inv cfg s) as (_ & _ & _ & _ & Horders & _).
    rewrite Forall_forall in Horders.
    destruct (Horders o Ho) as (_ & _ & (lead & Hlead & Hdue) & _ & fs & Hout).
    assert (Hd : Py.date 2025 10 31 < due_date o) by lia.
    split; [exact Hd|].
    destruct Hout as [[_ Heq]|[Hle _]]; [|lia].
    injection Heq as -> ->. auto.
Qed.

(** ** The theorems at concrete inputs *)

(** C2 at a pool of two tier-4 materials and a fan-out of two. *)
Lemma tier3_children_witness :
  0 <= 2 <= Z.of_nat (length ["MAT_T4_00002"%string; "MAT_T4_00003"%string]) /\
  exists children perm w',
    select_children 3 ["MAT_T4_00002"%string; "MAT_T4_00003"%string] 2
      (initial_world (Tape.of_list [1%N])) = (Ok children, w') /\
    Permutation perm (seq 0 2) /\
    NoDup (take (Z.to_nat 2) perm) /\
    Forall2 (fun i c => ["MAT_T4_00002"%string; "MAT_T4_00003"%string] !! i = Some c)
      (take (Z.to_nat 2) perm) children /\
    (2 = Z.of_nat 2 ->
     Permutation children ["MAT_T4_00002"%string; "MAT_T4_00003"%string]).
Proof.
  split; [cbn; lia|].
  apply (tier3_children_are_an_unweighted_sample
           ["MAT_T4_00002"%string; "MAT_T4_00003"%string] 2
           (initial_world (Tape.of_list [1%N]))).
  cbn; lia.
Defined.

(** C5 (as amended) at a tier vector that sums to 3/2. *)
Lemma bad_tier_vector_witness :
  (exists msg,
     fst (run_tape (small_config 1 1 1 [1 # 2; 1 # 2; 1 # 2; 0; 0]%Q) [])
       = Raise (ValueError msg)) /\
  only_suppliers 1
    (snd (run_tape (small_config 1 1 1 [1 # 2; 1 # 2; 1 # 2; 0; 0]%Q) [])).
Proof.
  apply (bad_configuration_raises_where_it_is_used
           (small_config 1 1 1 [1 # 2; 1 # 2; 1 # 2; 0; 0]%Q) (Tape.of_list [])).
  - split; [cbn; lia|vm_compute; reflexivity].
  - vm_compute; reflexivity.
  - cbn; lia.
Defined.

(** C6 on a run with one tier-3 parent and one tier-4 child, and at the
    tier step of a map without tier 1. *)
Lemma bom_edges_witness :
  default [] ((∅ : gmap Z (list string)) !! (0 + 1)) = [] /\
  Forall (fun e => parent_material_id e <> child_material_id e)
    (bom_edges
      (snd (run_tape (small_config 1 2 0 (TIER_DISTRIBUTION script_config))
              (nexus_tape 1)))) /\
  bom_tier ∅ 0 (initial_world (Tape.of_list [])) =
    (Ok tt, initial_world (Tape.of_list [])).
Proof.
  assert (H : default [] ((∅ : gmap Z (list string)) !! (0 + 1)) = []) by reflexivity.
  split; [exact H|].
  destruct (bom_edges_join_adjacent_tiers
              (small_config 1 2 0 (TIER_DISTRIBUTION script_config))
              (Tape.of_list (nexus_tape 1)) ∅ 0 (initial_world (Tape.of_list [])) H)
    as [Hedges Hskip].
  split; [|exact Hskip].
  apply Forall_forall. intros e He. apply (Hedges e He).
Defined.

(** The counts at the constants of the script, on the stream seeded
    with 42. *)
Lemma counts_witness :
  0 <= TARGET_PO_COUNT script_config /\
  suppliers_pre script_config /\ materials_pre script_config /\
  1 <= NUM_MATERIALS script_config /\
  Z.of_nat (length (suppliers (snd (run_from script_config (Tape.seed 42)))))
    = NUM_SUPPLIERS script_config /\
  Z.of_nat (length (materials (snd (run_from script_config (Tape.seed 42)))))
    = NUM_MATERIALS script_config.
Proof.
  assert (H1 : 0 <= TARGET_PO_COUNT script_config) by (cbn; lia).
  assert (H2 : suppliers_pre script_config)
    by (split; [cbn; lia|vm_compute; reflexivity]).
  assert (H3 : materials_pre script_config) by (vm_compute; reflexivity).
  assert (H4 : 1 <= NUM_MATERIALS script_config) by (cbn; lia).
  destruct (counts_are_met_exactly (rng := Tape.t) script_config H1 H2 H3 H4)
    as (_ & _ & _ & Hrun).
  destruct (Hrun (Tape.seed 42)) as (Hs & Hm & _).
  exact (conj H1 (conj H2 (conj H3 (conj H4 (conj Hs Hm))))).
Defined.

(** C10 on the run of [late_tape]. *)
Lemma late_order_witness :
  exists o,
    o ∈ order_records
          (snd (run_tape (small_config 1 1 1 (TIER_DISTRIBUTION script_config))
                  late_tape)) /\
    Py.date 2025 10 31 < order_date o /\
    quantity_received o = 0 /\ receipt_date o = None.
Proof.
  destruct late_order_on_tape as (o & Ho & Hlate).
  exists o. split; [exact Ho|]. split; [exact Hlate|].
  apply (proj2 orders_dated_after_the_horizon_are_open Tape.t tape_stream
           (small_config 1 1 1 (TIER_DISTRIBUTION script_config))
           (Tape.of_list late_tape) o Ho Hlate).
Defined.

(** ** What every order record satisfies *)

(** Every order present when the script stops: the due date is the order
    date plus a lead time of 14 to 90 days; at least one unit is
    ordered and between 0 and that many are received; an order due
    after the horizon has received nothing and has no receipt date; an
    order received in full or in part has a receipt date; an order
    without receipt date has received nothing. *)
Theorem order_records_are_consistent
    {rng : Type} `{RS : RandomStream rng} (cfg : Config) (s : rng) (o : Order) :
  o ∈ order_records (snd (run_from cfg s)) ->
  (exists lead, 14 <= lead <= 90 /\ due_date o = order_date o + lead) /\
  1 <= quantity_ordered o /\
  0 <= quantity_received o <= quantity_ordered o /\
  (Py.date 2025 10 31 < due_date o ->
     quantity_received o = 0 /\ receipt_date o = None) /\
  (0 < quantity_received o -> receipt_date o <> None) /\
  (receipt_date o = None -> quantity_received o = 0).
Proof.
  intros Ho.
  destruct (run_from_inv cfg s) as (_ & _ & _ & _ & Horders & _).
  rewrite Forall_forall in Horders.
  destruct (Horders o Ho) as (_ & _ & Hlead & Hqo & fs & Hout).
  split; [exact Hlead|]. split; [exact Hqo|].
  destruct Hout as [[Hopen Heq]|[Hdue Hout]].
  - injection Heq as Hq Hr. rewrite Hq, Hr.
    repeat split; try lia; try congruence.
  - cbn [fst snd] in Hout.
    destruct Hout as [(_ & Hq & d & _ & Hr)|[(_ & Hq & d & _ & Hr)|(_ & Heq)]].
    + rewrite Hr. repeat split; try lia; congruence.
    + rewrite Hr. repeat split; try lia; congruence.
    + injection Heq as Hq Hr. rewrite Hq, Hr.
      repeat split; try lia; try congruence.
Qed.

(** The same on the run of [partial_tape]. *)
Lemma order_records_witness :
  Forall (fun o => 0 <= quantity_received o <= quantity_ordered o)
    (order_records
      (snd (run_tape (small_config 1 1 1 (TIER_DISTRIBUTION script_config))
              partial_tape))).
Proof.
  apply Forall_forall. intros o Ho.
  apply (order_records_are_consistent
           (small_config 1 1 1 (TIER_DISTRIBUTION script_config))
           (Tape.of_list partial_tape) o Ho).
Defined.


(** * Further properties of the script *)

(** ** Identifiers *)

(** [int(s)] on a string of decimal digits (leading zeros allowed). *)
Definition int_of_str (s : string) : option Z :=
  option_map (fun d => Z.of_nat (Nat.of_uint d)) (NilEmpty.uint_of_string s).

(** No character of [s] is the separator ["_"]. *)
Fixpoint no_sep (s : string) : Prop :=
  match s with
  | EmptyString => True
  | String c s' => c <> "_"%char /\ no_sep s'
  end.

Lemma append_cons (c : ascii) (s t : string) :
  (String c s ++ t = String c (s ++ t))%string.
Proof. reflexivity. Qed.

Lemma append_nil (t : string) : (EmptyString ++ t = t)%string.
Proof. reflexivity. Qed.

Lemma length_zeros (k : nat) : String.length (Py.zeros k) = k.
Proof. induction k; cbn; auto. Qed.

Lemma string_length_app (s t : string) :
  String.length (s ++ t) = (String.length s + String.length t)%nat.
Proof.
  induction s as [|c s IH]; [reflexivity|].
  rewrite append_cons. cbn [String.length]. rewrite IH. reflexivity.
Qed.

Lemma uint_of_string_zeros (k : nat) (s : string) (d : Decimal.uint) :
  NilEmpty.uint_of_string s = Some d ->
  exists d', NilEmpty.uint_of_string (Py.zeros k ++ s)%string = Some d' /\
             Nat.of_uint d' = Nat.of_uint d.
Proof.
  intros Hs. induction k as [|k (d' & Hd' & Heq)].
  - exists d. auto.
  - exists (Decimal.D0 d'). split.
    + change (NilEmpty.uint_of_string (Py.zeros (S k) ++ s)%string)
        with (DecimalString.uint_of_char "0"
                (NilEmpty.uint_of_string (Py.zeros k ++ s)%string)).
      rewrite Hd'. reflexivity.
    + rewrite <- Heq. reflexivity.
Qed.

Lemma int_of_zfill_str (w : nat) (n : Z) :
  0 <= n -> int_of_str (Py.zfill w (Py.str n)) = Some n.
Proof.
  intros Hn. unfold int_of_str, Py.zfill, Py.str.
  destruct (uint_of_string_zeros
              (w - String.length (NilEmpty.string_of_uint (Nat.to_uint (Z.to_nat n))))
              _ _ (NilEmpty.usu (Nat.to_uint (Z.to_nat n)))) as (d' & Hd' & Heq).
  rewrite Hd'. cbn [option_map]. rewrite Heq, DecimalNat.Unsigned.of_to. f_equal. lia.
Qed.

Lemma length_zfill (w : nat) (s : string) :
  String.length (Py.zfill w s) = Nat.max w (String.length s).
Proof. unfold Py.zfill. rewrite string_length_app, length_zeros. lia. Qed.

Lemma zfill_str_inj (w : nat) (a b : Z) :
  0 <= a -> 0 <= b -> Py.zfill w (Py.str a) = Py.zfill w (Py.str b) -> a = b.
Proof.
  intros Ha Hb H.
  pose proof (int_of_zfill_str w a Ha) as H1.
  pose proof (int_of_zfill_str w b Hb) as H2.
  rewrite H in H1. congruence.
Qed.

Lemma str_inj (a b : Z) : 0 <= a -> 0 <= b -> Py.str a = Py.str b -> a = b.
Proof. intros Ha Hb H. exact (zfill_str_inj 0 a b Ha Hb H). Qed.

Lemma no_sep_app (s t : string) : no_sep s -> no_sep t -> no_sep (s ++ t)%string.
Proof.
  intros Hs Ht. induction s as [|c s IH]; [exact Ht|].
  rewrite append_cons. destruct Hs as [Hc Hs]. split; [exact Hc|exact (IH Hs)].
Qed.

Lemma no_sep_zeros (k : nat) : no_sep (Py.zeros k).
Proof. induction k; cbn; [exact Logic.I|split; [discriminate|assumption]]. Qed.

Lemma no_sep_uint (d : Decimal.uint) : no_sep (NilEmpty.string_of_uint d).
Proof. induction d; cbn; try exact Logic.I; (split; [discriminate|assumption]). Qed.

Lemma no_sep_zfill_str (w : nat) (n : Z) : no_sep (Py.zfill w (Py.str n)).
Proof. apply no_sep_app; [apply no_sep_zeros|apply no_sep_uint]. Qed.

(** A text [a_d] whose part [d] has no separator splits in one way only. *)
Lemma sep_inj (d d' : string) : no_sep d -> no_sep d' ->
  forall a a' : string, (a ++ "_" ++ d = a' ++ "_" ++ d')%string -> a = a' /\ d = d'.
Proof.
  intros Hd Hd'.
  change ("_" ++ d)%string with (String "_" d).
  change ("_" ++ d')%string with (String "_" d').
  assert (Hno : forall (s t : string), no_sep s ->
            (s <> t ++ String "_" d /\ s <> t ++ String "_" d')%string).
  { intros s t. revert s. induction t as [|c t IH]; intros s Hs.
    - rewrite !append_nil. destruct s as [|c s]; [split; discriminate|].
      destruct Hs as [Hc _]. split; intros H; injection H as -> _; congruence.
    - rewrite !append_cons. destruct s as [|c' s]; [split; discriminate|].
      destruct Hs as [_ Hs]. destruct (IH s Hs) as [H1 H2].
      split; intros H; injection H as _ ->; congruence. }
  induction a as [|c a IH]; intros [|c' a'] H.
  - rewrite !append_nil in H. injection H as ->. auto.
  - rewrite append_nil, append_cons in H. injection H as <- H.
    destruct (Hno d a' Hd) as [_ Hx]. congruence.
  - rewrite append_nil, append_cons in H. injection H as -> H.
    destruct (Hno d' a Hd') as [Hx _]. symmetry in H. congruence.
  - rewrite !append_cons in H. injection H as -> H.
    destruct (IH a' H) as [-> ->]. auto.
Qed.

(** ** Rounding *)

Lemma round_half_even_floor (x : Q) :
  Py.round_half_even x = Qfloor x \/
  (Py.round_half_even x = Qfloor x + 1 /\ (1 # 2 <= x - inject_Z (Qfloor x))%Q).
Proof.
  unfold Py.round_half_even.
  destruct (x - inject_Z (Qfloor x) ?= 1 # 2)%Q eqn:E.
  - destruct (Z.even (Qfloor x)); [left; reflexivity|right].
    split; [reflexivity|]. apply Qeq_alt in E. rewrite E. apply Qle_refl.
  - left; reflexivity.
  - right. split; [reflexivity|]. apply Qgt_alt in E. apply Qlt_le_weak, E.
Qed.

(** [round] moves a number by half a unit at most. *)
Lemma round_half_even_near (x : Q) :
  (inject_Z (Py.round_half_even x) - (1 # 2) <= x /\
   x <= inject_Z (Py.round_half_even x) + (1 # 2))%Q.
Proof.
  pose proof (Qfloor_le x) as Hlo. pose proof (Qlt_floor x) as Hhi.
  rewrite inject_Z_plus in Hhi. change (inject_Z 1) with 1%Q in Hhi.
  unfold Py.round_half_even.
  destruct (x - inject_Z (Qfloor x) ?= 1 # 2)%Q eqn:E.
  - apply Qeq_alt in E. destruct (Z.even (Qfloor x)).
    + split; lra.
    + rewrite inject_Z_plus. change (inject_Z 1) with 1%Q. split; lra.
  - apply Qlt_alt in E. split; lra.
  - apply Qgt_alt in E. rewrite inject_Z_plus. change (inject_Z 1) with 1%Q.
    split; lra.
Qed.

(** [round] does not cross a whole number. *)
Lemma round_half_even_ge (a : Z) (x : Q) :
  (inject_Z a <= x)%Q -> a <= Py.round_half_even x.
Proof.
  intros H. assert (Hf : a <= Qfloor x).
  { rewrite <- (Qfloor_Z a). apply Qfloor_resp_le, H. }
  destruct (round_half_even_floor x) as [-> | [-> _]]; lia.
Qed.

Lemma round_half_even_le (b : Z) (x : Q) :
  (x <= inject_Z b)%Q -> Py.round_half_even x <= b.
Proof.
  intros H. assert (Hf : Qfloor x <= b).
  { rewrite <- (Qfloor_Z b). apply Qfloor_resp_le, H. }
  destruct (round_half_even_floor x) as [-> | [-> Hr]]; [exact Hf|].
  assert (Hlt : (inject_Z (Qfloor x) < inject_Z b)%Q) by lra.
  rewrite <- Zlt_Qlt in Hlt. lia.
Qed.

Lemma scale_pos (d : nat) : (0 < inject_Z (10 ^ Z.of_nat d))%Q.
Proof.
  change 0%Q with (inject_Z 0). rewrite <- Zlt_Qlt.
  apply Z.pow_pos_nonneg; lia.
Qed.

(** [round(x, d)] stays on the same side of a number with [d] decimals. *)
Lemma round_ge (a : Z) (d : nat) (x : Q) :
  (inject_Z a / inject_Z (10 ^ Z.of_nat d) <= x)%Q ->
  (inject_Z a / inject_Z (10 ^ Z.of_nat d) <= Py.round x d)%Q.
Proof.
  intros H. unfold Py.round. pose proof (scale_pos d) as Hs.
  unfold Qdiv. apply Qmult_le_compat_r; [|apply Qinv_le_0_compat, Qlt_le_weak, Hs].
  rewrite <- Zle_Qle. apply round_half_even_ge.
  eapply Qle_trans; [|apply Qmult_le_compat_r; [exact H|apply Qlt_le_weak, Hs]].
  rewrite Qmult_comm, Qmult_div_r; [apply Qle_refl|].
  intros H0. rewrite H0 in Hs. discriminate.
Qed.

Lemma round_le (b : Z) (d : nat) (x : Q) :
  (x <= inject_Z b / inject_Z (10 ^ Z.of_nat d))%Q ->
  (Py.round x d <= inject_Z b / inject_Z (10 ^ Z.of_nat d))%Q.
Proof.
  intros H. unfold Py.round. pose proof (scale_pos d) as Hs.
  unfold Qdiv. apply Qmult_le_compat_r; [|apply Qinv_le_0_compat, Qlt_le_weak, Hs].
  rewrite <- Zle_Qle. apply round_half_even_le.
  eapply Qle_trans; [apply Qmult_le_compat_r; [exact H|apply Qlt_le_weak, Hs]|].
  rewrite Qmult_comm, Qmult_div_r; [apply Qle_refl|].
  intros H0. rewrite H0 in Hs. discriminate.
Qed.

(** [round(x, 2)] is within half a cent of [x]. *)
Lemma round_2_near (x : Q) :
  (Py.round x 2 - (1 # 200) <= x /\ x <= Py.round x 2 + (1 # 200))%Q.
Proof.
  unfold Py.round. change (10 ^ Z.of_nat 2) with 100.
  destruct (round_half_even_near (x * inject_Z 100)) as [H1 H2].
  set (n := inject_Z (Py.round_half_even (x * inject_Z 100))) in *. clearbody n.
  change (inject_Z 100) with (100 # 1) in *.
  unfold Qdiv. change (/ (100 # 1))%Q with (1 # 100)%Q. split; lra.
Qed.

(** ** The cells, row by row *)

Section Rows.
Context {rng : Type} `{RS : RandomStream rng}.

Abbreviation Wr := (World rng).

(** A call that cannot raise where it stands. *)
Lemma triple_call_ok {A B} (m : M Wr A) (k : A -> M Wr B)
    (pre : Prop) (post : A -> Prop) (P : Wr -> Prop) Q E :
  lib m pre post -> pre -> rng_stable P ->
  (forall a, post a -> triple P (k a) Q E) ->
  triple P (bind m k) Q E.
Proof.
  intros Hm Hpre Hst Hk w Hw.
  destruct (lib_ok m pre post w Hm Hpre) as (a & r & Hmw & Ha).
  rewrite (bind_ok _ _ _ _ _ Hmw). apply (Hk a Ha), Hst, Hw.
Qed.

(** *** Suppliers *)

Lemma fold_left_max_in (xs : list Z) (x : Z) : fold_left Z.max xs x ∈ x :: xs.
Proof.
  revert x. induction xs as [|y xs IH]; intros x; cbn.
  - apply list_elem_of_here.
  - specialize (IH (Z.max x y)). apply elem_of_cons in IH as [->|IH].
    + destruct (Z.max_spec x y) as [[_ ->]|[_ ->]].
      * apply list_elem_of_further, list_elem_of_here.
      * apply list_elem_of_here.
    + do 2 apply list_elem_of_further. exact IH.
Qed.

Lemma lib_ndarray_max_in (arr : list Z) :
  lib (ndarray_max arr : M Wr Z) (arr <> [])
      (fun mx => mx ∈ arr /\ Forall (fun y => y <= mx) arr).
Proof.
  destruct arr as [|x xs]; cbn.
  - apply lib_raise. congruence.
  - apply lib_ret. split; [apply fold_left_max_in|].
    destruct (fold_left_max_spec xs x) as [H1 H2]. constructor; assumption.
Qed.

(** The capacity score of a supplier whose Zipf draw is [z], the
    largest draw being [mx]. *)
Lemma capacity_bounds (z mx : Z) :
  1 <= z <= mx ->
  1 <= Py.int (np_maximum (inject_Z z / inject_Z mx * 50) 1) <= 50.
Proof.
  intros Hz. split; [apply int_maximum_ge_1|].
  assert (Hmx : (0 < inject_Z mx)%Q).
  { change 0%Q with (inject_Z 0). rewrite <- Zlt_Qlt. lia. }
  assert (Hx : (inject_Z z / inject_Z mx * 50 <= 50)%Q).
  { assert (H1 : (inject_Z z / inject_Z mx <= 1)%Q).
    { apply Qle_shift_div_r; [exact Hmx|]. rewrite Qmult_1_l, <- Zle_Qle. lia. }
    lra. }
  assert (Hm : (1 <= np_maximum (inject_Z z / inject_Z mx * 50) 1 /\
                np_maximum (inject_Z z / inject_Z mx * 50) 1 <= 50)%Q).
  { unfold np_maximum. destruct (Py.Qltb _ 1) eqn:E.
    - split; lra.
    - apply Qltb_ge in E. split; [exact E|exact Hx]. }
  rewrite int_nonneg by lra.
  change 50 with (Qfloor 50). apply Qfloor_resp_le, Hm.
Qed.

Lemma capacity_hub (mx : Z) :
  1 <= mx -> Py.int (np_maximum (inject_Z mx / inject_Z mx * 50) 1) = 50.
Proof.
  intros Hmx.
  assert (Hx : (inject_Z mx / inject_Z mx * 50 == 50)%Q).
  { assert (Hne : ~ (inject_Z mx == 0)%Q).
    { change 0%Q with (inject_Z 0). rewrite inject_Z_injective. lia. }
    unfold Qdiv. rewrite Qmult_inv_r by exact Hne. reflexivity. }
  assert (Hm : (np_maximum (inject_Z mx / inject_Z mx * 50) 1 == 50)%Q).
  { unfold np_maximum. destruct (Py.Qltb _ 1) eqn:E; [|exact Hx].
    apply Qltb_lt in E. rewrite Hx in E. discriminate. }
  rewrite int_nonneg by (rewrite Hm; discriminate).
  rewrite Hm. reflexivity.
Qed.

(** Row [k] of the supplier cell's output. *)
Definition supplier_row_ok (cfg : Config) (k : nat) (s : Supplier) : Prop :=
  country s ∈ map fst (COUNTRY_WEIGHTS cfg) /\
  supplier_id s = sup_id_of (country s) (Z.of_nat k) /\
  1 <= capacity_score s <= 50.

Definition supplier_rows (cfg : Config) (ss : list Supplier) : Prop :=
  forall k s, ss !! k = Some s -> supplier_row_ok cfg k s.

Lemma supplier_rows_nil (cfg : Config) : supplier_rows cfg [].
Proof. intros k s H. rewrite lookup_nil in H. discriminate. Qed.

Lemma generate_suppliers_rows (cfg : Config) (w0 : Wr) :
  triple (eq w0) (generate_suppliers cfg)
    (fun _ w => exists new, suppliers_shape w0 new w /\
                  length new = Z.to_nat (NUM_SUPPLIERS cfg) /\
                  supplier_rows cfg new /\
                  exists s, s ∈ new /\ capacity_score s = 50)
    (fun _ w => (exists new, suppliers_shape w0 new w /\ supplier_rows cfg new) /\
                ~ suppliers_pre cfg).
Proof.
  set (S := fun w : Wr => exists new, suppliers_shape w0 new w /\
                                      supplier_rows cfg new).
  set (F := fun w : Wr => exists r, w = with_rng r w0).
  assert (HFS : forall w, F w -> S w).
  { intros w (r & ->). exists []. split; [|apply supplier_rows_nil].
    exists r. rewrite app_nil_r. destruct w0; reflexivity. }
  assert (HFst : rng_stable F).
  { intros r w (r0 & ->). exists r. reflexivity. }
  unfold generate_suppliers.
  apply (triple_pre F); [|intros w <-; exists (rng_state w0); destruct w0; reflexivity].
  eapply triple_call; [apply lib_np_random_zipf|exact HFst| |exact HFS|].
  { intros [H _]; lia. }
  intros zs [Hzlen Hzs].
  eapply triple_call; [apply lib_ndarray_max_in|exact HFst| |exact HFS|].
  { intros [H _] ->. cbn in Hzlen. lia. }
  intros mx [Hmxin Hmx]; cbn beta in Hmx.
  set (scores := map _ (map _ zs)).
  assert (Hscores : length scores = Z.to_nat (NUM_SUPPLIERS cfg)).
  { unfold scores. rewrite !length_map. exact Hzlen. }
  assert (Hrange : forall i x, scores !! i = Some x -> 1 <= x <= 50).
  { intros i x Hx. unfold scores in Hx. rewrite !list_lookup_fmap in Hx.
    destruct (zs !! i) as [z|] eqn:Hz; [|discriminate]. cbn in Hx. injection Hx as <-.
    apply capacity_bounds. rewrite Forall_forall in Hzs, Hmx.
    apply list_elem_of_lookup_2 in Hz. split; [apply Hzs, Hz|apply Hmx, Hz]. }
  assert (Hhub : 50 ∈ scores).
  { apply list_elem_of_lookup in Hmxin as [j Hj]. apply list_elem_of_lookup.
    exists j. unfold scores. rewrite !list_lookup_fmap, Hj. cbn. f_equal.
    apply capacity_hub. rewrite Forall_forall in Hzs.
    apply Hzs. apply list_elem_of_lookup_2 in Hj. exact Hj. }
  set (I := fun (pre : list Z) (w : Wr) =>
              exists new, suppliers_shape w0 new w /\ length new = length pre /\
                          supplier_rows cfg new /\
                          map capacity_score new = take (length pre) scores).
  assert (HIS : forall pre w, I pre w -> S w).
  { intros pre w (new & Hs & _ & Hc & _). exists new; auto. }
  assert (HIst : forall pre, rng_stable (I pre)).
  { intros pre r w (new & (r0 & ->) & Hl & Hc). exists new.
    split; [exists r; reflexivity|auto]. }
  apply (triple_pre (I [])).
  2:{ intros w (r & ->). exists []. split.
      - exists r. rewrite app_nil_r. destruct w0; reflexivity.
      - split; [reflexivity|]. split; [apply supplier_rows_nil|reflexivity]. }
  eapply triple_post; [apply (triple_for _ _ I)|].
  2:{ cbn beta. intros _ w (new & Hs & Hl & Hc & Hcap). exists new.
      rewrite length_range in Hl. rewrite length_range, <- Hscores, firstn_all in Hcap.
      split; [exact Hs|]. split; [exact Hl|]. split; [exact Hc|].
      rewrite <- Hcap in Hhub. apply list_elem_of_fmap in Hhub as (s & Hs50 & Hin).
      exists s. auto. }
  intros pre i rest Hr. apply range_nth in Hr as [Hi Hin].
  eapply triple_call; [apply lib_random_choices|apply HIst| |apply HIS|].
  { intros [_ H]. rewrite length_map. exact H. }
  intros cs [Hcs Hcsin].
  eapply triple_call; [apply lib_index|apply HIst| |apply HIS|].
  { intros _. rewrite Hcs. cbn. lia. }
  intros country [_ Hcountry].
  assert (Hc : country ∈ map fst (COUNTRY_WEIGHTS cfg)).
  { rewrite Forall_forall in Hcsin. apply Hcsin.
    apply list_elem_of_lookup_2 in Hcountry. exact Hcountry. }
  eapply triple_call; [apply lib_fake_company|apply HIst|auto|apply HIS|].
  intros nm _.
  eapply triple_call; [apply lib_index|apply HIst| |apply HIS|].
  { intros _. rewrite Hscores. lia. }
  intros score [_ Hscore].
  apply triple_modify.
  intros w (new & (r & ->) & Hl & Hrows & Hcap). cbn.
  exists (new ++ [ {| supplier_id := sup_id_of country i; name := nm;
                      country := country; capacity_score := score |} ]).
  split; [exists r; rewrite app_assoc; reflexivity|].
  split; [rewrite !length_app; cbn; lia|]. split.
  - intros k s Hk. apply lookup_app_Some in Hk as [Hk|[Hge Hk]]; [apply Hrows, Hk|].
    apply list_lookup_singleton_Some in Hk as [Hk <-]. unfold supplier_row_ok; cbn.
    split; [exact Hc|]. split; [f_equal; lia|exact (Hrange _ _ Hscore)].
  - rewrite map_app, Hcap, length_app. cbn [map length capacity_score].
    rewrite Nat.add_1_r. rewrite Hi, Nat2Z.id in Hscore.
    symmetry. apply take_S_r. exact Hscore.
Qed.

(** *** The weighted draw of a tier *)

Lemma bisect_right_cons (c : Q) (l : list Q) (u : Q) :
  Py.bisect_right (c :: l) u =
    ((if Py.Qleb c u then 1 else 0) + Py.bisect_right l u)%nat.
Proof.
  unfold Py.bisect_right. rewrite filter_cons.
  destruct (decide (Py.Qleb c u = true)) as [E|E].
  - rewrite E. reflexivity.
  - apply not_true_is_false in E. rewrite E. reflexivity.
Qed.

Lemma Qdiv_le_mono (x y L : Q) : (0 < L)%Q -> (x <= y)%Q -> (x / L <= y / L)%Q.
Proof.
  intros HL H. unfold Qdiv. apply Qmult_le_compat_r; [exact H|].
  apply Qinv_le_0_compat, Qlt_le_weak, HL.
Qed.

(** Past the point where the running sum exceeds [u], nothing is
    counted. *)
Lemma bisect_right_above (L u : Q) (ws : list Q) :
  (0 < L)%Q -> Forall (fun w => 0 <= w)%Q ws ->
  forall acc, (u < acc / L)%Q ->
    Py.bisect_right (map (fun c => c / L)%Q (Py.accumulate_from acc ws)) u = O.
Proof.
  intros HL Hws. induction Hws as [|w ws Hw Hws IH]; intros acc Hacc; [reflexivity|].
  cbn [Py.accumulate_from map]. rewrite bisect_right_cons.
  assert (Hle : (acc / L <= (acc + w) / L)%Q) by (apply Qdiv_le_mono; [exact HL|lra]).
  destruct (Py.Qleb ((acc + w) / L) u) eqn:E.
  - apply Qleb_le in E. lra.
  - rewrite (IH (acc + w)%Q) by lra. reflexivity.
Qed.

(** The position the draw lands on carries a positive probability. *)
Lemma bisect_right_positive (L u : Q) (ws : list Q) :
  (0 < L)%Q -> Forall (fun w => 0 <= w)%Q ws ->
  forall acc, (acc / L <= u)%Q ->
    (Py.bisect_right (map (fun c => c / L)%Q (Py.accumulate_from acc ws)) u
       < length ws)%nat ->
    exists pr,
      ws !! Py.bisect_right (map (fun c => c / L)%Q (Py.accumulate_from acc ws)) u
        = Some pr /\ (0 < pr)%Q.
Proof.
  intros HL Hws. induction Hws as [|w ws Hw Hws IH]; intros acc Hacc Hlt;
    [cbn in Hlt; lia|].
  cbn [Py.accumulate_from map] in *. rewrite bisect_right_cons in *.
  destruct (Py.Qleb ((acc + w) / L) u) eqn:E.
  - apply Qleb_le in E. cbn [Nat.add] in *.
    destruct (IH (acc + w)%Q E) as (pr & Hpr & Hpos); [cbn [length] in Hlt; lia|].
    exists pr. split; [exact Hpr|exact Hpos].
  - assert (Hu : (u < (acc + w) / L)%Q).
    { apply Qnot_le_lt. intros H. apply Qleb_le in H. congruence. }
    rewrite (bisect_right_above L u ws HL Hws (acc + w)%Q Hu). cbn.
    exists w. split; [reflexivity|].
    destruct (Qlt_le_dec 0 w) as [Hpos|Hneg]; [exact Hpos|].
    assert (Hle : ((acc + w) / L <= acc / L)%Q) by (apply Qdiv_le_mono; [exact HL|lra]).
    lra.
Qed.

Lemma lib_np_random_choice_pos {A} (a : list A) (p : list Q) :
  lib (np_random_choice a p : M Wr A)
      (choice_accepts (length a) p = true)
      (fun x => exists i pr, a !! i = Some x /\ p !! i = Some pr /\ (0 < pr)%Q).
Proof.
  unfold np_random_choice, choice_accepts.
  destruct a as [|a0 a'] eqn:Ha; [apply lib_raise; discriminate|].
  rewrite <- Ha. assert (Hn : (0 < length a)%nat) by (subst a; cbn; lia).
  replace (length a =? 0)%nat with false by (symmetry; apply Nat.eqb_neq; lia).
  cbn [negb andb].
  destruct (Nat.eqb_spec (length p) (length a)) as [Hlen|Hlen];
    cbn [negb andb]; [|apply lib_raise; discriminate].
  destruct (existsb (fun x => Py.Qltb x 0) p) eqn:Hneg.
  { apply lib_raise. rewrite (existsb_forallb_negb _ _ Hneg). discriminate. }
  destruct (Py.Qltb atol (Qabs (Py.Qsum p - 1))) eqn:Hsum.
  { apply lib_raise. rewrite andb_false_r. discriminate. }
  assert (Hnonneg : Forall (fun w => 0 <= w)%Q p).
  { apply Forall_forall. intros w Hw. apply Qltb_ge.
    destruct (Py.Qltb w 0) eqn:E; [|reflexivity].
    assert (existsb (fun x => Py.Qltb x 0) p = true); [|congruence].
    apply existsb_exists. exists w. split; [|exact E].
    apply list_elem_of_In, Hw. }
  eapply lib_step;
    [apply (lib_draw _ (fun u => 0 <= u /\ u < 1)%Q True np_random_sample_range)
    |intros _; exact Logic.I|].
  intros u Hu; cbn beta in Hu; destruct Hu as [Hu0 Hu1].
  destruct p as [|w ws]; [cbn in Hlen; lia|].
  set (L := List.last (Py.accumulate (w :: ws)) 1%Q).
  assert (HL : (0 < L)%Q).
  { unfold L. rewrite last_accumulate.
    apply Qltb_ge, Qabs_Qle_condition in Hsum. unfold atol in Hsum.
    destruct Hsum as [Hlo _].
    apply (Qlt_le_trans _ (1 + - (1 # 2 ^ 26))%Q); [reflexivity|].
    lra. }
  set (idx := Py.bisect_right (map (fun c => (c / L)%Q) (Py.accumulate (w :: ws))) u).
  assert (Hidx : (idx < length (w :: ws))%nat).
  { rewrite <- (length_accumulate (w :: ws)).
    rewrite <- (length_map (fun c => (c / L)%Q) (Py.accumulate (w :: ws))).
    apply (length_filter_lt _ _ (L / L)%Q).
    + apply list_elem_of_fmap. exists L; split; [reflexivity|].
      apply (last_elem_of w (Py.accumulate_from w ws)).
    + intros Hle. apply Qleb_le in Hle.
      assert (HLL : (L / L == 1)%Q) by (field; lra).
      rewrite HLL in Hle. exact (Qlt_not_le _ _ Hu1 Hle). }
  eapply lib_weaken; [apply lib_index_nat| |]; cbn beta.
  - intros _. fold idx. rewrite <- Hlen. exact Hidx.
  - intros x Hx. fold idx in Hx. exists idx.
    apply Forall_cons in Hnonneg as [Hw Hws].
    unfold idx in *. cbn [Py.accumulate map] in *. rewrite bisect_right_cons in *.
    destruct (Py.Qleb (w / L) u) eqn:E.
    + apply Qleb_le in E. cbn [Nat.add] in *.
      destruct (bisect_right_positive L u ws HL Hws w E) as (pr & Hpr & Hpos);
        [cbn [length] in Hidx; lia|].
      exists pr. split; [exact Hx|]. split; [exact Hpr|exact Hpos].
    + assert (Hu : (u < w / L)%Q).
      { apply Qnot_le_lt. intros H. apply Qleb_le in H. congruence. }
      rewrite (bisect_right_above L u ws HL Hws w Hu) in *. cbn in Hx |- *.
      exists w. split; [exact Hx|]. split; [reflexivity|].
      destruct (Qlt_le_dec 0 w) as [Hpos|Hneg0]; [exact Hpos|].
      assert (Hle : (w / L <= 0 / L)%Q) by (apply Qdiv_le_mono; [exact HL|exact Hneg0]).
      assert (H0 : (0 / L == 0)%Q) by (field; lra).
      lra.
Qed.

(** *** Materials *)

Lemma round_nonneg (x : Q) (d : nat) : (0 <= x)%Q -> (0 <= Py.round x d)%Q.
Proof.
  intros Hx. unfold Py.round. pose proof (scale_pos d) as Hs.
  apply Qle_shift_div_l; [exact Hs|]. rewrite Qmult_0_l.
  change 0%Q with (inject_Z 0). rewrite <- Zle_Qle. apply round_half_even_ge.
  change (inject_Z 0) with 0%Q. apply Qmult_le_0_compat; [exact Hx|apply Qlt_le_weak, Hs].
Qed.

(** The tier of a row was drawn with a positive probability. *)
Definition tier_drawn (cfg : Config) (m : Material) : Prop :=
  exists pr, TIER_DISTRIBUTION cfg !! Z.to_nat (tier_level m) = Some pr /\ (0 < pr)%Q.

Lemma tiers_lookup (i : nat) (t : Z) :
  [0; 1; 2; 3; 4] !! i = Some t -> t ∈ [0; 1; 2; 3; 4] /\ i = Z.to_nat t.
Proof.
  intros H. split; [apply list_elem_of_lookup; eauto|].
  do 5 (destruct i as [|i]; [injection H as <-; reflexivity|]). discriminate.
Qed.

(** A row of the material cell's output: the tier had a positive
    probability, the description is one of the names of the row's tier,
    the unit follows the tier, the cost estimate is a non-negative
    number of whole cents. *)
Definition material_row_ok (cfg : Config) (m : Material) : Prop :=
  tier_drawn cfg m /\
  (exists names, tier_names !! tier_level m = Some names /\ description m ∈ names) /\
  base_unit m = (if tier_level m <? 4 then "EA" else "KG") /\
  (0 <= cost_estimate m)%Q /\
  exists cents : Z, cost_estimate m = (inject_Z cents / inject_Z 100)%Q.

Lemma generate_materials_rows (cfg : Config) (w0 : Wr) :
  triple (eq w0) (generate_materials cfg)
    (fun _ w => exists new, materials_shape w0 new w /\
                  length new = Z.to_nat (NUM_MATERIALS cfg) /\
                  materials_ok new /\ Forall (material_row_ok cfg) new)
    (fun _ w => (exists new, materials_shape w0 new w /\
                   materials_ok new /\ Forall (material_row_ok cfg) new) /\
                ~ materials_pre cfg).
Proof.
  set (S := fun w : Wr => exists new, materials_shape w0 new w /\
                            materials_ok new /\ Forall (material_row_ok cfg) new).
  set (I := fun (pre : list Z) (w : Wr) =>
              exists new, materials_shape w0 new w /\ length new = length pre /\
                          materials_ok new /\ Forall (material_row_ok cfg) new).
  assert (HIS : forall pre w, I pre w -> S w).
  { intros pre w (new & Hs & _ & Hc). exists new; auto. }
  assert (HIst : forall pre, rng_stable (I pre)).
  { intros pre r w (new & (r0 & ->) & Hl & Hc). exists new.
    split; [exists r; reflexivity|auto]. }
  unfold generate_materials.
  apply (triple_pre (I [])).
  2:{ intros w <-; exists []; split;
      [exists (rng_state w0); rewrite app_nil_r; destruct w0; reflexivity
      |split; [reflexivity|split; [apply materials_ok_nil|constructor]]]. }
  eapply triple_post; [apply (triple_for _ _ I)|].
  2:{ cbn beta. intros _ w (new & Hs & Hl & Hc). exists new.
      rewrite Hl, length_range. auto. }
  intros pre i rest Hrange. apply range_nth in Hrange as [Hi Hin].
  eapply triple_call; [apply lib_np_random_choice_pos|apply HIst| |apply HIS|].
  { intros H; exact H. }
  intros tier (j & pr & Hj & Hpr & Hpos).
  apply tiers_lookup in Hj as [Htier ->]. apply elem_of_tiers in Htier.
  destruct (tier_names_lookup tier Htier) as (names & Hnames & Hne).
  eapply triple_call; [apply lib_dict_get|apply HIst| |apply HIS|].
  { intros _. rewrite Hnames. eauto. }
  intros names' Hn'. rewrite Hnames in Hn'. injection Hn' as <-.
  eapply triple_call; [apply lib_random_choice|apply HIst|auto|apply HIS|].
  intros base_name Hbase; cbn beta in Hbase.
  eapply triple_call; [apply lib_random_lognormvariate|apply HIst|auto|apply HIS|].
  intros ln Hln; cbn beta in Hln.
  apply triple_modify.
  intros w (new & (r & ->) & Hl & Hc & Hrows). cbn.
  eexists (new ++ [ _ ]).
  split; [exists r; rewrite app_assoc; reflexivity|].
  split; [rewrite !length_app; cbn; lia|]. split.
  - intros k m Hk. apply lookup_app_Some in Hk as [Hk|[Hge Hk]]; [apply Hc, Hk|].
    apply list_lookup_singleton_Some in Hk as [Hk <-]. cbn.
    split; [|exact Htier]. f_equal. lia.
  - apply Forall_app; split; [exact Hrows|]. constructor; [|constructor].
    unfold material_row_ok, tier_drawn; cbn.
    split; [exists pr; auto|].
    split; [exists names; auto|]. split; [reflexivity|]. split.
    + apply round_nonneg. apply Qmult_le_0_compat; [apply Qlt_le_weak, Hln|].
      change 0%Q with (inject_Z 0). rewrite <- Zle_Qle. lia.
    + eexists. reflexivity.
Qed.

(** *** Draws without replacement *)

Lemma submseteq_NoDup {A} (l k : list A) : l ⊆+ k -> NoDup k -> NoDup l.
Proof.
  intros Hsub Hk. apply submseteq_Permutation in Hsub as [r Hr].
  rewrite Hr in Hk. apply NoDup_app in Hk as [H _]. exact H.
Qed.

Lemma swap_out_Permutation {A} (l : list A) (j : nat) (x y : A) :
  l !! j = Some x -> x :: <[j := y]> l ≡ₚ y :: l.
Proof.
  intros Hj. rewrite insert_take_drop by (eapply lookup_lt_Some; exact Hj).
  rewrite <- (take_drop_middle l j x Hj) at 3.
  rewrite <- !Permutation_middle. apply perm_swap.
Qed.

(** One step of the selection loop takes an entry out of the first [n]. *)
Lemma sample_step_Permutation {A} (pool : list A) (n j : nat) (x y : A) :
  (j < n)%nat -> pool !! j = Some x -> pool !! (n - 1)%nat = Some y ->
  x :: take (n - 1) (<[j := y]> pool) ≡ₚ take n pool.
Proof.
  intros Hj Hx Hy.
  assert (Hn : take n pool = take (n - 1) pool ++ [y]).
  { replace n with (S (n - 1)) at 1 by lia. apply take_S_r, Hy. }
  rewrite Hn. destruct (decide (j = n - 1)%nat) as [->|Hne].
  - rewrite Hx in Hy. injection Hy as <-.
    rewrite take_insert_ge by lia. rewrite <- Permutation_cons_append. reflexivity.
  - rewrite take_insert_lt by lia.
    rewrite swap_out_Permutation by (rewrite lookup_take_lt by lia; exact Hx).
    apply Permutation_cons_append.
Qed.

(** The selection loop of [random.sample] returns [k] of the first [n]
    pool entries, none of them twice. *)
Lemma lib_sample_loop_sub {A} (k : nat) :
  forall (pool : list A) (n : nat),
    (k <= n <= length pool)%nat ->
    lib (sample_loop k pool n : M Wr (list A)) True
        (fun xs => length xs = k /\ xs ⊆+ take n pool).
Proof.
  induction k as [|k IH]; intros pool n Hn; cbn [sample_loop].
  - apply lib_ret. split; [reflexivity|]. apply submseteq_nil_l.
  - eapply lib_step; [apply (lib_draw _ (fun j => (j < n)%nat) True)|auto|].
    { intros s. apply rand_below_lt. lia. }
    intros j Hj; cbn beta in Hj.
    eapply lib_step; [apply lib_index_nat|intros _; lia|].
    intros x Hx; cbn beta in Hx.
    eapply lib_step; [apply lib_index_nat|intros _; lia|].
    intros y Hy; cbn beta in Hy.
    eapply lib_step; [apply (IH (<[j := y]> pool) (n - 1)%nat)|auto|].
    { rewrite length_insert. lia. }
    intros xs [Hlen Hsub]. apply lib_ret. split; [cbn; lia|].
    rewrite <- (sample_step_Permutation pool n j x y Hj Hx Hy).
    apply submseteq_skip, Hsub.
Qed.

Lemma lib_random_sample_sub {A} (population : list A) (k : Z) :
  lib (random_sample population k : M Wr (list A))
      (0 <= k <= Z.of_nat (length population))
      (fun xs => length xs = Z.to_nat k /\ xs ⊆+ population).
Proof.
  unfold random_sample.
  destruct ((k <? 0) || (Z.of_nat (length population) <? k)) eqn:E.
  - apply lib_raise. intros H.
    apply orb_true_iff in E as [E|E]; apply Z.ltb_lt in E; lia.
  - apply orb_false_iff in E as [E1 E2]. apply Z.ltb_ge in E1, E2.
    eapply lib_weaken; [apply (lib_sample_loop_sub (Z.to_nat k) population)| |].
    + lia.
    + auto.
    + cbn beta. intros xs [Hl Hs]. rewrite firstn_all in Hs. auto.
Qed.

Lemma lib_np_random_choice_noreplace_sub {A} (a : list A) (size : Z) :
  lib (np_random_choice_noreplace a size : M Wr (list A))
      (0 <= size <= Z.of_nat (length a))
      (fun xs => length xs = Z.to_nat (Z.min (Z.of_nat (length a)) size) /\ xs ⊆+ a).
Proof.
  eapply lib_post; [apply lib_np_random_choice_noreplace|].
  cbn beta. intros xs (perm & Hperm & Hxs). split.
  - rewrite <- (Forall2_length _ _ _ Hxs), length_take,
      (Permutation_length Hperm), length_seq. lia.
  - apply omap_lookup_Forall2 in Hxs.
    assert (Ha : omap (fun i => a !! i) perm ≡ₚ a).
    { rewrite Hperm. pose proof (omap_lookup_seq_from a []) as H.
      cbn in H. rewrite H. reflexivity. }
    rewrite <- (take_drop (Z.to_nat size) perm), omap_app, Hxs in Ha.
    rewrite <- Ha. apply submseteq_inserts_r. reflexivity.
Qed.

(** *** BOM edges *)

Definition sample_error : exception :=
  ValueError "Cannot take a larger sample than population when 'replace=False'".

(** The selection of children either returns a sub-multiset of the
    pool, or is the tier-3 draw asked for more than the pool holds. *)
Lemma select_children_outcome (tier : Z) (pool : list string) (n : Z) (w : Wr) :
  1 <= n -> pool <> [] ->
  (exists cs r, select_children tier pool n w = (Ok cs, with_rng r w) /\
     cs ⊆+ pool /\ length cs = Z.to_nat (Z.min (Z.of_nat (length pool)) n)) \/
  (tier = 3 /\ Z.of_nat (length pool) < n /\
   select_children tier pool n w = (Raise sample_error, w)).
Proof.
  intros Hn Hpool.
  assert (Hlen : 1 <= Z.of_nat (length pool)).
  { destruct pool; [congruence|cbn; lia]. }
  unfold select_children. destruct (Z.eqb_spec tier 3) as [->|Hne].
  - destruct (Z.ltb_spec (Z.of_nat (length pool)) n) as [Hlt|Hge].
    + right. split; [reflexivity|]. split; [exact Hlt|].
      unfold np_random_choice_noreplace.
      destruct (Z.ltb_spec n 0); [lia|].
      destruct (Z.eqb_spec (Z.of_nat (length pool)) 0); [lia|]. cbn [andb].
      destruct (Z.ltb_spec (Z.of_nat (length pool)) n); [reflexivity|lia].
    + left.
      destruct (lib_ok _ _ _ w (lib_np_random_choice_noreplace_sub pool n))
        as (cs & r & Heq & Hl & Hs); [lia|].
      exists cs, r. auto.
  - left.
    destruct (lib_ok _ _ _ w
                (lib_random_sample_sub pool (Z.min (Z.of_nat (length pool)) n)))
      as (cs & r & Heq & Hl & Hs); [lia|].
    exists cs, r. auto.
Qed.

(** The quantity of an edge below a parent of tier [tier]. *)
Definition qty_ok (tier : Z) (q : Q) : Prop :=
  if tier =? 3 then (1 # 2 <= q /\ q <= 5)%Q else (1 <= q /\ q <= 20)%Q.

Lemma round_between (lo hi : Q) (a b : Z) (d : nat) (x : Q) :
  (lo == inject_Z a / inject_Z (10 ^ Z.of_nat d))%Q ->
  (hi == inject_Z b / inject_Z (10 ^ Z.of_nat d))%Q ->
  (lo <= x /\ x <= hi)%Q -> (lo <= Py.round x d /\ Py.round x d <= hi)%Q.
Proof.
  intros Hlo Hhi [H1 H2]. rewrite Hlo in H1 |- *. rewrite Hhi in H2 |- *.
  split; [apply round_ge, H1|apply round_le, H2].
Qed.

Lemma lib_quantity (tier : Z) (u : Q) :
  (exists r, (0 <= r /\ r < 1)%Q /\ u = (1 + (20 - 1) * r)%Q) ->
  lib ((if tier =? 3
        then v <- random_uniform (1 # 2) 5 ;; ret (Py.round v 3)
        else ret (Py.round u 2)) : M Wr Q) True (qty_ok tier).
Proof.
  intros (r & Hr & ->). unfold qty_ok. destruct (tier =? 3).
  - eapply lib_step; [apply lib_random_uniform|auto|].
    intros v (r' & Hr' & ->). apply lib_ret.
    apply (round_between _ _ 500 5000 3); [reflexivity|reflexivity|split; lra].
  - apply lib_ret.
    apply (round_between _ _ 100 2000 2); [reflexivity|reflexivity|split; lra].
Qed.

(** The edges one parent gets: all below that parent, with a quantity
    in the range of its tier; there is at least one, and their children
    are taken from the pool without replacement. *)
Definition parent_edges (tier : Z) (pool : list string) (parent : string)
    (es : list BomEdge) : Prop :=
  Forall (fun e => parent_material_id e = parent /\ qty_ok tier (quantity e)) es /\
  map child_material_id es ⊆+ pool /\
  (1 <= length es)%nat.

(** The parents a tier step goes through: none when the next tier is
    empty ([continue]), else the materials of the tier in row order. *)
Definition tier_work (ms : list Material) (tier : Z) : list (Z * string) :=
  match ids_of_tier (tier + 1) ms with
  | [] => []
  | _ => map (pair tier) (ids_of_tier tier ms)
  end.

Definition bom_work (ms : list Material) (tiers : list Z) : list (Z * string) :=
  concat (map (tier_work ms) tiers).

(** [es] is what the cell appends while it goes through [done]. *)
Definition bom_done (ms : list Material) (done : list (Z * string))
    (es : list BomEdge) : Prop :=
  exists groups, es = concat groups /\
    Forall2 (fun tp g => parent_edges (fst tp) (ids_of_tier (fst tp + 1) ms) (snd tp) g)
      done groups.

(** The two ways the cell can raise. *)
Definition bom_error (ms : list Material) (e : exception) : Prop :=
  (ms = [] /\ e = KeyError "tier_level") \/
  (ids_of_tier 3 ms <> [] /\ ids_of_tier 4 ms <> [] /\ e = sample_error).

Lemma bom_work_snoc (ms : list Material) (tiers : list Z) (t : Z) :
  bom_work ms (tiers ++ [t]) = bom_work ms tiers ++ tier_work ms t.
Proof. unfold bom_work. rewrite map_app, concat_app. cbn. rewrite app_nil_r. reflexivity. Qed.

Lemma bom_work_app (ms : list Material) (t1 t2 : list Z) :
  bom_work ms (t1 ++ t2) = bom_work ms t1 ++ bom_work ms t2.
Proof. unfold bom_work. rewrite map_app, concat_app. reflexivity. Qed.

Lemma generate_bom_rows (w0 : Wr) :
  triple (eq w0) generate_bom
    (fun _ w => materials w0 <> [] /\
       exists new, bom_shape w0 new w /\
         bom_done (materials w0) (bom_work (materials w0) (range 4)) new)
    (fun e w => (exists new done, bom_shape w0 new w /\
                   done `prefix_of` bom_work (materials w0) (range 4) /\
                   bom_done (materials w0) done new) /\
                bom_error (materials w0) e).
Proof.
  set (ms := materials w0).
  set (S := fun w : Wr => exists new done, bom_shape w0 new w /\
              done `prefix_of` bom_work ms (range 4) /\ bom_done ms done new).
  set (E := fun (e : exception) (w : Wr) => S w /\ bom_error ms e).
  set (I := fun (pre : list Z) (w : Wr) =>
              exists new, bom_shape w0 new w /\ bom_done ms (bom_work ms pre) new).
  assert (HI0 : I [] w0).
  { exists []. split; [exists (rng_state w0); rewrite app_nil_r; destruct w0; reflexivity|].
    exists []. split; [reflexivity|constructor]. }
  assert (HIst : forall pre, rng_stable (I pre)).
  { intros pre r w (new & (r0 & ->) & Hd). exists new.
    split; [exists r; reflexivity|exact Hd]. }
  change (triple (eq w0) generate_bom (fun _ w => ms <> [] /\ I (range 4) w) E).
  unfold generate_bom. apply triple_get_bind. intros w1 <-. fold ms.
  destruct (decide (ms = [])) as [Hnil|Hne].
  { rewrite Hnil. intros w <-. cbn. split; [|left; auto].
    destruct HI0 as (new & Hs & Hd). exists new, []. split; [exact Hs|].
    split; [apply prefix_nil|exact Hd]. }
  apply (triple_post _ _ (fun _ => I (range 4))); [|intros _ w Hw; split; [exact Hne|exact Hw]].
  apply (triple_pre (I [])); [|intros w <-; exact HI0].
  eapply triple_call_ok; [apply lib_groupby_tier_level|exact Hne|apply HIst|].
  intros d ->.
  apply (triple_for _ _ I E).
  intros pre t rest Hr. pose proof Hr as Hrange. apply range_nth in Hr as [Ht Hin].
  unfold bom_tier. rewrite !groups_by_tier_lookup.
  destruct (ids_of_tier (t + 1) ms) as [|c0 pool'] eqn:Hpool.
  { apply triple_ret. intros w (new & Hs & Hd). exists new. split; [exact Hs|].
    rewrite bom_work_snoc. unfold tier_work. rewrite Hpool, app_nil_r. exact Hd. }
  assert (Hwork : tier_work ms t = map (pair t) (ids_of_tier t ms)).
  { unfold tier_work. rewrite Hpool. reflexivity. }
  rewrite <- Hpool. set (pool := ids_of_tier (t + 1) ms).
  assert (Hpne : pool <> []) by (unfold pool; rewrite Hpool; discriminate).
  set (J := fun (pp : list string) (w : Wr) =>
              exists new, bom_shape w0 new w /\
                bom_done ms (bom_work ms pre ++ map (pair t) pp) new).
  assert (HJst : forall pp, rng_stable (J pp)).
  { intros pp r w (new & (r0 & ->) & Hd). exists new.
    split; [exists r; reflexivity|exact Hd]. }
  eapply triple_conseq; [apply (triple_for _ _ J E)| | |auto].
  2:{ intros w (new & Hs & Hd). exists new. split; [exact Hs|].
      cbn [map]. rewrite app_nil_r. exact Hd. }
  2:{ cbn beta. intros _ w (new & Hs & Hd). exists new. split; [exact Hs|].
      rewrite bom_work_snoc, Hwork. exact Hd. }
  intros pp p prest Hp. unfold bom_parent.
  eapply triple_call_ok; [apply lib_np_random_poisson| |apply HJst|].
  { assert (H : (inject_Z t <= 3)%Q).
    { change 3%Q with (inject_Z 3). rewrite <- Zle_Qle. lia. }
    lra. }
  intros pz Hpz; cbn beta in Hpz.
  apply (triple_bind _ _ _
           (fun cs w => J pp w /\ cs ⊆+ pool /\ (1 <= length cs)%nat)).
  { intros w Hw.
    destruct (select_children_outcome t pool (Z.max 1 pz) w)
      as [(cs & r & Heq & Hsub & Hlen)|(Ht3 & Hlt & Heq)];
      [lia|exact Hpne| |]; rewrite Heq; cbn [fst snd].
    - split; [apply HJst, Hw|]. split; [exact Hsub|].
      rewrite Hlen. destruct pool; [congruence|cbn [length]; lia].
    - split.
      + destruct Hw as (new & Hs & Hd). exists new, (bom_work ms pre ++ map (pair t) pp).
        split; [exact Hs|]. split; [|exact Hd].
        rewrite Hrange, bom_work_app. apply prefix_app.
        change (t :: rest) with ([t] ++ rest). rewrite bom_work_app.
        apply prefix_app_r. replace (bom_work ms [t]) with (tier_work ms t)
          by (unfold bom_work; cbn; rewrite app_nil_r; reflexivity).
        rewrite Hwork, Hp, map_app. apply prefix_app_r. reflexivity.
      + right. split.
        * rewrite <- Ht3. intros H0. rewrite Hp in H0. destruct pp; discriminate.
        * split; [|reflexivity]. replace 4 with (t + 1) by lia. exact Hpne. }
  intros cs w [Hw [Hsub Hlen]]. revert w Hw.
  change (triple (J pp)
            (for_ cs (fun child =>
               u <- random_uniform 1 20 ;;
               qty <- (if t =? 3
                       then v <- random_uniform (1 # 2) 5 ;; ret (Py.round v 3)
                       else ret (Py.round u 2)) ;;
               append_bom_edge
                 {| parent_material_id := p; child_material_id := child;
                    quantity := qty |}))
            (fun _ => J (pp ++ [p])) E).
  set (K := fun (cc : list string) (w : Wr) =>
              exists new pe, bom_shape w0 (new ++ pe) w /\
                bom_done ms (bom_work ms pre ++ map (pair t) pp) new /\
                map child_material_id pe = cc /\
                Forall (fun e => parent_material_id e = p /\ qty_ok t (quantity e)) pe).
  assert (HKst : forall cc, rng_stable (K cc)).
  { intros cc r w (new & pe & (r0 & ->) & Hd). exists new, pe.
    split; [exists r; reflexivity|exact Hd]. }
  eapply triple_conseq; [apply (triple_for _ _ K E)| | |auto].
  2:{ intros w (new & Hs & Hd). exists new, []. rewrite app_nil_r.
      split; [exact Hs|]. split; [exact Hd|]. split; [reflexivity|constructor]. }
  2:{ cbn beta. intros _ w (new & pe & Hs & (groups & -> & Hg) & Hch & Hpe).
      exists (concat groups ++ pe). split; [exact Hs|].
      exists (groups ++ [pe]). split; [rewrite concat_app; cbn; rewrite app_nil_r; reflexivity|].
      rewrite map_app, app_assoc. apply Forall2_app; [exact Hg|].
      constructor; [|constructor]. cbn [fst snd]. fold pool.
      split; [exact Hpe|]. split; [rewrite Hch; exact Hsub|].
      rewrite <- (length_map child_material_id), Hch. exact Hlen. }
  intros cc c crest Hc.
  eapply triple_call_ok; [apply lib_random_uniform|exact Logic.I|apply HKst|].
  intros u Hu; cbn beta in Hu.
  eapply triple_call_ok; [apply (lib_quantity t u Hu)|exact Logic.I|apply HKst|].
  intros qty Hqty. apply triple_modify.
  intros w (new & pe & (r & ->) & Hd & Hch & Hpe). cbn.
  exists new. eexists (pe ++ [ _ ]).
  split; [exists r; rewrite !app_assoc; reflexivity|].
  split; [exact Hd|]. split; [rewrite map_app, Hch; reflexivity|].
  apply Forall_app; split; [exact Hpe|]. constructor; [|constructor].
  cbn. auto.
Qed.

(** *** Approved supplier list *)

(** The keys the cell adds are material ids. *)
Definition asl_keys (w0 : Wr) (mp : gmap string (list string)) : Prop :=
  forall key, is_Some (mp !! key) ->
    is_Some (mat_supplier_map w0 !! key) \/ key ∈ map material_id (materials w0).

Lemma assign_asl_rows (w0 : Wr) :
  asl_ok (suppliers w0) (mat_supplier_map w0) ->
  triple (eq w0) assign_asl
    (fun _ w => exists mp, asl_shape w0 mp w /\ asl_ok (suppliers w0) mp /\
                  asl_keys w0 mp /\
                  forall m, m ∈ materials w0 -> is_Some (mp !! material_id m))
    (fun _ w => (exists mp, asl_shape w0 mp w /\ asl_ok (suppliers w0) mp /\
                   asl_keys w0 mp) /\
                ~ asl_pre w0).
Proof.
  intros Hok0.
  set (S := fun w : Wr => exists mp, asl_shape w0 mp w /\ asl_ok (suppliers w0) mp /\
                            asl_keys w0 mp).
  set (J := fun (pre : list Material) (w : Wr) =>
              exists mp, asl_shape w0 mp w /\ asl_ok (suppliers w0) mp /\
                asl_keys w0 mp /\
                forall m, m ∈ pre -> is_Some (mp !! material_id m)).
  assert (HJS : forall pre w, J pre w -> S w).
  { intros pre w (mp & Hs & Hc & Hk & _). exists mp; auto. }
  assert (HJst : forall pre, rng_stable (J pre)).
  { intros pre r w (mp & (r0 & ->) & Hl). exists mp.
    split; [exists r; reflexivity|auto]. }
  unfold assign_asl.
  apply (triple_pre (J [])).
  2:{ intros w <-. exists (mat_supplier_map w0). split;
      [exists (rng_state w0); destruct w0; reflexivity|].
      split; [exact Hok0|]. split; [intros key Hkey; left; exact Hkey|].
      intros m Hm. apply elem_of_nil in Hm. destruct Hm. }
  apply triple_get_bind. intros w1 (mp1 & (r1 & ->) & Hok1 & Hk1 & Hcov1).
  cbn [materials suppliers with_rng with_mat_supplier_map].
  apply (triple_pre (J [])).
  2:{ intros w <-. exists mp1. split; [exists r1; reflexivity|auto]. }
  eapply triple_post; [apply (triple_for _ _ J)|].
  2:{ cbn beta. intros _ w H. exact H. }
  intros pre mat rest Hmats.
  eapply triple_call; [apply lib_random_randint|apply HJst|lia|apply HJS|].
  intros k Hk; cbn beta in Hk.
  eapply triple_call; [apply lib_random_choices|apply HJst| |apply HJS|].
  { intros [Hne Hcap]. rewrite <- (length_map (fun s => inject_Z (capacity_score s))).
    apply choices_accepts_positive.
    - destruct (suppliers w0); [congruence|discriminate].
    - apply Forall_fmap. eapply Forall_impl; [exact Hcap|].
      intros s Hs; cbn in Hs |- *. unfold compose, Qlt; cbn. lia. }
  intros candidates [Hlen Hcands].
  apply triple_modify.
  intros w (mp & (r & ->) & Hok & Hkeys & Hcov). cbn.
  exists (<[material_id mat := map supplier_id candidates]> mp).
  split; [exists r; reflexivity|]. split; [|split].
  - intros key l Hl. apply lookup_insert_Some in Hl as [[_ <-]|[_ Hl]];
      [|exact (Hok key l Hl)].
    rewrite length_map, Hlen. split; [lia|].
    apply Forall_fmap. eapply Forall_impl; [exact Hcands|].
    intros s Hs; cbn. apply list_elem_of_fmap. eauto.
  - intros key Hkey. destruct (decide (material_id mat = key)) as [<-|Hne].
    + right. apply list_elem_of_fmap. exists mat. split; [reflexivity|].
      rewrite Hmats. apply elem_of_app. right. apply list_elem_of_here.
    + rewrite lookup_insert_ne in Hkey by exact Hne. apply Hkeys, Hkey.
  - intros m Hm. destruct (decide (material_id mat = material_id m)) as [->|Hne].
    + rewrite lookup_insert_eq. eauto.
    + rewrite lookup_insert_ne by exact Hne.
      apply elem_of_app in Hm as [Hm|Hm]; [apply Hcov, Hm|].
      apply list_elem_of_singleton in Hm. subst m. congruence.
Qed.

(** *** Purchase orders *)

(** What else holds of the order appended while the id counter stands
    at [counter]: its id, its material, and its price. *)
Definition order_row_ok (ms : list Material) (counter : Z) (o : Order) : Prop :=
  po_id o = ("PO-" ++ Py.str counter)%string /\
  exists m, m ∈ ms /\ po_material_id o = material_id m /\
    exists u, (95 # 100 <= u /\ u < 105 # 100)%Q /\
      unit_price o = Py.round (cost_estimate m * u) 2.

Lemma po_iteration_rows (w1 : Wr) :
  triple (eq w1) po_iteration
    (fun _ w => exists o, po_step w1 o w /\
                  order_ok (mat_supplier_map w1) (current_date w1) o /\
                  order_row_ok (materials w1) (po_id_counter w1) o)
    (fun _ w => po_frame w1 w /\ ~ po_pre w1).
Proof.
  unfold po_iteration. apply triple_get_bind. intros w <-.
  apply (triple_pre (po_frame w1)); [|intros w <-; apply po_frame_refl].
  eapply triple_call; [apply lib_random_choice|apply po_frame_stable| |auto|].
  { intros [H _]; exact H. }
  intros mat Hmat; cbn beta in Hmat.
  eapply triple_call; [apply lib_dict_get|apply po_frame_stable| |auto|].
  { intros [_ H]. destruct (H mat Hmat) as (l & Hl & _). rewrite Hl; eauto. }
  intros valid Hvalid; cbn beta in Hvalid.
  eapply triple_call; [apply lib_random_choice|apply po_frame_stable| |auto|].
  { intros [_ H]. destruct (H mat Hmat) as (l & Hl & Hne). congruence. }
  intros supplier Hsupplier; cbn beta in Hsupplier.
  eapply triple_call; [apply lib_fake_date_between|apply po_frame_stable| |auto|].
  { intros _. vm_compute. discriminate. }
  intros po_date Hdate; cbn beta in Hdate.
  eapply triple_call; [apply lib_random_randint|apply po_frame_stable|lia|auto|].
  intros lead Hlead; cbn beta in Hlead.
  eapply triple_call; [apply lib_random_random|apply po_frame_stable|auto|auto|].
  intros r _.
  eapply triple_call; [apply lib_quantity_ordered|apply po_frame_stable|auto|auto|].
  intros qo Hqo; cbn beta in Hqo.
  apply (triple_bind _ _ _
           (fun rcv w => po_frame w1 w /\
              fulfil_outcome (po_date + lead) (current_date w1) qo
                (fulfillment_status w) rcv)).
  { eapply triple_conseq; [apply (fulfil_spec w1 _ _ _ Hqo)|auto| |].
    - intros a w H; exact H.
    - cbn beta. intros e w [Hw Hn]. destruct Hn. exact Logic.I. }
  intros [qr rd]. cbn [fst snd].
  set (P := fun w : Wr => po_frame w1 w /\
              fulfil_outcome (po_date + lead) (current_date w1) qo
                (fulfillment_status w) (qr, rd)).
  assert (HP : rng_stable P).
  { intros r0 w [(r1 & fs & ->) Hfs]. split; [exists r0, fs; reflexivity|exact Hfs]. }
  assert (HPS : forall w, P w -> po_frame w1 w) by (intros w [H _]; exact H).
  eapply triple_call; [apply lib_random_uniform|exact HP|auto|exact HPS|].
  intros u (ru & Hru & ->).
  intros w [(r1 & fs & ->) Hfs]. cbn.
  eexists. split; [exists r1, fs; reflexivity|]. split.
  - unfold order_ok; cbn.
    split; [exists valid; auto|]. split; [exact Hdate|].
    split; [exists lead; auto|]. split; [exact Hqo|]. exists fs. exact Hfs.
  - unfold order_row_ok; cbn. split; [reflexivity|].
    exists mat. split; [exact Hmat|]. split; [reflexivity|].
    eexists. split; [|reflexivity]. split; lra.
Qed.

(** Row [k] of the order cell's output. *)
Definition order_rows (ms : list Material) (new : list Order) : Prop :=
  forall k o, new !! k = Some o -> order_row_ok ms (100000 + Z.of_nat k) o.

Lemma simulate_orders_rows (cfg : Config) (w0 : Wr) :
  triple (eq w0) (simulate_orders cfg)
    (fun _ w => exists new, orders_shape w0 new w /\
                  Forall (order_ok (mat_supplier_map w0) (Py.date 2025 10 31)) new /\
                  order_rows (materials w0) new /\
                  length new = Z.to_nat (TARGET_PO_COUNT cfg))
    (fun _ w => (exists new, orders_shape w0 new w /\
                   Forall (order_ok (mat_supplier_map w0) (Py.date 2025 10 31)) new /\
                   order_rows (materials w0) new) /\
                ~ po_pre w0).
Proof.
  set (T := TARGET_PO_COUNT cfg).
  set (J := fun (n : nat) (w : Wr) =>
              exists new, orders_shape w0 new w /\
                Forall (order_ok (mat_supplier_map w0) (Py.date 2025 10 31)) new /\
                order_rows (materials w0) new /\
                Z.of_nat (length new) + Z.of_nat n = Z.max 0 T).
  unfold simulate_orders. fold T.
  apply (triple_bind _ _ _ (fun _ => J (Z.to_nat T))).
  { apply triple_modify. intros w <-. exists []. split.
    - exists (rng_state w0), (fulfillment_status w0).
      rewrite app_nil_r. destruct w0; reflexivity.
    - split; [constructor|]. split; [|cbn; lia].
      intros k o Hk. rewrite lookup_nil in Hk. discriminate. }
  intros tt0.
  eapply triple_post; [apply (triple_while_fuel _ _ _ J)|].
  - intros n w [(new & (r & fs & ->) & Hok & Hrows & Hlen) Hc].
    match goal with |- context [po_iteration ?W] =>
      pose proof (po_iteration_rows W W eq_refl) as Hit;
      destruct (po_iteration W) as [[[]|e] w'] end; cbn [fst snd] in *.
    + destruct Hit as (o & (r' & fs' & ->) & Ho & Hrow). exists (new ++ [o]).
      split; [|split; [|split]].
      * exists r', fs'. cbn. rewrite length_app, <- app_assoc. cbn.
        replace (Z.of_nat (length new + 1)) with (Z.of_nat (length new) + 1) by lia.
        rewrite Z.add_assoc. reflexivity.
      * apply Forall_app; split; [exact Hok|]. constructor; [exact Ho|constructor].
      * intros k o' Hk. apply lookup_app_Some in Hk as [Hk|[Hge Hk]];
          [apply Hrows, Hk|].
        apply list_lookup_singleton_Some in Hk as [Hk <-]. cbn in Hrow.
        replace (Z.of_nat k) with (Z.of_nat (length new)) by lia. exact Hrow.
      * rewrite length_app. cbn. lia.
    + destruct Hit as [(r' & fs' & ->) Hpre]. split; [|exact Hpre].
      exists new. split; [exists r', fs'; reflexivity|auto].
  - intros w (new & (r & fs & ->) & Hok & Hrows & Hlen). cbn. apply Z.ltb_ge. lia.
  - cbn beta. intros _ w (n & (new & Hs & Hok & Hrows & Hlen) & Hc). exists new.
    split; [exact Hs|]. split; [exact Hok|]. split; [exact Hrows|].
    destruct Hs as (r & fs & ->). cbn in Hc. apply Z.ltb_ge in Hc. lia.
Qed.

(** *** The whole script, row by row *)

Lemma bom_done_nil (ms : list Material) : bom_done ms [] [].
Proof. exists []. split; [reflexivity|constructor]. Qed.

Lemma order_rows_nil (ms : list Material) : order_rows ms [].
Proof. intros k o H. rewrite lookup_nil in H. discriminate. Qed.

(** What holds of the variables when the script stops, whether it ran
    to the end or raised on the way. *)
Definition run_rows (cfg : Config) (w : Wr) : Prop :=
  supplier_rows cfg (suppliers w) /\
  materials_ok (materials w) /\
  Forall (material_row_ok cfg) (materials w) /\
  (exists done, done `prefix_of` bom_work (materials w) (range 4) /\
                bom_done (materials w) done (bom_edges w)) /\
  asl_ok (suppliers w) (mat_supplier_map w) /\
  (forall key, is_Some (mat_supplier_map w !! key) ->
     key ∈ map material_id (materials w)) /\
  Forall (order_ok (mat_supplier_map w) (Py.date 2025 10 31)) (order_records w) /\
  order_rows (materials w) (order_records w).

(** The supplier cell ran to its end. *)
Definition suppliers_completed (cfg : Config) (w : Wr) : Prop :=
  length (suppliers w) = Z.to_nat (NUM_SUPPLIERS cfg) /\
  exists s, s ∈ suppliers w /\ capacity_score s = 50.

(** What holds besides when the script ran to the end. *)
Definition run_completed (cfg : Config) (w : Wr) : Prop :=
  suppliers_completed cfg w /\
  length (materials w) = Z.to_nat (NUM_MATERIALS cfg) /\
  materials w <> [] /\
  bom_done (materials w) (bom_work (materials w) (range 4)) (bom_edges w) /\
  (forall m, m ∈ materials w -> is_Some (mat_supplier_map w !! material_id m)) /\
  length (order_records w) = Z.to_nat (TARGET_PO_COUNT cfg).

(** What holds besides when the script raised [e]: it stopped in one of
    the first three cells. *)
Definition run_raised (cfg : Config) (e : exception) (w : Wr) : Prop :=
  mat_supplier_map w = ∅ /\ order_records w = [] /\
  (~ suppliers_pre cfg \/
   (suppliers_completed cfg w /\ ~ materials_pre cfg) \/
   (suppliers_completed cfg w /\
    length (materials w) = Z.to_nat (NUM_MATERIALS cfg) /\
    bom_error (materials w) e)).

Definition run_outcome (cfg : Config) (out : result unit) (w : Wr) : Prop :=
  match out with
  | Ok _ => run_completed cfg w
  | Raise e => run_raised cfg e w
  end.

Lemma keys_empty (l : list string) (key : string) :
  is_Some ((∅ : gmap string (list string)) !! key) -> key ∈ l.
Proof. rewrite lookup_empty. intros [x Hx]. discriminate. Qed.

Ltac rows_done :=
  unfold run_rows, run_outcome, run_completed, run_raised, suppliers_completed;
  repeat match goal with x := _ |- _ => subst x end; cbn in *;
  repeat match goal with |- _ /\ _ => split end;
  eauto using supplier_rows_nil, materials_ok_nil, asl_ok_empty, order_rows_nil,
    bom_done_nil, prefix_nil, keys_empty.

Lemma run_from_rows (cfg : Config) (s : rng) :
  run_rows cfg (snd (run_from cfg s)) /\
  run_outcome cfg (fst (run_from cfg s)) (snd (run_from cfg s)).
Proof.
  destruct (run_from cfg s) as [out w] eqn:Hrun. cbn [fst snd].
  unfold run_from, script in Hrun. set (w0 := initial_world s) in *.
  pose proof (generate_suppliers_rows cfg w0 w0 eq_refl) as H1.
  unfold bind at 1 in Hrun.
  destruct (generate_suppliers cfg w0) as [[[]|e1] w1]; cbn [fst snd] in *.
  2:{ injection Hrun as <- <-. destruct H1 as [(sup & (r1 & ->) & Hsup) Hpre].
      rows_done. }
  destruct H1 as (sup & (r1 & ->) & Hsuplen & Hsup & Hhub).
  unfold bind at 1 in Hrun.
  match type of Hrun with context [generate_materials cfg ?W] => set (w1 := W) in * end.
  pose proof (generate_materials_rows cfg w1 w1 eq_refl) as H2.
  destruct (generate_materials cfg w1) as [[[]|e2] w2]; cbn [fst snd] in *.
  2:{ injection Hrun as <- <-. destruct H2 as [(mats & (r2 & ->) & Hmats & Hmrows) Hpre].
      rows_done. }
  destruct H2 as (mats & (r2 & ->) & Hmlen & Hmats & Hmrows).
  unfold bind at 1 in Hrun.
  match type of Hrun with context [generate_bom ?W] => set (w2 := W) in * end.
  pose proof (generate_bom_rows w2 w2 eq_refl) as H3.
  destruct (generate_bom w2) as [[[]|e3] w3]; cbn [fst snd] in *.
  2:{ injection Hrun as <- <-. destruct H3 as [(edges & done & (r3 & ->) & Hpre & Hdone) Herr].
      rows_done. right; right. auto. }
  destruct H3 as (Hmne & edges & (r3 & ->) & Hedges).
  unfold bind at 1 in Hrun.
  match type of Hrun with context [assign_asl ?W] => set (w3 := W) in * end.
  pose proof (assign_asl_rows w3 (asl_ok_empty _) w3 eq_refl) as H4.
  assert (Hasl : asl_pre w3).
  { subst w3 w2 w1 w0. unfold asl_pre. cbn. split.
    - destruct Hhub as (s0 & Hs0 & _). intros ->. apply elem_of_nil in Hs0. exact Hs0.
    - apply Forall_forall. intros s0 Hs0. apply list_elem_of_lookup in Hs0 as [k Hk].
      destruct (Hsup k s0 Hk) as (_ & _ & Hcap). lia. }
  destruct (assign_asl w3) as [[[]|e4] w4]; cbn [fst snd] in *.
  2:{ destruct H4 as [_ Hn]. destruct (Hn Hasl). }
  destruct H4 as (mp & (r4 & ->) & Hmp & Hkeys & Hcov).
  match type of Hrun with context [simulate_orders cfg ?W] => set (w4 := W) in * end.
  pose proof (simulate_orders_rows cfg w4 w4 eq_refl) as H5.
  assert (Hpo : po_pre w4).
  { subst w4 w3 w2 w1 w0. unfold po_pre. cbn in *. split; [exact Hmne|].
    intros m Hm. destruct (Hcov m Hm) as [l Hl]. exists l. split; [exact Hl|].
    destruct (Hmp _ _ Hl) as [Hlen _]. intros ->. cbn in Hlen. lia. }
  destruct (simulate_orders cfg w4) as [[[]|e5] w5]; cbn [fst snd] in *.
  2:{ destruct H5 as [_ Hn]. destruct (Hn Hpo). }
  injection Hrun as <- <-.
  destruct H5 as (orders & (r5 & fs & ->) & Horders & Horows & Holen).
  rows_done.
  intros key Hkey. destruct (Hkeys key Hkey) as [Hk|Hk]; [|exact Hk].
  cbn in Hk. rewrite lookup_empty in Hk. destruct Hk; discriminate.
Qed.

(** *** Keys *)

Lemma mat_id_of_inj (t t' i i' : Z) :
  0 <= t <= 4 -> 0 <= t' <= 4 -> 0 <= i -> 0 <= i' ->
  mat_id_of t i = mat_id_of t' i' -> t = t' /\ i = i'.
Proof.
  intros Ht Ht' Hi Hi' H.
  pose proof (mat_id_of_tier _ _ _ _ Ht Ht' H) as <-. split; [reflexivity|].
  unfold mat_id_of in H. do 3 apply String.app_inj in H.
  apply zfill_str_inj in H; lia.
Qed.

Lemma sup_id_of_inj (c c' : string) (i i' : Z) :
  0 <= i -> 0 <= i' -> sup_id_of c i = sup_id_of c' i' -> c = c' /\ i = i'.
Proof.
  intros Hi Hi' H. unfold sup_id_of in H. apply String.app_inj in H.
  apply sep_inj in H as [Hc Hz]; try apply no_sep_zfill_str.
  split; [exact Hc|]. apply zfill_str_inj in Hz; lia.
Qed.

Lemma materials_ok_NoDup (ms : list Material) :
  materials_ok ms -> NoDup (map material_id ms).
Proof.
  intros Hok. apply NoDup_alt. intros i j x Hi Hj.
  rewrite list_lookup_fmap in Hi, Hj.
  destruct (ms !! i) as [m1|] eqn:E1; [|discriminate].
  destruct (ms !! j) as [m2|] eqn:E2; [|discriminate].
  cbn in Hi, Hj. injection Hi as Hi. injection Hj as Hj.
  destruct (Hok i m1 E1) as [Hid1 Ht1]. destruct (Hok j m2 E2) as [Hid2 Ht2].
  rewrite <- Hj, Hid1, Hid2 in Hi.
  apply mat_id_of_inj in Hi as [_ Hi]; lia.
Qed.

Lemma supplier_rows_NoDup (cfg : Config) (ss : list Supplier) :
  supplier_rows cfg ss -> NoDup (map supplier_id ss).
Proof.
  intros Hok. apply NoDup_alt. intros i j x Hi Hj.
  rewrite list_lookup_fmap in Hi, Hj.
  destruct (ss !! i) as [s1|] eqn:E1; [|discriminate].
  destruct (ss !! j) as [s2|] eqn:E2; [|discriminate].
  cbn in Hi, Hj. injection Hi as Hi. injection Hj as Hj.
  destruct (Hok i s1 E1) as (_ & Hid1 & _). destruct (Hok j s2 E2) as (_ & Hid2 & _).
  rewrite <- Hj, Hid1, Hid2 in Hi.
  apply sup_id_of_inj in Hi as [_ Hi]; lia.
Qed.

Lemma order_rows_NoDup (ms : list Material) (os : list Order) :
  order_rows ms os -> NoDup (map po_id os).
Proof.
  intros Hok. apply NoDup_alt. intros i j x Hi Hj.
  rewrite list_lookup_fmap in Hi, Hj.
  destruct (os !! i) as [o1|] eqn:E1; [|discriminate].
  destruct (os !! j) as [o2|] eqn:E2; [|discriminate].
  cbn in Hi, Hj. injection Hi as Hi. injection Hj as Hj.
  destruct (Hok i o1 E1) as (Hid1 & _). destruct (Hok j o2 E2) as (Hid2 & _).
  rewrite <- Hj, Hid1, Hid2 in Hi. apply String.app_inj in Hi.
  apply str_inj in Hi; lia.
Qed.

(** Two rows of a list with pairwise distinct keys that agree on the
    key are the same row. *)
Lemma NoDup_fmap_elem_inj {A B} (f : A -> B) (l : list A) (x y : A) :
  NoDup (map f l) -> x ∈ l -> y ∈ l -> f x = f y -> x = y.
Proof.
  intros Hnd [i Hi]%list_elem_of_lookup [j Hj]%list_elem_of_lookup Hf.
  assert (i = j).
  { apply (NoDup_lookup (map f l) i j (f x) Hnd).
    - rewrite list_lookup_fmap, Hi. reflexivity.
    - rewrite list_lookup_fmap, Hj, Hf. reflexivity. }
  subst j. congruence.
Qed.

(** *** The shape of the BOM *)

Lemma elem_of_range (n x : Z) : x ∈ range n <-> 0 <= x < n.
Proof.
  unfold range. rewrite list_elem_of_fmap. split.
  - intros (k & -> & Hk). apply elem_of_seq in Hk. lia.
  - intros Hx. exists (Z.to_nat x). split; [lia|]. apply elem_of_seq. lia.
Qed.

Lemma elem_of_tier_work (ms : list Material) (t t' : Z) (p : string) :
  (t', p) ∈ tier_work ms t <->
  t' = t /\ ids_of_tier (t + 1) ms <> [] /\ p ∈ ids_of_tier t ms.
Proof.
  unfold tier_work. destruct (ids_of_tier (t + 1) ms) as [|c pool] eqn:E.
  - split; [intros H; apply elem_of_nil in H; destruct H|intros (_ & H & _); congruence].
  - rewrite list_elem_of_fmap. split.
    + intros (x & Hx & Hin). injection Hx as -> ->. split; [reflexivity|].
      split; [discriminate|exact Hin].
    + intros (-> & _ & Hin). exists p. auto.
Qed.

Lemma elem_of_bom_work (ms : list Material) (tiers : list Z) (t : Z) (p : string) :
  (t, p) ∈ bom_work ms tiers <->
  t ∈ tiers /\ ids_of_tier (t + 1) ms <> [] /\ p ∈ ids_of_tier t ms.
Proof.
  unfold bom_work. induction tiers as [|t0 tiers IH]; cbn [map concat].
  - split; [intros H; apply elem_of_nil in H; destruct H
           |intros (H & _); apply elem_of_nil in H; destruct H].
  - rewrite elem_of_app, IH, elem_of_tier_work, elem_of_cons. split.
    + intros [(-> & H)|(Hin & H)]; auto.
    + intros ([->|Hin] & H); auto.
Qed.

(** Every edge was appended for some parent gone through. *)
Lemma bom_done_edge (ms : list Material) (done : list (Z * string))
    (es : list BomEdge) (e : BomEdge) :
  bom_done ms done es -> e ∈ es ->
  exists t, (t, parent_material_id e) ∈ done /\ qty_ok t (quantity e) /\
            child_material_id e ∈ ids_of_tier (t + 1) ms.
Proof.
  intros (groups & -> & Hg) He. induction Hg as [|[t p] g done groups Hpg Hg IH].
  - cbn in He. apply elem_of_nil in He. destruct He.
  - cbn [concat] in He. apply elem_of_app in He as [He|He].
    + destruct Hpg as (Hall & Hsub & _). cbn [fst snd] in *.
      rewrite Forall_forall in Hall. destruct (Hall e He) as [Hp Hq].
      exists t. rewrite Hp. split; [apply list_elem_of_here|]. split; [exact Hq|].
      eapply elem_of_submseteq; [|exact Hsub].
      apply list_elem_of_fmap. exists e. auto.
    + destruct (IH He) as (t' & Hin & H). exists t'.
      split; [apply list_elem_of_further, Hin|exact H].
Qed.

(** Every parent gone through has an edge. *)
Lemma bom_done_cover (ms : list Material) (done : list (Z * string))
    (es : list BomEdge) (t : Z) (p : string) :
  bom_done ms done es -> (t, p) ∈ done ->
  exists e, e ∈ es /\ parent_material_id e = p.
Proof.
  intros (groups & -> & Hg) Hin. induction Hg as [|[t0 p0] g done groups Hpg Hg IH].
  - apply elem_of_nil in Hin. destruct Hin.
  - cbn [concat]. apply elem_of_cons in Hin as [Heq|Hin].
    + injection Heq as -> ->. destruct Hpg as (Hall & _ & Hlen). cbn [fst snd] in *.
      destruct g as [|e g]; [cbn in Hlen; lia|].
      exists e. split; [apply elem_of_app; left; apply list_elem_of_here|].
      apply Forall_cons in Hall as [[Hp _] _]. exact Hp.
    + destruct (IH Hin) as (e & He & Hp). exists e.
      split; [apply elem_of_app; right; exact He|exact Hp].
Qed.

(** The two ends of an edge. *)
Definition edge_ends (e : BomEdge) : string * string :=
  (parent_material_id e, child_material_id e).

Lemma bom_done_NoDup (ms : list Material) (done : list (Z * string))
    (es : list BomEdge) :
  (forall t, NoDup (ids_of_tier t ms)) -> NoDup (map snd done) ->
  bom_done ms done es -> NoDup (map edge_ends es).
Proof.
  intros Hids Hnd (groups & -> & Hg).
  induction Hg as [|[t p] g done groups Hpg Hg IH]; [constructor|].
  cbn [concat map snd] in *. apply NoDup_cons in Hnd as [Hp Hnd].
  rewrite map_app. apply NoDup_app. split; [|split; [|exact (IH Hnd)]].
  - destruct Hpg as (_ & Hsub & _). cbn [fst snd] in Hsub.
    apply (NoDup_fmap_1 snd). rewrite <- list_fmap_compose.
    apply (submseteq_NoDup _ _ Hsub), Hids.
  - intros [p' c'] Hin1 Hin2.
    apply list_elem_of_fmap in Hin1 as (e1 & Heq1 & He1).
    apply list_elem_of_fmap in Hin2 as (e2 & Heq2 & He2).
    destruct Hpg as (Hall & _ & _). rewrite Forall_forall in Hall.
    destruct (Hall e1 He1) as [Hp1 _]. cbn [snd] in Hp1.
    injection Heq1 as -> _.
    destruct (bom_done_edge ms done (concat groups) e2) as (t2 & Hin & _);
      [exists groups; auto|exact He2|].
    injection Heq2 as Hpp _. rewrite <- Hpp, Hp1 in Hin.
    apply Hp. apply list_elem_of_fmap. exists (t2, p). auto.
Qed.

Lemma ids_of_tier_NoDup (ms : list Material) (t : Z) :
  NoDup (map material_id ms) -> NoDup (ids_of_tier t ms).
Proof.
  intros H. unfold ids_of_tier.
  eapply sublist_NoDup; [exact H|apply fmap_sublist, sublist_filter].
Qed.

Lemma bom_work_NoDup (ms : list Material) (tiers : list Z) :
  materials_ok ms -> NoDup tiers -> NoDup (map snd (bom_work ms tiers)).
Proof.
  intros Hok Ht. induction Ht as [|t tiers Hnin Ht IH]; [constructor|].
  change (t :: tiers) with ([t] ++ tiers). rewrite bom_work_app, map_app.
  apply NoDup_app. split; [|split; [|exact IH]].
  - unfold bom_work. cbn. rewrite app_nil_r. unfold tier_work.
    destruct (ids_of_tier (t + 1) ms); [constructor|].
    rewrite <- list_fmap_compose. cbn. rewrite list_fmap_id.
    apply ids_of_tier_NoDup, materials_ok_NoDup, Hok.
  - intros p Hin1 Hin2.
    apply list_elem_of_fmap in Hin1 as ([t1 p1] & -> & Hin1).
    apply list_elem_of_fmap in Hin2 as ([t2 p2] & Heq & Hin2). cbn [snd] in *. subst p2.
    apply elem_of_bom_work in Hin1 as (Ht1 & _ & Hp1).
    apply elem_of_bom_work in Hin2 as (Ht2 & _ & Hp2).
    apply list_elem_of_singleton in Ht1. subst t1.
    apply ids_of_tier_elem in Hp1 as (m1 & Hm1 & Htier1 & Hid1).
    apply ids_of_tier_elem in Hp2 as (m2 & Hm2 & Htier2 & Hid2).
    assert (tier_level m1 = tier_level m2).
    { apply (materials_ok_tier ms); auto. congruence. }
    apply Hnin. congruence.
Qed.

(** ** What every run shows *)

Lemma prefix_elem_of {A} (l k : list A) (x : A) : l `prefix_of` k -> x ∈ l -> x ∈ k.
Proof. intros [r ->] Hx. apply elem_of_app. left. exact Hx. Qed.

Lemma prefix_fmap_NoDup {A B} (f : A -> B) (l k : list A) :
  l `prefix_of` k -> NoDup (map f k) -> NoDup (map f l).
Proof. intros [r ->]. rewrite map_app. intros H. apply NoDup_app in H as [H _]. exact H. Qed.

Lemma NoDup_range (n : Z) : NoDup (range n).
Proof.
  unfold range. apply NoDup_fmap_2; [|apply NoDup_seq].
  intros a b H. lia.
Qed.

(** Supplier rows (cell "Generate Supplier Nodes").  Whenever the script
    stops, the supplier at position [k] has a country that is a key of
    [COUNTRY_WEIGHTS], the id [SUP_<country>_<k+1>] with the number
    padded to five digits, and a capacity score from 1 to 50; no two
    suppliers share an id. *)
Theorem supplier_rows_are_well_formed (cfg : Config) (s : rng) :
  NoDup (map supplier_id (suppliers (snd (run_from cfg s)))) /\
  forall k sp, suppliers (snd (run_from cfg s)) !! k = Some sp ->
    country sp ∈ map fst (COUNTRY_WEIGHTS cfg) /\
    supplier_id sp =
      ("SUP_" ++ country sp ++ "_" ++ Py.zfill 5 (Py.str (Z.of_nat k + 1)))%string /\
    1 <= capacity_score sp <= 50.
Proof.
  destruct (run_from_rows cfg s) as [(Hsup & _) _].
  split; [exact (supplier_rows_NoDup cfg _ Hsup)|].
  intros k sp Hk. exact (Hsup k sp Hk).
Qed.

(** The normalisation of the capacity scores.  On a configuration the
    supplier cell accepts (at least one supplier, country weights that
    [random.choices] accepts) the cell returns, appends exactly
    [NUM_SUPPLIERS] suppliers, and at least one of them has the top
    score 50: the largest Zipf draw is scaled to exactly 50. *)
Theorem supplier_cell_makes_a_hub (cfg : Config) (w0 : Wr) :
  suppliers_pre cfg ->
  exists w new,
    generate_suppliers cfg w0 = (Ok tt, w) /\
    suppliers w = suppliers w0 ++ new /\
    Z.of_nat (length new) = NUM_SUPPLIERS cfg /\
    Forall (fun sp => 1 <= capacity_score sp <= 50) new /\
    exists sp, sp ∈ new /\ capacity_score sp = 50.
Proof.
  intros Hpre. pose proof (generate_suppliers_rows cfg w0 w0 eq_refl) as H.
  destruct (generate_suppliers cfg w0) as [[[]|e] w]; cbn [fst snd] in H.
  2:{ destruct H as [_ Hn]. destruct (Hn Hpre). }
  destruct H as (new & (r & ->) & Hlen & Hrows & Hhub).
  exists (with_rng r (with_suppliers (suppliers w0 ++ new) w0)), new.
  split; [reflexivity|]. split; [reflexivity|].
  split; [destruct Hpre as [Hn _]; lia|]. split; [|exact Hhub].
  apply Forall_forall. intros sp Hsp. apply list_elem_of_lookup in Hsp as [k Hk].
  exact (proj2 (proj2 (Hrows k sp Hk))).
Qed.

Lemma cents_nonneg (c : Z) : (0 <= inject_Z c / inject_Z 100)%Q -> 0 <= c.
Proof. unfold Qle, Qdiv, Qmult, Qinv, inject_Z. cbn. lia. Qed.

(** Material rows (cell "Generate Material Nodes").  Whenever the
    script stops, no two materials share an id, and every material has
    a description that is one of the names of its tier, the unit "KG"
    exactly when its tier is 4 and "EA" otherwise, and a cost estimate
    that is a non-negative number of whole cents. *)
Theorem material_rows_are_well_formed (cfg : Config) (s : rng) :
  NoDup (map material_id (materials (snd (run_from cfg s)))) /\
  forall m, m ∈ materials (snd (run_from cfg s)) ->
    (exists names, tier_names !! tier_level m = Some names /\ description m ∈ names) /\
    (base_unit m = "KG" <-> tier_level m = 4) /\
    (base_unit m = "EA" <-> tier_level m <> 4) /\
    (0 <= cost_estimate m)%Q /\
    exists cents : Z, 0 <= cents /\ (cost_estimate m == inject_Z cents / 100)%Q.
Proof.
  destruct (run_from_rows cfg s) as [(_ & Hok & Hrows & _) _].
  split; [exact (materials_ok_NoDup _ Hok)|].
  intros m Hm. rewrite Forall_forall in Hrows.
  destruct (Hrows m Hm) as (_ & Hdesc & Hunit & Hcost & cents & Hcents).
  apply list_elem_of_lookup in Hm as [k Hk]. destruct (Hok k m Hk) as [_ Htier].
  split; [exact Hdesc|]. rewrite Hunit.
  destruct (Z.ltb_spec (tier_level m) 4) as [Hlt|Hge].
  - split; [split; [discriminate|lia]|]. split; [split; [lia|reflexivity]|].
    split; [exact Hcost|]. exists cents. split; [|rewrite Hcents; reflexivity].
    rewrite Hcents in Hcost. exact (cents_nonneg cents Hcost).
  - split; [split; [lia|reflexivity]|]. split; [split; [discriminate|lia]|].
    split; [exact Hcost|]. exists cents. split; [|rewrite Hcents; reflexivity].
    rewrite Hcents in Hcost. exact (cents_nonneg cents Hcost).
Qed.

(** BOM quantities (cell "Generate BOM Edges").  Whenever the script
    stops, every edge has a quantity from 0.5 to 20; below a tier-3
    parent it is from 0.5 to 5, below any other parent from 1 to 20. *)
Theorem bom_quantities_are_in_range (cfg : Config) (s : rng) (e : BomEdge) :
  e ∈ bom_edges (snd (run_from cfg s)) ->
  (1 # 2 <= quantity e /\ quantity e <= 20)%Q /\
  forall p, p ∈ materials (snd (run_from cfg s)) ->
    material_id p = parent_material_id e ->
    (tier_level p = 3 -> (1 # 2 <= quantity e /\ quantity e <= 5)%Q) /\
    (tier_level p <> 3 -> (1 <= quantity e /\ quantity e <= 20)%Q).
Proof.
  intros He.
  destruct (run_from_rows cfg s) as [(_ & Hok & _ & (done & Hpre & Hdone) & _) _].
  destruct (bom_done_edge _ _ _ e Hdone He) as (t & Hin & Hq & _).
  apply (prefix_elem_of _ _ _ Hpre) in Hin.
  apply elem_of_bom_work in Hin as (_ & _ & Hp).
  apply ids_of_tier_elem in Hp as (m & Hm & Htier & Hid).
  unfold qty_ok in Hq. split.
  - destruct (t =? 3); destruct Hq as [H1 H2]; split; lra.
  - intros p Hpin Hpid.
    assert (Hpt : tier_level p = t).
    { rewrite <- Htier. apply (materials_ok_tier _ p m Hok Hpin Hm). congruence. }
    rewrite Hpt. destruct (Z.eqb_spec t 3) as [->|Hne].
    + split; [intros _; exact Hq|intros H; destruct (H eq_refl)].
    + split; [intros H; destruct (Hne H)|intros _; exact Hq].
Qed.

(** No duplicate edge (cell "Generate BOM Edges").  Whenever the script
    stops, no two BOM edges join the same parent to the same child: each
    parent is gone through once, and its children are drawn without
    replacement at every tier. *)
Theorem bom_has_no_duplicate_edge (cfg : Config) (s : rng) :
  NoDup (map (fun e => (parent_material_id e, child_material_id e))
           (bom_edges (snd (run_from cfg s)))).
Proof.
  destruct (run_from_rows cfg s) as [(_ & Hok & _ & (done & Hpre & Hdone) & _) _].
  apply (bom_done_NoDup (materials (snd (run_from cfg s))) done); [| |exact Hdone].
  - intros t. apply ids_of_tier_NoDup, materials_ok_NoDup, Hok.
  - apply (prefix_fmap_NoDup snd _ _ Hpre), bom_work_NoDup; [exact Hok|apply NoDup_range].
Qed.

(** Fan-out of at least one (cell "Generate BOM Edges").  In a run that
    ran to the end, every material that has some material in the next
    tier is the parent of at least one edge. *)
Theorem every_parent_has_a_child (cfg : Config) (s : rng) (p c : Material) :
  fst (run_from cfg s) = Ok tt ->
  p ∈ materials (snd (run_from cfg s)) ->
  c ∈ materials (snd (run_from cfg s)) ->
  tier_level c = tier_level p + 1 ->
  exists e, e ∈ bom_edges (snd (run_from cfg s)) /\
            parent_material_id e = material_id p.
Proof.
  intros Hok Hp Hc Htier.
  destruct (run_from_rows cfg s) as [(_ & Hmok & _) Hout].
  rewrite Hok in Hout. destruct Hout as (_ & _ & _ & Hdone & _).
  apply (bom_done_cover _ _ _ (tier_level p) (material_id p) Hdone).
  apply elem_of_bom_work. split; [|split].
  - apply elem_of_range.
    apply list_elem_of_lookup in Hp as [kp Hkp]. apply list_elem_of_lookup in Hc as [kc Hkc].
    destruct (Hmok kp p Hkp) as [_ H1]. destruct (Hmok kc c Hkc) as [_ H2]. lia.
  - intros Hnil.
    assert (Hin : material_id c ∈ ids_of_tier (tier_level p + 1)
                                  (materials (snd (run_from cfg s)))).
    { apply ids_of_tier_elem. exists c. auto. }
    rewrite Hnil in Hin. apply elem_of_nil in Hin. exact Hin.
  - apply ids_of_tier_elem. exists p. auto.
Qed.

(** How a run can fail.  On a configuration that the supplier and the
    material cell accept, with at least one material asked for, a run
    either runs to the end or stops on numpy's [ValueError] for a sample
    larger than the population; then there are tier-3 and tier-4
    materials, no supplier list and no order.  A run that generates no
    tier-4 material runs to the end. *)
Theorem valid_configuration_fails_only_at_tier_3 (cfg : Config) (s : rng) :
  suppliers_pre cfg -> materials_pre cfg -> 1 <= NUM_MATERIALS cfg ->
  (fst (run_from cfg s) = Ok tt \/
   (fst (run_from cfg s) = Raise sample_error /\
    (exists p, p ∈ materials (snd (run_from cfg s)) /\ tier_level p = 3) /\
    (exists c, c ∈ materials (snd (run_from cfg s)) /\ tier_level c = 4) /\
    mat_supplier_map (snd (run_from cfg s)) = ∅ /\
    order_records (snd (run_from cfg s)) = [])) /\
  ((forall m, m ∈ materials (snd (run_from cfg s)) -> tier_level m <> 4) ->
   fst (run_from cfg s) = Ok tt).
Proof.
  intros Hs Hm Hn. destruct (run_from_rows cfg s) as [_ Hout].
  destruct (fst (run_from cfg s)) as [[]|e]; [split; [left|]; reflexivity|].
  destruct Hout as (Hmp & Hord & [Hx|[[_ Hx]|(_ & Hlen & Herr)]]);
    [destruct (Hx Hs)|destruct (Hx Hm)|].
  destruct Herr as [[Hnil _]|(H3 & H4 & ->)].
  { rewrite Hnil in Hlen. cbn in Hlen. lia. }
  assert (Hex : forall t, ids_of_tier t (materials (snd (run_from cfg s))) <> [] ->
                  exists m, m ∈ materials (snd (run_from cfg s)) /\ tier_level m = t).
  { intros t Ht. destruct (ids_of_tier t _) as [|x l] eqn:E; [congruence|].
    assert (Hin : x ∈ ids_of_tier t (materials (snd (run_from cfg s))))
      by (rewrite E; apply list_elem_of_here).
    apply ids_of_tier_elem in Hin as (m & Hin & Htier & _). eauto. }
  split.
  - right. split; [reflexivity|]. split; [apply Hex, H3|].
    split; [apply Hex, H4|]. auto.
  - intros Hno. destruct (Hex 4 H4) as (m & Hin & Ht). destruct (Hno m Hin Ht).
Qed.

(** The supplier map (cell "Assign Approved Supplier List").  Whenever
    the script stops, every key of the map is the id of a generated
    material and every entry of its list is the id of a generated
    supplier. *)
Theorem supplier_map_refers_to_generated_rows
    (cfg : Config) (s : rng) (key : string) (l : list string) :
  mat_supplier_map (snd (run_from cfg s)) !! key = Some l ->
  (exists m, m ∈ materials (snd (run_from cfg s)) /\ material_id m = key) /\
  Forall (fun sid => exists sp, sp ∈ suppliers (snd (run_from cfg s)) /\
                                supplier_id sp = sid) l.
Proof.
  intros Hl.
  destruct (run_from_rows cfg s) as [(_ & _ & _ & _ & Hasl & Hkeys & _) _].
  split.
  - assert (Hk : key ∈ map material_id (materials (snd (run_from cfg s))))
      by (apply Hkeys; eauto).
    apply list_elem_of_fmap in Hk as (m & -> & Hm). eauto.
  - destruct (Hasl key l Hl) as [_ Hall]. eapply Forall_impl; [exact Hall|].
    intros sid Hsid. cbn beta in Hsid.
    apply list_elem_of_fmap in Hsid as (sp & -> & Hsp). eauto.
Qed.

(** Order rows (cell "Generate POs").  Whenever the script stops, the
    order at position [k] has the id [PO-<100000+k>], its material is a
    generated material and its supplier a generated supplier; no two
    orders share an id. *)
Theorem order_rows_refer_to_generated_rows (cfg : Config) (s : rng) :
  NoDup (map po_id (order_records (snd (run_from cfg s)))) /\
  forall k o, order_records (snd (run_from cfg s)) !! k = Some o ->
    po_id o = ("PO-" ++ Py.str (100000 + Z.of_nat k))%string /\
    (exists m, m ∈ materials (snd (run_from cfg s)) /\
               material_id m = po_material_id o) /\
    (exists sp, sp ∈ suppliers (snd (run_from cfg s)) /\
                supplier_id sp = po_supplier_id o).
Proof.
  destruct (run_from_rows cfg s) as [(_ & _ & _ & _ & Hasl & _ & Hok & Hrows) _].
  split; [exact (order_rows_NoDup _ _ Hrows)|].
  intros k o Hk. destruct (Hrows k o Hk) as (Hid & m & Hm & Hmid & _).
  split; [exact Hid|]. split; [eauto|].
  rewrite Forall_forall in Hok.
  destruct (Hok o) as ((l & Hl & Hin) & _); [apply list_elem_of_lookup; eauto|].
  destruct (Hasl _ _ Hl) as [_ Hall]. rewrite Forall_forall in Hall.
  specialize (Hall _ Hin). apply list_elem_of_fmap in Hall as (sp & -> & Hsp). eauto.
Qed.

(** Unit prices (cell "Generate POs").  Whenever the script stops, the
    unit price of an order is not negative and lies within half a cent
    of 95% to 105% of the cost estimate of the order's material. *)
Theorem unit_price_is_near_the_cost_estimate
    (cfg : Config) (s : rng) (o : Order) (m : Material) :
  o ∈ order_records (snd (run_from cfg s)) ->
  m ∈ materials (snd (run_from cfg s)) ->
  material_id m = po_material_id o ->
  (0 <= unit_price o)%Q /\
  (cost_estimate m * (95 # 100) - (1 # 200) <= unit_price o)%Q /\
  (unit_price o <= cost_estimate m * (105 # 100) + (1 # 200))%Q.
Proof.
  intros Ho Hm Hid.
  destruct (run_from_rows cfg s) as [(_ & Hmok & Hmrows & _ & _ & _ & _ & Hrows) _].
  apply list_elem_of_lookup in Ho as [k Hk].
  destruct (Hrows k o Hk) as (_ & m' & Hm' & Hmid & u & [Hu1 Hu2] & Hprice).
  assert (m' = m).
  { apply (NoDup_fmap_elem_inj material_id _ _ _ (materials_ok_NoDup _ Hmok) Hm' Hm).
    congruence. }
  subst m'. rewrite Forall_forall in Hmrows.
  destruct (Hmrows m Hm) as (_ & _ & _ & Hcost & _).
  destruct (round_2_near (cost_estimate m * u)) as [Hn1 Hn2].
  rewrite Hprice. split; [|split].
  - apply round_nonneg. apply Qmult_le_0_compat; [exact Hcost|lra].
  - assert (H : (cost_estimate m * (95 # 100) <= cost_estimate m * u)%Q).
    { rewrite !(Qmult_comm (cost_estimate m)). apply Qmult_le_compat_r; assumption. }
    lra.
  - assert (H : (cost_estimate m * u <= cost_estimate m * (105 # 100))%Q).
    { rewrite !(Qmult_comm (cost_estimate m)).
      apply Qmult_le_compat_r; [apply Qlt_le_weak, Hu2|exact Hcost]. }
    lra.
Qed.

(** Dates (cell "Generate POs").  Whenever the script stops, every
    order is dated from 2024-01-01 to 2025-12-31 and due by 2026-03-31;
    a receipt date lies from 2 days before to 15 days after the due
    date, never before the twelfth day after the order date, and never
    after 2025-11-15; an order received in full was received at most 10
    days late, an order received short at least one day late. *)
Theorem order_dates_are_in_their_windows (cfg : Config) (s : rng) (o : Order) :
  o ∈ order_records (snd (run_from cfg s)) ->
  Py.date 2024 1 1 <= order_date o <= Py.date 2025 12 31 /\
  due_date o <= Py.date 2026 3 31 /\
  forall r, receipt_date o = Some r ->
    due_date o - 2 <= r <= due_date o + 15 /\
    order_date o + 12 <= r <= Py.date 2025 11 15 /\
    (quantity_received o = quantity_ordered o -> r <= due_date o + 10) /\
    (quantity_received o < quantity_ordered o -> due_date o + 1 <= r).
Proof.
  intros Ho.
  destruct (run_from_rows cfg s) as [(_ & _ & _ & _ & _ & _ & Hok & _) _].
  rewrite Forall_forall in Hok.
  destruct (Hok o Ho) as (_ & Hdate & (lead & Hlead & Hdue) & Hqo & fs & Hout).
  assert (H1 : Py.date 2024 1 1 = 738886) by (vm_compute; reflexivity).
  assert (H2 : Py.date 2025 12 31 = 739616) by (vm_compute; reflexivity).
  assert (H3 : Py.date 2026 3 31 = 739706) by (vm_compute; reflexivity).
  assert (H4 : Py.date 2025 11 15 = 739570) by (vm_compute; reflexivity).
  assert (H5 : Py.date 2025 10 31 = 739555) by (vm_compute; reflexivity).
  rewrite H1, H2 in Hdate. rewrite H5 in Hout. rewrite H1, H2, H3, H4.
  split; [exact Hdate|]. split; [lia|].
  intros r Hr. rewrite Hr in Hout.
  destruct Hout as [[_ Heq]|[Hd Hout]]; [discriminate|]. cbn [fst snd] in Hout.
  destruct Hout as [(_ & Hq & d & Hd' & Heq)|[(_ & Hq & d & Hd' & Heq)|(_ & Heq)]];
    [| |discriminate]; injection Heq as ->; lia.
Qed.

(** Tier draws (cell "Generate Material Nodes").  Whenever the script
    stops, the tier of every material is one of 0 to 4 and has a
    positive entry in [TIER_DISTRIBUTION]: a tier given the probability
    0 gets no material. *)
Theorem tiers_of_probability_zero_get_no_material
    (cfg : Config) (s : rng) (m : Material) :
  m ∈ materials (snd (run_from cfg s)) ->
  0 <= tier_level m <= 4 /\
  exists pr, TIER_DISTRIBUTION cfg !! Z.to_nat (tier_level m) = Some pr /\ (0 < pr)%Q.
Proof.
  intros Hm. destruct (run_from_rows cfg s) as [(_ & Hok & Hrows & _) _].
  rewrite Forall_forall in Hrows. destruct (Hrows m Hm) as (Hdrawn & _).
  apply list_elem_of_lookup in Hm as [k Hk]. destruct (Hok k m Hk) as [_ Htier].
  split; [exact Htier|exact Hdrawn].
Qed.

(** A configuration that cannot fail.  On a configuration that the
    supplier and the material cell accept, with at least one material
    asked for, a run runs to the end whenever tier 3 or tier 4 has the
    probability 0: the tier-3 draw without replacement is never
    reached. *)
Theorem no_tier_3_or_4_no_failure (cfg : Config) (s : rng) (t : Z) (pr : Q) :
  suppliers_pre cfg -> materials_pre cfg -> 1 <= NUM_MATERIALS cfg ->
  t = 3 \/ t = 4 ->
  TIER_DISTRIBUTION cfg !! Z.to_nat t = Some pr -> (pr == 0)%Q ->
  fst (run_from cfg s) = Ok tt.
Proof.
  intros Hs Hm Hn Ht Hpr H0.
  destruct (run_from_rows cfg s) as [(_ & _ & Hrows & _) Hout].
  destruct (fst (run_from cfg s)) as [[]|e]; [reflexivity|].
  destruct Hout as (_ & _ & [Hx|[[_ Hx]|(_ & Hlen & Herr)]]);
    [destruct (Hx Hs)|destruct (Hx Hm)|].
  destruct Herr as [[Hnil _]|(H3 & H4 & _)].
  { rewrite Hnil in Hlen. cbn in Hlen. lia. }
  assert (Hex : ids_of_tier t (materials (snd (run_from cfg s))) <> [])
    by (destruct Ht as [-> | ->]; assumption).
  destruct (ids_of_tier t _) as [|x l] eqn:E; [congruence|].
  assert (Hin : x ∈ ids_of_tier t (materials (snd (run_from cfg s))))
    by (rewrite E; apply list_elem_of_here).
  apply ids_of_tier_elem in Hin as (m & Hin & Htier & _).
  rewrite Forall_forall in Hrows. destruct (Hrows m Hin) as ((pr' & Hpr' & Hpos) & _).
  rewrite Htier, Hpr in Hpr'. injection Hpr' as <-. rewrite H0 in Hpos. discriminate.
Qed.

(** A chain of edges, each starting where the one before it ends,
    climbs one tier per edge. *)
Lemma bom_chain_tiers (ms : list Material) (es : list BomEdge) :
  materials_ok ms -> Forall (edge_ok ms) es ->
  forall (e : BomEdge) (path : list BomEdge),
    Forall (fun x => x ∈ es) (e :: path) ->
    (forall i x y, (e :: path) !! i = Some x -> (e :: path) !! S i = Some y ->
       child_material_id x = parent_material_id y) ->
    exists t last_edge, 0 <= t /\ t + Z.of_nat (length (e :: path)) <= 4 /\
      last (e :: path) = Some last_edge /\
      parent_material_id e ∈ ids_of_tier t ms /\
      child_material_id last_edge ∈ ids_of_tier (t + Z.of_nat (length (e :: path))) ms.
Proof.
  intros Hok Hes e path. revert e.
  induction path as [|e' path IH]; intros e Hin Hlink.
  - apply Forall_cons in Hin as [Hin _]. rewrite Forall_forall in Hes.
    destruct (Hes e Hin) as (t & Ht & Hp & Hc).
    exists t, e. cbn [length]. split; [lia|]. split; [lia|].
    split; [reflexivity|]. split; [exact Hp|exact Hc].
  - apply Forall_cons in Hin as [Hin Hrest].
    destruct (IH e' Hrest) as (t' & le & Ht' & Hlen & Hlast & Hp' & Hc').
    { intros i x y Hx Hy. exact (Hlink (S i) x y Hx Hy). }
    rewrite Forall_forall in Hes. destruct (Hes e Hin) as (t & Ht & Hp & Hc).
    assert (Heq : child_material_id e = parent_material_id e')
      by (apply (Hlink O e e'); reflexivity).
    assert (Htt : t' = t + 1).
    { rewrite Heq in Hc.
      apply ids_of_tier_elem in Hc as (m1 & Hm1 & Ht1 & Hid1).
      apply ids_of_tier_elem in Hp' as (m2 & Hm2 & Ht2 & Hid2).
      rewrite <- Ht1, <- Ht2. symmetry.
      apply (materials_ok_tier ms m1 m2 Hok Hm1 Hm2). congruence. }
    subst t'. exists t, le. split; [lia|].
    split; [cbn [length] in *; lia|]. split; [rewrite last_cons_cons; exact Hlast|].
    split; [exact Hp|].
    replace (t + Z.of_nat (length (e :: e' :: path)))
      with (t + 1 + Z.of_nat (length (e' :: path))) by (cbn [length]; lia).
    exact Hc'.
Qed.

(** The BOM is layered (cell "Generate BOM Edges").  Whenever the
    script stops, a chain of BOM edges, each starting at the child of
    the one before it, has at most four edges and does not come back to
    where it started: the BOM has no cycle. *)
Theorem bom_has_no_cycle (cfg : Config) (s : rng) (path : list BomEdge) :
  Forall (fun e => e ∈ bom_edges (snd (run_from cfg s))) path ->
  (forall i x y, path !! i = Some x -> path !! S i = Some y ->
     child_material_id x = parent_material_id y) ->
  (length path <= 4)%nat /\
  forall first last_edge, head path = Some first -> last path = Some last_edge ->
    parent_material_id first <> child_material_id last_edge.
Proof.
  intros Hin Hlink. destruct path as [|e path].
  { split; [cbn; lia|]. intros first le H. discriminate. }
  destruct (run_from_inv cfg s) as (_ & Hok & Hedges & _).
  destruct (bom_chain_tiers _ _ Hok Hedges e path Hin Hlink)
    as (t & le & Ht & Hlen & Hlast & Hp & Hc).
  split; [cbn [length] in *; lia|].
  intros first le' Hfirst Hlast'. injection Hfirst as <-.
  rewrite Hlast in Hlast'. injection Hlast' as <-. intros Heq.
  rewrite Heq in Hp.
  apply ids_of_tier_elem in Hp as (m1 & Hm1 & Ht1 & Hid1).
  apply ids_of_tier_elem in Hc as (m2 & Hm2 & Ht2 & Hid2).
  assert (tier_level m1 = tier_level m2).
  { apply (materials_ok_tier _ m1 m2 Hok Hm1 Hm2). congruence. }
  cbn [length] in *. lia.
Qed.

(** One supplier list per material (cell "Assign Approved Supplier
    List").  In a run that ran to the end, the keys of the supplier map
    are exactly the ids of the generated materials, and the map has
    [NUM_MATERIALS] entries: no two materials share a list. *)
Theorem supplier_map_has_one_list_per_material (cfg : Config) (s : rng) :
  fst (run_from cfg s) = Ok tt ->
  dom (mat_supplier_map (snd (run_from cfg s))) =
    list_to_set (map material_id (materials (snd (run_from cfg s)))) /\
  Z.of_nat (size (mat_supplier_map (snd (run_from cfg s)))) = NUM_MATERIALS cfg.
Proof.
  intros Hok.
  destruct (run_from_rows cfg s) as [(_ & Hmok & _ & _ & _ & Hkeys & _) Hout].
  rewrite Hok in Hout. destruct Hout as (_ & Hmlen & Hmne & _ & Hcov & _).
  assert (Hdom : dom (mat_supplier_map (snd (run_from cfg s))) =
                 (list_to_set (map material_id (materials (snd (run_from cfg s))))
                    : gset string)).
  { apply set_eq. intros key. rewrite elem_of_dom, elem_of_list_to_set. split.
    - apply Hkeys.
    - intros Hin. apply list_elem_of_fmap in Hin as (m & -> & Hm). apply Hcov, Hm. }
  split; [exact Hdom|].
  rewrite <- size_dom, Hdom, size_list_to_set by (apply materials_ok_NoDup, Hmok).
  rewrite length_map.
  destruct (materials (snd (run_from cfg s))) as [|m0 ms]; [congruence|].
  cbn [length] in *. lia.
Qed.

(** Fan-out of at most the next tier (cell "Generate BOM Edges").
    Whenever the script stops, no material is the parent of more edges
    than there are materials in the next tier. *)
Theorem fan_out_is_at_most_the_next_tier (cfg : Config) (s : rng) (p : Material) :
  p ∈ materials (snd (run_from cfg s)) ->
  (length (filter (fun e => parent_material_id e = material_id p)
             (bom_edges (snd (run_from cfg s)))) <=
   length (filter (fun c => tier_level c = (tier_level p + 1)%Z)
             (materials (snd (run_from cfg s)))))%nat.
Proof.
  intros Hp.
  destruct (run_from_rows cfg s) as [(_ & Hok & _ & (done & Hpre & Hdone) & _) _].
  destruct (run_from_inv cfg s) as (_ & _ & Hedges & _).
  set (ms := materials (snd (run_from cfg s))) in *.
  set (es := bom_edges (snd (run_from cfg s))) in *.
  set (mine := filter (fun e => parent_material_id e = material_id p) es).
  assert (Hnd : NoDup (map edge_ends es)).
  { apply (bom_done_NoDup ms done); [| |exact Hdone].
    - intros t. apply ids_of_tier_NoDup, materials_ok_NoDup, Hok.
    - apply (prefix_fmap_NoDup snd _ _ Hpre), bom_work_NoDup;
        [exact Hok|apply NoDup_range]. }
  assert (Hmine : NoDup (map child_material_id mine)).
  { apply (NoDup_fmap_1 (pair (material_id p))). rewrite <- list_fmap_compose.
    assert (Heq : (pair (material_id p) ∘ child_material_id) <$> mine
                  = edge_ends <$> mine).
    { apply Forall_fmap_ext_1, Forall_forall. intros e He.
      apply list_elem_of_filter in He as [He _]. unfold edge_ends, compose.
      rewrite He. reflexivity. }
    rewrite Heq. eapply sublist_NoDup; [exact Hnd|].
    apply fmap_sublist, sublist_filter. }
  assert (Hsub : map child_material_id mine ⊆+ ids_of_tier (tier_level p + 1) ms).
  { apply NoDup_submseteq; [exact Hmine|]. intros c Hc.
    apply list_elem_of_fmap in Hc as (e & -> & He).
    apply list_elem_of_filter in He as [Hpar He].
    rewrite Forall_forall in Hedges. destruct (Hedges e He) as (t & _ & Hpt & Hct).
    apply ids_of_tier_elem in Hpt as (m & Hm & Htier & Hid).
    assert (Htp : tier_level m = tier_level p).
    { apply (materials_ok_tier ms m p Hok Hm Hp). congruence. }
    rewrite <- Htp, Htier. exact Hct. }
  apply submseteq_length in Hsub. unfold ids_of_tier in Hsub.
  rewrite !length_map in Hsub. exact Hsub.
Qed.

(** A run that ran to the end went through the supplier-list cell and
    then through the order cell. *)
Lemma run_ends_in_the_order_cell (cfg : Config) (s : rng) :
  fst (run_from cfg s) = Ok tt ->
  exists w3 w4 : Wr,
    assign_asl w3 = (Ok tt, w4) /\ simulate_orders cfg w4 = run_from cfg s.
Proof.
  unfold run_from, script, bind.
  destruct (generate_suppliers cfg (initial_world s)) as [[[]|e1] w1]; [|discriminate].
  destruct (generate_materials cfg w1) as [[[]|e2] w2]; [|discriminate].
  destruct (generate_bom w2) as [[[]|e3] w3]; [|discriminate].
  destruct (assign_asl w3) as [[[]|e4] w4] eqn:Hasl; [|discriminate].
  intros _. exists w3, w4. split; [exact Hasl|reflexivity].
Qed.

Lemma simulate_orders_keeps_the_map (cfg : Config) (w0 : Wr) :
  mat_supplier_map (snd (simulate_orders cfg w0)) = mat_supplier_map w0.
Proof.
  pose proof (simulate_orders_spec cfg w0 w0 eq_refl) as H.
  destruct (simulate_orders cfg w0) as [[[]|e] w]; cbn [fst snd] in *.
  - destruct H as (new & (r & fs & ->) & _). reflexivity.
  - destruct H as [(new & (r & fs & ->) & _) _]. reflexivity.
Qed.

(** C7. When the script stops, every list of the supplier map has one
    to three entries and every order's supplier is in the list of the
    order's material.  The lists are built before the simulation: the
    supplier-list cell, started with an empty map and at least one
    supplier (all scores being at least 1), returns and has given every
    material a list of one to three suppliers; the order cell leaves
    the map as it finds it; a run that ran to the end, whatever the
    number of orders, has a list of one to three suppliers for every
    material, and had it when the supplier-list cell returned and the
    order cell started; and only a run that ran to the end has an
    order. *)
Theorem order_supplier_is_approved (cfg : Config) (s : rng) :
  (forall key l, mat_supplier_map (snd (run_from cfg s)) !! key = Some l ->
     (1 <= length l <= 3)%nat) /\
  (forall o, o ∈ order_records (snd (run_from cfg s)) ->
     exists l, mat_supplier_map (snd (run_from cfg s)) !! po_material_id o = Some l /\
               po_supplier_id o ∈ l /\ (1 <= length l <= 3)%nat) /\
  (forall w0 : Wr,
     mat_supplier_map w0 = ∅ -> suppliers w0 <> [] ->
     Forall (fun sp => 1 <= capacity_score sp) (suppliers w0) ->
     exists w1, assign_asl w0 = (Ok tt, w1) /\ materials w1 = materials w0 /\
       forall m, m ∈ materials w0 ->
         exists l, mat_supplier_map w1 !! material_id m = Some l /\
                   (1 <= length l <= 3)%nat) /\
  (forall w0 : Wr,
     mat_supplier_map (snd (simulate_orders cfg w0)) = mat_supplier_map w0) /\
  (fst (run_from cfg s) = Ok tt ->
   forall m, m ∈ materials (snd (run_from cfg s)) ->
     exists l, mat_supplier_map (snd (run_from cfg s)) !! material_id m = Some l /\
               (1 <= length l <= 3)%nat) /\
  (fst (run_from cfg s) = Ok tt ->
   exists w3 w4 : Wr,
     assign_asl w3 = (Ok tt, w4) /\ simulate_orders cfg w4 = run_from cfg s /\
     forall m, m ∈ materials (snd (run_from cfg s)) ->
       exists l, mat_supplier_map w4 !! material_id m = Some l /\
                 (1 <= length l <= 3)%nat) /\
  (order_records (snd (run_from cfg s)) <> [] -> fst (run_from cfg s) = Ok tt).
Proof.
  destruct (run_from_rows cfg s) as [(_ & _ & _ & _ & Hasl & _ & Horders & _) Hout].
  assert (Hrun : fst (run_from cfg s) = Ok tt ->
            forall m, m ∈ materials (snd (run_from cfg s)) ->
              exists l, mat_supplier_map (snd (run_from cfg s)) !! material_id m = Some l /\
                        (1 <= length l <= 3)%nat).
  { intros Hok. rewrite Hok in Hout. destruct Hout as (_ & _ & _ & _ & Hcov & _).
    intros m Hm. destruct (Hcov m Hm) as [l Hl]. exists l.
    split; [exact Hl|]. apply (Hasl _ l Hl). }
  split; [|split; [|split; [|split; [|split; [|split]]]]].
  - intros key l Hl. apply (Hasl key l Hl).
  - intros o Ho. rewrite Forall_forall in Horders.
    destruct (Horders o Ho) as ((l & Hl & Hin) & _).
    exists l. split; [exact Hl|]. split; [exact Hin|]. apply (Hasl _ l Hl).
  - intros w0 Hempty Hne Hcap.
    destruct (assign_asl_ok w0) as (w1 & mp & Heq & (r & ->) & Hok & Hcov).
    { rewrite Hempty. apply asl_ok_empty. }
    { split; assumption. }
    exists (with_rng r (with_mat_supplier_map mp w0)).
    split; [exact Heq|]. split; [reflexivity|].
    intros m Hm. destruct (Hcov m Hm) as [l Hl]. exists l.
    split; [exact Hl|]. apply (Hok _ l Hl).
  - apply simulate_orders_keeps_the_map.
  - exact Hrun.
  - intros Hok. destruct (run_ends_in_the_order_cell cfg s Hok) as (w3 & w4 & Hcell & Hsim).
    exists w3, w4. split; [exact Hcell|]. split; [exact Hsim|].
    intros m Hm. rewrite <- (simulate_orders_keeps_the_map cfg w4), Hsim.
    exact (Hrun Hok m Hm).
  - intros Hne. destruct (fst (run_from cfg s)) as [[]|e]; [reflexivity|].
    destruct Hout as (_ & Hnil & _). congruence.
Qed.

End Rows.

(** Identifier numbers.  An id determines its row: two supplier ids
    agree only for the same country and the same position, two material
    ids only for the same tier and the same position, whatever the
    number of rows; the number in the id has at least five digits and
    reads back as the position plus one. *)
Theorem ids_determine_their_row (i i' : Z) :
  0 <= i -> 0 <= i' ->
  (forall c c', sup_id_of c i = sup_id_of c' i' -> c = c' /\ i = i') /\
  (forall t t', 0 <= t <= 4 -> 0 <= t' <= 4 ->
     mat_id_of t i = mat_id_of t' i' -> t = t' /\ i = i') /\
  int_of_str (Py.zfill 5 (Py.str (i + 1))) = Some (i + 1) /\
  (5 <= String.length (Py.zfill 5 (Py.str (i + 1))))%nat.
Proof.
  intros Hi Hi'. split; [|split; [|split]].
  - intros c c'. apply sup_id_of_inj; assumption.
  - intros t t' Ht Ht'. apply mat_id_of_inj; assumption.
  - apply int_of_zfill_str. lia.
  - rewrite length_zfill. lia.
Qed.

(** * The export cell

    The frames are modelled with typed values, not as CSV text; a file
    holds the frame written to it.  Paths are lists of components below
    the working directory, which always exists. *)

(** A value in a frame. *)
Inductive value :=
| VStr (s : string)
| VInt (n : Z)
| VFloat (x : Q)
| VDate (d : Z)
| VNone.

Record DataFrame := {
  columns : list string;
  data : list (list value)
}.

(** [pd.DataFrame(records)] on a list of dicts with the keys [cols]: the
    columns are the keys in insertion order; no record, no column. *)
Definition frame_of {A} (cols : list string) (row : A -> list value)
    (records : list A) : DataFrame :=
  match records with
  | [] => {| columns := []; data := [] |}
  | _ => {| columns := cols; data := map row records |}
  end.

Definition supplier_columns : list string :=
  ["supplier_id"; "name"; "country"; "capacity_score"].
Definition supplier_values (s : Supplier) : list value :=
  [VStr (supplier_id s); VStr (name s); VStr (country s); VInt (capacity_score s)].

Definition material_columns : list string :=
  ["material_id"; "description"; "tier_level"; "base_unit"; "cost_estimate"].
Definition material_values (m : Material) : list value :=
  [VStr (material_id m); VStr (description m); VInt (tier_level m);
   VStr (base_unit m); VFloat (cost_estimate m)].

Definition bom_columns : list string :=
  ["parent_material_id"; "child_material_id"; "quantity"].
Definition bom_values (e : BomEdge) : list value :=
  [VStr (parent_material_id e); VStr (child_material_id e); VFloat (quantity e)].

Definition order_columns : list string :=
  ["po_id"; "supplier_id"; "material_id"; "order_date"; "due_date"; "receipt_date";
   "quantity_ordered"; "quantity_received"; "unit_price"].
Definition order_values (o : Order) : list value :=
  [VStr (po_id o); VStr (po_supplier_id o); VStr (po_material_id o);
   VDate (order_date o); VDate (due_date o);
   match receipt_date o with Some d => VDate d | None => VNone end;
   VInt (quantity_ordered o); VInt (quantity_received o); VFloat (unit_price o)].

(** What the export cell can raise. *)
Inductive os_exception :=
| LabelsNotFound (labels : list string) (* KeyError: labels not found in axis *)
| FileExistsError (path : list string)
| NotADirectoryError (path : list string)
| IsADirectoryError (path : list string)
| NoSuchDirectory (dir : list string). (* OSError: cannot save into a non-existent directory *)

(** The entries of [xs] at the places where [keep] is true. *)
Fixpoint select {A} (keep : list bool) (xs : list A) : list A :=
  match keep, xs with
  | b :: keep', x :: xs' => if b then x :: select keep' xs' else select keep' xs'
  | _, _ => []
  end.

(** [df.drop(columns=labels)]. *)
Definition df_drop (labels : list string) (df : DataFrame)
  : DataFrame + os_exception :=
  match filter (fun l => l ∉ columns df) labels with
  | [] =>
      let keep := map (fun c => bool_decide (c ∉ labels)) (columns df) in
      inl {| columns := select keep (columns df);
             data := map (select keep) (data df) |}
  | missing => inr (LabelsNotFound missing)
  end.

(** The directories and files below the working directory, and what
    was printed. *)
Record Disk := {
  dirs : gset (list string);
  files : gmap (list string) DataFrame;
  stdout : list string
}.

Definition IO (A : Type) : Type := Disk -> (A + os_exception) * Disk.

Definition io_ret {A} (a : A) : IO A := fun d => (inl a, d).
Definition io_lift {A} (r : A + os_exception) : IO A := fun d => (r, d).
Definition io_bind {A B} (m : IO A) (k : A -> IO B) : IO B :=
  fun d => match m d with
           | (inl a, d') => k a d'
           | (inr e, d') => (inr e, d')
           end.

(** [os.makedirs(name, exist_ok=True)], given the ancestors of [name]
    and [name] itself, shortest first. *)
Fixpoint mkdirs (ps : list (list string)) : IO unit :=
  match ps with
  | [] => io_ret tt
  | p :: ps' =>
      fun d =>
        if decide (p ∈ dom (files d))
        then (inr (match ps' with
                   | [] => FileExistsError p
                   | q :: _ => NotADirectoryError q
                   end), d)
        else mkdirs ps' {| dirs := {[ p ]} ∪ dirs d; files := files d;
                           stdout := stdout d |}
  end.

Definition os_makedirs (name : list string) : IO unit :=
  mkdirs (map (fun k => take k name) (seq 1 (length name))).

(** [df.to_csv(path, index=False)]. *)
Definition to_csv (df : DataFrame) (path : list string) : IO unit :=
  fun d =>
    let parent := take (length path - 1) path in
    if decide (parent <> [] /\ parent ∉ dirs d)
    then (inr (NoSuchDirectory parent), d)
    else if decide (path ∈ dirs d)
    then (inr (IsADirectoryError path), d)
    else (inl tt, {| dirs := dirs d; files := <[path := df]> (files d);
                     stdout := stdout d |}).

(** [print(line)]. *)
Definition print (line : string) : IO unit :=
  fun d => (inl tt, {| dirs := dirs d; files := files d;
                       stdout := stdout d ++ [line] |}).

(** [f" - {file} ({len(df)} rows)"]. *)
Definition rows_line (file : string) (df : DataFrame) : string :=
  (" - " ++ file ++ " (" ++ Py.str (Z.of_nat (length (data df))) ++ " rows)")%string.

Definition export_path (file : string) : list string := ["data-gen"; "data"; file].

Section ExportCell.
Context {rng : Type} `{RS : RandomStream rng}.

(** The cells "Remove explicit columns" and "Export", run on the
    variables [w] the script left. *)
Definition export (w : World rng) : IO unit :=
  io_bind (io_lift (df_drop ["capacity_score"]
             (frame_of supplier_columns supplier_values (suppliers w))))
    (fun df_suppliers =>
  io_bind (io_lift (df_drop ["cost_estimate"; "tier_level"]
             (frame_of material_columns material_values (materials w))))
    (fun df_materials =>
  let df_bom := frame_of bom_columns bom_values (bom_edges w) in
  let df_po := frame_of order_columns order_values (order_records w) in
  io_bind (os_makedirs ["data"]) (fun _ =>
  io_bind (to_csv df_suppliers (export_path "suppliers.csv")) (fun _ =>
  io_bind (to_csv df_materials (export_path "materials.csv")) (fun _ =>
  io_bind (to_csv df_bom (export_path "bom_relationships.csv")) (fun _ =>
  io_bind (to_csv df_po (export_path "order_records.csv")) (fun _ =>
  io_bind (print "Done! Files generated:") (fun _ =>
  io_bind (print (rows_line "suppliers.csv" df_suppliers)) (fun _ =>
  io_bind (print (rows_line "materials.csv" df_materials)) (fun _ =>
  io_bind (print (rows_line "bom_relationships.csv" df_bom)) (fun _ =>
  print (rows_line "order_records.csv" df_po)))))))))))).

(** How the notebook ended. *)
Inductive notebook_outcome :=
| Completed
| ScriptRaised (e : exception)
| ExportRaised (e : os_exception).

(** The script, and the export once the script ran to the end. *)
Definition notebook (cfg : Config) (s : rng) (d : Disk)
  : notebook_outcome * World rng * Disk :=
  match run_from cfg s with
  | (Ok _, w) =>
      match export w d with
      | (inl _, d') => (Completed, w, d')
      | (inr e, d') => (ExportRaised e, w, d')
      end
  | (Raise e, w) => (ScriptRaised e, w, d)
  end.

(** The supplier and the material row as exported. *)
Definition exported_supplier (s : Supplier) : list value :=
  [VStr (supplier_id s); VStr (name s); VStr (country s)].
Definition exported_material (m : Material) : list value :=
  [VStr (material_id m); VStr (description m); VStr (base_unit m)].

Lemma drop_capacity_score (ss : list Supplier) :
  ss <> [] ->
  df_drop ["capacity_score"] (frame_of supplier_columns supplier_values ss) =
    inl {| columns := ["supplier_id"; "name"; "country"];
           data := map exported_supplier ss |}.
Proof.
  intros Hne. destruct ss as [|s0 ss]; [congruence|].
  unfold df_drop, frame_of. cbn [columns data].
  replace (filter (fun l => l ∉ supplier_columns) ["capacity_score"])
    with (@nil string) by (vm_compute; reflexivity).
  replace (map (fun c => bool_decide (c ∉ ["capacity_score"])) supplier_columns)
    with [true; true; true; false] by (vm_compute; reflexivity).
  f_equal. f_equal. rewrite map_map. reflexivity.
Qed.

Lemma drop_cost_and_tier (ms : list Material) :
  ms <> [] ->
  df_drop ["cost_estimate"; "tier_level"]
      (frame_of material_columns material_values ms) =
    inl {| columns := ["material_id"; "description"; "base_unit"];
           data := map exported_material ms |}.
Proof.
  intros Hne. destruct ms as [|m0 ms]; [congruence|].
  unfold df_drop, frame_of. cbn [columns data].
  replace (filter (fun l => l ∉ material_columns) ["cost_estimate"; "tier_level"])
    with (@nil string) by (vm_compute; reflexivity).
  replace (map (fun c => bool_decide (c ∉ ["cost_estimate"; "tier_level"]))
             material_columns)
    with [true; true; false; true; false] by (vm_compute; reflexivity).
  f_equal. f_equal. rewrite map_map. reflexivity.
Qed.

Lemma completed_has_rows (cfg : Config) (s : rng) :
  fst (run_from cfg s) = Ok tt ->
  suppliers (snd (run_from cfg s)) <> [] /\
  materials (snd (run_from cfg s)) <> [] /\
  Z.of_nat (length (suppliers (snd (run_from cfg s)))) = NUM_SUPPLIERS cfg /\
  Z.of_nat (length (materials (snd (run_from cfg s)))) = NUM_MATERIALS cfg /\
  Z.of_nat (length (order_records (snd (run_from cfg s)))) =
    Z.max 0 (TARGET_PO_COUNT cfg).
Proof.
  intros Hok. destruct (run_from_rows cfg s) as [_ Hout]. rewrite Hok in Hout.
  destruct Hout as ((Hslen & sp & Hsp & _) & Hmlen & Hmne & _ & _ & Holen).
  assert (Hsne : suppliers (snd (run_from cfg s)) <> []).
  { intros H. rewrite H in Hsp. apply elem_of_nil in Hsp. exact Hsp. }
  split; [exact Hsne|]. split; [exact Hmne|].
  destruct (suppliers (snd (run_from cfg s))) as [|s0 ss]; [congruence|].
  destruct (materials (snd (run_from cfg s))) as [|m0 ms]; [congruence|].
  cbn [length] in *. lia.
Qed.

(** The export needs the directory [data-gen/data].  When the script
    ran to the end and the working directory has no directory
    [data-gen/data], the export raises on the first [to_csv]: no file is
    written and nothing is printed; the directory [data] that
    [os.makedirs] made is all that is left of the run. *)
Theorem export_needs_the_data_gen_directory (cfg : Config) (s : rng) (d : Disk) :
  fst (run_from cfg s) = Ok tt ->
  ["data-gen"; "data"] ∉ dirs d -> ["data"] ∉ dom (files d) ->
  notebook cfg s d =
    (ExportRaised (NoSuchDirectory ["data-gen"; "data"]), snd (run_from cfg s),
     {| dirs := {[ ["data"] ]} ∪ dirs d; files := files d; stdout := stdout d |}).
Proof.
  intros Hok Hdir Hfile.
  destruct (completed_has_rows cfg s Hok) as (Hs & Hm & _).
  unfold notebook. destruct (run_from cfg s) as [out w]. cbn [fst snd] in *. subst out.
  unfold export, io_bind, io_lift.
  rewrite (drop_capacity_score _ Hs), (drop_cost_and_tier _ Hm).
  unfold os_makedirs. cbn [length seq map take mkdirs].
  rewrite decide_False by exact Hfile.
  unfold to_csv, export_path, io_ret. cbn [length Nat.sub take dirs].
  rewrite decide_True; [reflexivity|].
  split; [discriminate|]. intros H. apply elem_of_union in H as [H|H]; [|exact (Hdir H)].
  apply elem_of_singleton in H. discriminate.
Qed.

(** The export.  When the script ran to the end, the directory
    [data-gen/data] exists, none of the four targets is a directory and
    [data] is not a file, the export returns: the four files hold the
    suppliers without their capacity score, the materials without tier
    and cost estimate, the BOM edges and the orders, in list order;
    nothing else is written, and the printed row counts are
    [NUM_SUPPLIERS], [NUM_MATERIALS], the number of edges and
    [TARGET_PO_COUNT]. *)
Theorem export_writes_the_four_files (cfg : Config) (s : rng) (d : Disk) :
  fst (run_from cfg s) = Ok tt ->
  ["data-gen"; "data"] ∈ dirs d -> ["data"] ∉ dom (files d) ->
  Forall (fun file => export_path file ∉ dirs d)
    ["suppliers.csv"; "materials.csv"; "bom_relationships.csv"; "order_records.csv"] ->
  notebook cfg s d =
    (Completed, snd (run_from cfg s),
     {| dirs := {[ ["data"] ]} ∪ dirs d;
        files :=
          <[export_path "order_records.csv" :=
              frame_of order_columns order_values
                (order_records (snd (run_from cfg s)))]>
          (<[export_path "bom_relationships.csv" :=
               frame_of bom_columns bom_values (bom_edges (snd (run_from cfg s)))]>
           (<[export_path "materials.csv" :=
                {| columns := ["material_id"; "description"; "base_unit"];
                   data := map exported_material (materials (snd (run_from cfg s))) |}]>
            (<[export_path "suppliers.csv" :=
                 {| columns := ["supplier_id"; "name"; "country"];
                    data := map exported_supplier (suppliers (snd (run_from cfg s))) |}]>
               (files d))));
        stdout :=
          stdout d ++
          ["Done! Files generated:";
           (" - suppliers.csv (" ++ Py.str (NUM_SUPPLIERS cfg) ++ " rows)")%string;
           (" - materials.csv (" ++ Py.str (NUM_MATERIALS cfg) ++ " rows)")%string;
           (" - bom_relationships.csv (" ++
              Py.str (Z.of_nat (length (bom_edges (snd (run_from cfg s))))) ++
              " rows)")%string;
           (" - order_records.csv (" ++ Py.str (Z.max 0 (TARGET_PO_COUNT cfg)) ++
              " rows)")%string] |}).
Proof.
  intros Hok Hdir Hfile Hnodir.
  destruct (completed_has_rows cfg s Hok) as (Hs & Hm & Hslen & Hmlen & Holen).
  unfold notebook. destruct (run_from cfg s) as [out w]. cbn [fst snd] in *. subst out.
  unfold export, io_bind, io_lift.
  rewrite (drop_capacity_score _ Hs), (drop_cost_and_tier _ Hm).
  unfold os_makedirs. cbn [length seq map take mkdirs].
  rewrite decide_False by exact Hfile.
  assert (Hparent :
            ~ (["data-gen"; "data"] <> [] /\
               ["data-gen"; "data"] ∉ ({[ ["data"] ]} ∪ dirs d : gset (list string)))).
  { intros [_ H]. apply H, elem_of_union. right. exact Hdir. }
  assert (Htarget : forall file, export_path file ∉ dirs d ->
            export_path file ∉ ({[ ["data"] ]} ∪ dirs d : gset (list string))).
  { intros file Hno H. apply elem_of_union in H as [H|H]; [|exact (Hno H)].
    apply elem_of_singleton in H. discriminate. }
  apply Forall_cons in Hnodir as [N1 Hnodir]. apply Forall_cons in Hnodir as [N2 Hnodir].
  apply Forall_cons in Hnodir as [N3 Hnodir]. apply Forall_cons in Hnodir as [N4 _].
  unfold to_csv, io_ret, print. cbn [dirs files stdout].
  change (take (length (export_path "suppliers.csv") - 1) (export_path "suppliers.csv"))
    with ["data-gen"; "data"].
  change (take (length (export_path "materials.csv") - 1) (export_path "materials.csv"))
    with ["data-gen"; "data"].
  change (take (length (export_path "bom_relationships.csv") - 1)
            (export_path "bom_relationships.csv")) with ["data-gen"; "data"].
  change (take (length (export_path "order_records.csv") - 1)
            (export_path "order_records.csv")) with ["data-gen"; "data"].
  rewrite (decide_False (P := _ /\ _)) by exact Hparent.
  rewrite (decide_False (P := _ ∈ _)) by exact (Htarget _ N1).
  cbn [dirs files stdout].
  rewrite (decide_False (P := _ /\ _)) by exact Hparent.
  rewrite (decide_False (P := _ ∈ _)) by exact (Htarget _ N2).
  cbn [dirs files stdout].
  rewrite (decide_False (P := _ /\ _)) by exact Hparent.
  rewrite (decide_False (P := _ ∈ _)) by exact (Htarget _ N3).
  cbn [dirs files stdout].
  rewrite (decide_False (P := _ /\ _)) by exact Hparent.
  rewrite (decide_False (P := _ ∈ _)) by exact (Htarget _ N4).
  cbn [dirs files stdout].
  unfold rows_line. cbn [data]. rewrite !length_map, Hslen, Hmlen.
  assert (Ho : length (data (frame_of order_columns order_values (order_records w)))
               = length (order_records w)).
  { unfold frame_of. destruct (order_records w); [reflexivity|].
    cbn [data]. rewrite length_map. reflexivity. }
  assert (Hb : length (data (frame_of bom_columns bom_values (bom_edges w)))
               = length (bom_edges w)).
  { unfold frame_of. destruct (bom_edges w); [reflexivity|].
    cbn [data]. rewrite length_map. reflexivity. }
  rewrite Ho, Hb, Holen. rewrite <- !app_assoc. reflexivity.
Qed.

End ExportCell.

(** ** The further theorems at concrete inputs *)

(** A run with one supplier, one tier-3 and one tier-4 material, one
    BOM edge and one order. *)
Definition sample_run : result unit * World Tape.t :=
  run_tape (small_config 1 2 1 (TIER_DISTRIBUTION script_config)) (nexus_tape 1).

(** The supplier cell at the constants of the script. *)
Lemma supplier_cell_witness :
  suppliers_pre script_config /\
  exists w new,
    generate_suppliers script_config (initial_world (Tape.seed 42)) = (Ok tt, w) /\
    Z.of_nat (length new) = NUM_SUPPLIERS script_config /\
    exists sp, sp ∈ new /\ capacity_score sp = 50.
Proof.
  assert (H : suppliers_pre script_config)
    by (split; [cbn; lia|vm_compute; reflexivity]).
  destruct (supplier_cell_makes_a_hub script_config (initial_world (Tape.seed 42)) H)
    as (w & new & Heq & _ & Hlen & _ & Hhub).
  exact (conj H (ex_intro _ w (ex_intro _ new (conj Heq (conj Hlen Hhub))))).
Defined.

(** The edge of [sample_run], below its tier-3 parent. *)
Lemma bom_quantities_witness :
  exists e, e ∈ bom_edges (snd sample_run) /\
    (1 # 2 <= quantity e /\ quantity e <= 5)%Q.
Proof.
  assert (He : exists e, bom_edges (snd sample_run) !! 0%nat = Some e /\
                 parent_material_id e = "MAT_T3_00001")
    by (vm_compute; eexists; split; reflexivity).
  assert (Hp : exists p, materials (snd sample_run) !! 0%nat = Some p /\
                 material_id p = "MAT_T3_00001" /\ tier_level p = 3)
    by (vm_compute; eexists; repeat split; reflexivity).
  destruct He as (e & He & Hpar). destruct Hp as (p & Hp & Hid & Htier).
  apply list_elem_of_lookup_2 in He. apply list_elem_of_lookup_2 in Hp.
  exists e. split; [exact He|].
  destruct (bom_quantities_are_in_range
              (small_config 1 2 1 (TIER_DISTRIBUTION script_config))
              (Tape.of_list (nexus_tape 1)) e He) as [_ H].
  apply (H p Hp); [congruence|exact Htier].
Defined.

(** The tier-3 material of [sample_run] has its edge. *)
Lemma every_parent_witness :
  fst sample_run = Ok tt /\
  exists e, e ∈ bom_edges (snd sample_run) /\
            parent_material_id e = "MAT_T3_00001".
Proof.
  assert (Hok : fst sample_run = Ok tt) by (vm_compute; reflexivity).
  assert (Hp : exists p c, materials (snd sample_run) !! 0%nat = Some p /\
                 materials (snd sample_run) !! 1%nat = Some c /\
                 material_id p = "MAT_T3_00001" /\
                 tier_level c = tier_level p + 1)
    by (vm_compute; do 2 eexists; repeat split; reflexivity).
  destruct Hp as (p & c & Hp & Hc & Hid & Htier).
  apply list_elem_of_lookup_2 in Hp. apply list_elem_of_lookup_2 in Hc.
  split; [exact Hok|]. rewrite <- Hid.
  exact (every_parent_has_a_child
           (small_config 1 2 1 (TIER_DISTRIBUTION script_config))
           (Tape.of_list (nexus_tape 1)) p c Hok Hp Hc Htier).
Defined.

(** The run with a tier-3 fan-out of two over a pool of one. *)
Lemma tier_3_failure_witness :
  suppliers_pre (small_config 1 2 0 (TIER_DISTRIBUTION script_config)) /\
  materials_pre (small_config 1 2 0 (TIER_DISTRIBUTION script_config)) /\
  (fst (run_tape (small_config 1 2 0 (TIER_DISTRIBUTION script_config)) (nexus_tape 2))
     = Ok tt \/
   fst (run_tape (small_config 1 2 0 (TIER_DISTRIBUTION script_config)) (nexus_tape 2))
     = Raise sample_error).
Proof.
  assert (H1 : suppliers_pre (small_config 1 2 0 (TIER_DISTRIBUTION script_config)))
    by (split; [cbn; lia|vm_compute; reflexivity]).
  assert (H2 : materials_pre (small_config 1 2 0 (TIER_DISTRIBUTION script_config)))
    by (vm_compute; reflexivity).
  assert (H3 : 1 <= NUM_MATERIALS (small_config 1 2 0 (TIER_DISTRIBUTION script_config)))
    by (cbn; lia).
  destruct (valid_configuration_fails_only_at_tier_3
              (small_config 1 2 0 (TIER_DISTRIBUTION script_config))
              (Tape.of_list (nexus_tape 2)) H1 H2 H3) as [[H|[H _]] _].
  - exact (conj H1 (conj H2 (or_introl H))).
  - exact (conj H1 (conj H2 (or_intror H))).
Defined.

(** The supplier list of the tier-3 material of [sample_run]. *)
Lemma supplier_map_witness :
  exists l, mat_supplier_map (snd sample_run) !! "MAT_T3_00001" = Some l /\
    Forall (fun sid => exists sp, sp ∈ suppliers (snd sample_run) /\
                                  supplier_id sp = sid) l.
Proof.
  assert (Hl : exists l, mat_supplier_map (snd sample_run) !! "MAT_T3_00001" = Some l)
    by (vm_compute; eexists; reflexivity).
  destruct Hl as (l & Hl). exists l. split; [exact Hl|].
  exact (proj2 (supplier_map_refers_to_generated_rows
                  (small_config 1 2 1 (TIER_DISTRIBUTION script_config))
                  (Tape.of_list (nexus_tape 1)) _ l Hl)).
Defined.

(** The order of [sample_run] and its material. *)
Lemma unit_price_witness :
  exists o m, o ∈ order_records (snd sample_run) /\ m ∈ materials (snd sample_run) /\
    material_id m = po_material_id o /\ (0 <= unit_price o)%Q.
Proof.
  assert (H : exists o m, order_records (snd sample_run) !! 0%nat = Some o /\
                materials (snd sample_run) !! 0%nat = Some m /\
                material_id m = po_material_id o)
    by (vm_compute; do 2 eexists; repeat split; reflexivity).
  destruct H as (o & m & Ho & Hm & Hid).
  apply list_elem_of_lookup_2 in Ho. apply list_elem_of_lookup_2 in Hm.
  exists o, m. split; [exact Ho|]. split; [exact Hm|]. split; [exact Hid|].
  exact (proj1 (unit_price_is_near_the_cost_estimate
                  (small_config 1 2 1 (TIER_DISTRIBUTION script_config))
                  (Tape.of_list (nexus_tape 1)) o m Ho Hm Hid)).
Defined.

(** The order of [sample_run]. *)
Lemma order_dates_witness :
  exists o, o ∈ order_records (snd sample_run) /\
    Py.date 2024 1 1 <= order_date o <= Py.date 2025 12 31 /\
    due_date o <= Py.date 2026 3 31.
Proof.
  assert (H : exists o, order_records (snd sample_run) !! 0%nat = Some o)
    by (vm_compute; eexists; reflexivity).
  destruct H as (o & Ho). apply list_elem_of_lookup_2 in Ho.
  exists o. split; [exact Ho|].
  destruct (order_dates_are_in_their_windows
              (small_config 1 2 1 (TIER_DISTRIBUTION script_config))
              (Tape.of_list (nexus_tape 1)) o Ho) as (H1 & H2 & _).
  exact (conj H1 H2).
Defined.

(** The tier-4 material of [sample_run]. *)
Lemma tier_draw_witness :
  exists m, m ∈ materials (snd sample_run) /\ tier_level m = 4 /\
    exists pr, TIER_DISTRIBUTION script_config !! Z.to_nat (tier_level m) = Some pr /\
               (0 < pr)%Q.
Proof.
  assert (H : exists m, materials (snd sample_run) !! 1%nat = Some m /\ tier_level m = 4)
    by (vm_compute; eexists; split; reflexivity).
  destruct H as (m & Hm & Htier). apply list_elem_of_lookup_2 in Hm.
  exists m. split; [exact Hm|]. split; [exact Htier|].
  exact (proj2 (tiers_of_probability_zero_get_no_material
                  (small_config 1 2 1 (TIER_DISTRIBUTION script_config))
                  (Tape.of_list (nexus_tape 1)) m Hm)).
Defined.

(** A tier vector that gives tier 4 the probability 0. *)
Lemma no_tier_4_witness :
  materials_pre (small_config 1 2 1 [5 # 100; 10 # 100; 20 # 100; 65 # 100; 0]%Q) /\
  fst (run_tape (small_config 1 2 1 [5 # 100; 10 # 100; 20 # 100; 65 # 100; 0]%Q)
         (nexus_tape 1)) = Ok tt.
Proof.
  assert (H1 : suppliers_pre
                 (small_config 1 2 1 [5 # 100; 10 # 100; 20 # 100; 65 # 100; 0]%Q))
    by (split; [cbn; lia|vm_compute; reflexivity]).
  assert (H2 : materials_pre
                 (small_config 1 2 1 [5 # 100; 10 # 100; 20 # 100; 65 # 100; 0]%Q))
    by (vm_compute; reflexivity).
  split; [exact H2|].
  apply (no_tier_3_or_4_no_failure
           (small_config 1 2 1 [5 # 100; 10 # 100; 20 # 100; 65 # 100; 0]%Q)
           (Tape.of_list (nexus_tape 1)) 4 0%Q H1 H2).
  - cbn; lia.
  - right; reflexivity.
  - reflexivity.
  - reflexivity.
Defined.

(** The ids of the rows 1 and 100000. *)
Lemma ids_witness :
  0 <= 99999 /\ 0 <= 0 /\
  int_of_str (Py.zfill 5 (Py.str (99999 + 1))) = Some (99999 + 1) /\
  (forall c c', sup_id_of c 99999 = sup_id_of c' 0 -> c = c' /\ 99999 = 0).
Proof.
  assert (H1 : 0 <= 99999) by lia. assert (H2 : 0 <= 0) by lia.
  destruct (ids_determine_their_row 99999 0 H1 H2) as (Hs & _ & Hi & _).
  exact (conj H1 (conj H2 (conj Hi Hs))).
Defined.

(** The one-edge chain of [sample_run]. *)
Lemma bom_chain_witness :
  exists e, e ∈ bom_edges (snd sample_run) /\
    parent_material_id e <> child_material_id e.
Proof.
  assert (He : exists e, bom_edges (snd sample_run) !! 0%nat = Some e)
    by (vm_compute; eexists; reflexivity).
  destruct He as (e & He). apply list_elem_of_lookup_2 in He.
  exists e. split; [exact He|].
  assert (Hin : Forall (fun x => x ∈ bom_edges (snd sample_run)) [e])
    by (constructor; [exact He|constructor]).
  assert (Hlink : forall i x y, [e] !! i = Some x -> [e] !! S i = Some y ->
            child_material_id x = parent_material_id y)
    by (intros i x y _ Hy; discriminate).
  exact (proj2 (bom_has_no_cycle
                  (small_config 1 2 1 (TIER_DISTRIBUTION script_config))
                  (Tape.of_list (nexus_tape 1)) [e] Hin Hlink) e e eq_refl eq_refl).
Defined.

(** A working directory with nothing in it, and one that holds
    [data-gen/data]. *)
Definition empty_disk : Disk := {| dirs := ∅; files := ∅; stdout := [] |}.
Definition ready_disk : Disk :=
  {| dirs := {[ ["data-gen"]; ["data-gen"; "data"] ]}; files := ∅; stdout := [] |}.

(** [sample_run] exported into the empty working directory. *)
Lemma export_failure_witness :
  fst sample_run = Ok tt /\
  notebook (small_config 1 2 1 (TIER_DISTRIBUTION script_config))
      (Tape.of_list (nexus_tape 1)) empty_disk =
    (ExportRaised (NoSuchDirectory ["data-gen"; "data"]), snd sample_run,
     {| dirs := {[ ["data"] ]} ∪ ∅; files := ∅; stdout := [] |}).
Proof.
  assert (Hok : fst sample_run = Ok tt) by (vm_compute; reflexivity).
  split; [exact Hok|].
  apply (export_needs_the_data_gen_directory
           (small_config 1 2 1 (TIER_DISTRIBUTION script_config))
           (Tape.of_list (nexus_tape 1)) empty_disk Hok).
  - apply not_elem_of_empty.
  - cbn [files empty_disk]. rewrite dom_empty_L. apply not_elem_of_empty.
Defined.

(** [sample_run] exported into the directory that holds [data-gen/data]. *)
Lemma export_witness :
  exists d',
    notebook (small_config 1 2 1 (TIER_DISTRIBUTION script_config))
        (Tape.of_list (nexus_tape 1)) ready_disk =
      (Completed, snd sample_run, d') /\
    stdout d' =
      ["Done! Files generated:"; " - suppliers.csv (1 rows)";
       " - materials.csv (2 rows)"; " - bom_relationships.csv (1 rows)";
       " - order_records.csv (1 rows)"].
Proof.
  assert (Hok : fst sample_run = Ok tt) by (vm_compute; reflexivity).
  assert (Hdir : ["data-gen"; "data"] ∈ dirs ready_disk).
  { cbn [dirs ready_disk]. apply elem_of_union. right. apply elem_of_singleton.
    reflexivity. }
  assert (Hfile : ["data"] ∉ dom (files ready_disk)).
  { cbn [files ready_disk]. rewrite dom_empty_L. apply not_elem_of_empty. }
  assert (Hnodir : Forall (fun file => export_path file ∉ dirs ready_disk)
            ["suppliers.csv"; "materials.csv"; "bom_relationships.csv";
             "order_records.csv"]).
  { apply Forall_forall. intros file _ H. cbn [dirs ready_disk] in H.
    apply elem_of_union in H as [H|H]; apply elem_of_singleton in H; discriminate. }
  eexists. split.
  - exact (export_writes_the_four_files
             (small_config 1 2 1 (TIER_DISTRIBUTION script_config))
             (Tape.of_list (nexus_tape 1)) ready_disk Hok Hdir Hfile Hnodir).
  - vm_compute. reflexivity.
Defined.

(** The supplier map of [sample_run]. *)
Lemma supplier_map_size_witness :
  fst sample_run = Ok tt /\ Z.of_nat (size (mat_supplier_map (snd sample_run))) = 2.
Proof.
  assert (Hok : fst sample_run = Ok tt) by (vm_compute; reflexivity).
  exact (conj Hok
           (proj2 (supplier_map_has_one_list_per_material
                     (small_config 1 2 1 (TIER_DISTRIBUTION script_config))
                     (Tape.of_list (nexus_tape 1)) Hok))).
Defined.

(** The tier-3 material of [sample_run] has one child at most. *)
Lemma fan_out_witness :
  exists p, p ∈ materials (snd sample_run) /\ tier_level p = 3 /\
    (length (filter (fun e => parent_material_id e = material_id p)
               (bom_edges (snd sample_run))) <= 1)%nat.
Proof.
  assert (H : exists p, materials (snd sample_run) !! 0%nat = Some p /\ tier_level p = 3 /\
                length (filter (fun c => tier_level c = tier_level p + 1)
                          (materials (snd sample_run))) = 1%nat)
    by (vm_compute; eexists; repeat split; reflexivity).
  destruct H as (p & Hp & Htier & Hlen). apply list_elem_of_lookup_2 in Hp.
  exists p. split; [exact Hp|]. split; [exact Htier|]. rewrite <- Hlen.
  exact (fan_out_is_at_most_the_next_tier
           (small_config 1 2 1 (TIER_DISTRIBUTION script_config))
           (Tape.of_list (nexus_tape 1)) p Hp).
Defined.

(** The supplier lists of [sample_run]: the run ran to the end, it has
    an order, its two materials have their lists, and the supplier-list
    cell started again on its variables with an empty map builds them
    again. *)
Lemma order_supplier_witness :
  fst sample_run = Ok tt /\
  Forall (fun m => exists l,
            mat_supplier_map (snd sample_run) !! material_id m = Some l /\
            (1 <= length l <= 3)%nat)
    (materials (snd sample_run)) /\
  Forall (fun o => exists l,
            mat_supplier_map (snd sample_run) !! po_material_id o = Some l /\
            po_supplier_id o ∈ l /\ (1 <= length l <= 3)%nat)
    (order_records (snd sample_run)) /\
  exists w1,
    assign_asl (with_mat_supplier_map ∅ (snd sample_run)) = (Ok tt, w1) /\
    Forall (fun m => exists l,
              mat_supplier_map w1 !! material_id m = Some l /\
              (1 <= length l <= 3)%nat)
      (materials (with_mat_supplier_map ∅ (snd sample_run))).
Proof.
  unfold sample_run, run_tape.
  destruct (order_supplier_is_approved
              (small_config 1 2 1 (TIER_DISTRIBUTION script_config))
              (Tape.of_list (nexus_tape 1)))
    as (_ & Horders & Hcell & _ & Hrun & _ & Hend).
  assert (Hne : order_records (snd sample_run) <> []) by (vm_compute; discriminate).
  assert (Hsup : suppliers (with_mat_supplier_map ∅ (snd sample_run)) <> [])
    by (vm_compute; discriminate).
  assert (Hcap : Forall (fun sp => 1 <= capacity_score sp)
                   (suppliers (with_mat_supplier_map ∅ (snd sample_run))))
    by (vm_compute; repeat constructor; discriminate).
  pose proof (Hend Hne) as Hok.
  destruct (Hcell (with_mat_supplier_map ∅ (snd sample_run)) eq_refl Hsup Hcap)
    as (w1 & Heq & _ & Hlists).
  split; [exact Hok|]. split; [|split].
  - apply Forall_forall. exact (Hrun Hok).
  - apply Forall_forall. exact Horders.
  - exists w1. split; [exact Heq|]. apply Forall_forall. exact Hlists.
Defined.

(** C8. A run at a configuration the supplier and material cells
    accept, with one supplier, two materials and five orders asked for:
    the tier-3 selection asks for two children of a pool of one, the
    run stops on numpy's [ValueError] with the supplier and the two
    materials produced, and none of the five orders is produced. *)
Theorem order_count_is_missed_when_tier_3_stops_the_run :
  suppliers_pre (small_config 1 2 5 (TIER_DISTRIBUTION script_config)) /\
  materials_pre (small_config 1 2 5 (TIER_DISTRIBUTION script_config)) /\
  1 <= NUM_MATERIALS (small_config 1 2 5 (TIER_DISTRIBUTION script_config)) /\
  TARGET_PO_COUNT (small_config 1 2 5 (TIER_DISTRIBUTION script_config)) = 5 /\
  fst (run_tape (small_config 1 2 5 (TIER_DISTRIBUTION script_config)) (nexus_tape 2))
    = Raise (ValueError
        "Cannot take a larger sample than population when 'replace=False'") /\
  length (suppliers
    (snd (run_tape (small_config 1 2 5 (TIER_DISTRIBUTION script_config)) (nexus_tape 2))))
    = 1%nat /\
  length (materials
    (snd (run_tape (small_config 1 2 5 (TIER_DISTRIBUTION script_config)) (nexus_tape 2))))
    = 2%nat /\
  order_records
    (snd (run_tape (small_config 1 2 5 (TIER_DISTRIBUTION script_config)) (nexus_tape 2)))
    = [].
Proof.
  split; [split; [cbn; lia|vm_compute; reflexivity]|].
  split; [vm_compute; reflexivity|].
  split; [cbn; lia|].
  split; [reflexivity|].
  vm_compute. repeat split; reflexivity.
Qed.

(** * The seeding cell

    [random], [numpy.random] and Faker each keep a generator of their
    own: the hidden instance of the [random] module, the global
    [RandomState] of numpy, and the instance that the Faker generators
    share.  A process starts with the three in states that differ from
    one process to the next.  A [seed] call replaces the state of its
    own generator by one that depends on the argument alone; a draw
    reads and advances the generator of its own library and no other. *)

Class PythonRandom (G : Type) := {
  py_seed : Z -> G;
  py_random : G -> Q * G;
  py_below : nat -> G -> nat * G;
  py_lognormvariate : Q -> Q -> G -> Q * G;
  py_random_range : forall s, (0 <= fst (py_random s) /\ fst (py_random s) < 1)%Q;
  py_below_lt : forall n s, (0 < n)%nat -> (fst (py_below n s) < n)%nat;
  py_lognormvariate_pos :
    forall mu sigma s, (0 < fst (py_lognormvariate mu sigma s))%Q
}.

Class NumpyRandom (G : Type) := {
  numpy_seed : Z -> G;
  numpy_random_sample : G -> Q * G;
  numpy_zipf : Q -> G -> Z * G;
  numpy_poisson : Q -> G -> Z * G;
  numpy_pareto : Q -> G -> Q * G;
  numpy_permutation : nat -> G -> list nat * G;
  numpy_random_sample_range :
    forall s, (0 <= fst (numpy_random_sample s) /\ fst (numpy_random_sample s) < 1)%Q;
  numpy_zipf_ge : forall a s, 1 <= fst (numpy_zipf a s);
  numpy_poisson_ge : forall lam s, 0 <= fst (numpy_poisson lam s);
  numpy_pareto_ge : forall a s, (0 <= fst (numpy_pareto a s))%Q;
  numpy_permutation_perm :
    forall n s, Permutation (fst (numpy_permutation n s)) (seq 0 n)
}.

Class FakerRandom (G : Type) := {
  faker_seed : Z -> G;
  faker_company : G -> string * G;
  faker_date_between : Z -> Z -> G -> Z * G;
  faker_date_between_range :
    forall lo hi s, lo <= hi -> lo <= fst (faker_date_between lo hi s) <= hi
}.

(** The generators of one process. *)
Record Generators (Py Np Fk : Type) := {
  py_state : Py;
  numpy_state : Np;
  faker_state : Fk
}.

Arguments Build_Generators {Py Np Fk}.
Arguments py_state {Py Np Fk}.
Arguments numpy_state {Py Np Fk}.
Arguments faker_state {Py Np Fk}.

Section Seeding.
Context {Py Np Fk : Type}.
Context {PR : PythonRandom Py} {NR : NumpyRandom Np} {FR : FakerRandom Fk}.

(** A draw of one library, on the generators of the process. *)
Definition in_python {A} (f : Py -> A * Py) (g : Generators Py Np Fk) :
    A * Generators Py Np Fk :=
  (fst (f (py_state g)),
   {| py_state := snd (f (py_state g));
      numpy_state := numpy_state g;
      faker_state := faker_state g |}).

Definition in_numpy {A} (f : Np -> A * Np) (g : Generators Py Np Fk) :
    A * Generators Py Np Fk :=
  (fst (f (numpy_state g)),
   {| py_state := py_state g;
      numpy_state := snd (f (numpy_state g));
      faker_state := faker_state g |}).

Definition in_faker {A} (f : Fk -> A * Fk) (g : Generators Py Np Fk) :
    A * Generators Py Np Fk :=
  (fst (f (faker_state g)),
   {| py_state := py_state g;
      numpy_state := numpy_state g;
      faker_state := snd (f (faker_state g)) |}).

(** The stream the cells draw from: every draw goes to the generator of
    the library it is a call of. *)
Definition generators_stream : RandomStream (Generators Py Np Fk) := {|
  rng_seed := fun a =>
    {| py_state := py_seed a; numpy_state := numpy_seed a; faker_state := faker_seed a |};
  rand_random := in_python py_random;
  rand_below := fun n => in_python (py_below n);
  rand_lognormvariate := fun mu sigma => in_python (py_lognormvariate mu sigma);
  np_random_sample := in_numpy numpy_random_sample;
  np_zipf := fun a => in_numpy (numpy_zipf a);
  np_poisson := fun lam => in_numpy (numpy_poisson lam);
  np_pareto := fun a => in_numpy (numpy_pareto a);
  np_permutation := fun n => in_numpy (numpy_permutation n);
  fake_company := in_faker faker_company;
  fake_date_between := fun lo hi => in_faker (faker_date_between lo hi);
  rand_random_range := fun g => py_random_range (py_state g);
  rand_below_lt := fun n g => py_below_lt n (py_state g);
  rand_lognormvariate_pos := fun mu sigma g => py_lognormvariate_pos mu sigma (py_state g);
  np_random_sample_range := fun g => numpy_random_sample_range (numpy_state g);
  np_zipf_ge := fun a g => numpy_zipf_ge a (numpy_state g);
  np_poisson_ge := fun lam g => numpy_poisson_ge lam (numpy_state g);
  np_pareto_ge := fun a g => numpy_pareto_ge a (numpy_state g);
  np_permutation_perm := fun n g => numpy_permutation_perm n (numpy_state g);
  fake_date_between_range := fun lo hi g => faker_date_between_range lo hi (faker_state g)
|}.

#[local] Existing Instance generators_stream.

(** [Faker.seed(a)]: the generator the Faker objects share, [fake]
    among them, is put in the state of the seed. *)
Definition Faker_seed (a : Z) : M (World (Generators Py Np Fk)) unit :=
  modify (fun w =>
    with_rng {| py_state := py_state (rng_state w);
                numpy_state := numpy_state (rng_state w);
                faker_state := faker_seed a |} w).

(** [np.random.seed(a)]. *)
Definition np_random_seed (a : Z) : M (World (Generators Py Np Fk)) unit :=
  modify (fun w =>
    with_rng {| py_state := py_state (rng_state w);
                numpy_state := numpy_seed a;
                faker_state := faker_state (rng_state w) |} w).

(** [random.seed(a)]. *)
Definition random_seed (a : Z) : M (World (Generators Py Np Fk)) unit :=
  modify (fun w =>
    with_rng {| py_state := py_seed a;
                numpy_state := numpy_state (rng_state w);
                faker_state := faker_state (rng_state w) |} w).

(** [seed = 42; fake = Faker(); Faker.seed(seed); np.random.seed(seed);
    random.seed(seed)]. *)
Definition seed_cell (cfg : Config) : M (World (Generators Py Np Fk)) unit :=
  Faker_seed (seed cfg) ;;;
  np_random_seed (seed cfg) ;;;
  random_seed (seed cfg).

(** The script from its first cell, in a process whose generators are
    in the states [env] when it starts. *)
Definition run_process (cfg : Config) (env : Generators Py Np Fk) :
    result unit * World (Generators Py Np Fk) :=
  (seed_cell cfg ;;; script cfg) (initial_world env).

(** A draw leaves the generators of the other two libraries alone. *)
Lemma in_python_frame {A} (f : Py -> A * Py) (g : Generators Py Np Fk) :
  numpy_state (snd (in_python f g)) = numpy_state g /\
  faker_state (snd (in_python f g)) = faker_state g.
Proof. split; reflexivity. Qed.

Lemma in_numpy_frame {A} (f : Np -> A * Np) (g : Generators Py Np Fk) :
  py_state (snd (in_numpy f g)) = py_state g /\
  faker_state (snd (in_numpy f g)) = faker_state g.
Proof. split; reflexivity. Qed.

Lemma in_faker_frame {A} (f : Fk -> A * Fk) (g : Generators Py Np Fk) :
  py_state (snd (in_faker f g)) = py_state g /\
  numpy_state (snd (in_faker f g)) = numpy_state g.
Proof. split; reflexivity. Qed.

(** The seeding cell returns, touches no variable of the script, and
    leaves nothing of the states it found. *)
Lemma seed_cell_spec (cfg : Config) (w : World (Generators Py Np Fk)) :
  seed_cell cfg w =
    (Ok tt,
     with_rng {| py_state := py_seed (seed cfg);
                 numpy_state := numpy_seed (seed cfg);
                 faker_state := faker_seed (seed cfg) |} w).
Proof. destruct w. reflexivity. Qed.

Lemma run_process_seeded (cfg : Config) (env : Generators Py Np Fk) :
  run_process cfg env = run cfg.
Proof.
  unfold run_process, run, run_from, bind at 1. rewrite seed_cell_spec. reflexivity.
Qed.

(** C9. Two runs of the script, from its first cell, with the same seed
    and the same configuration constants, in two processes whose three
    generators start in any states: the seeding cell puts each of the
    three generators in the state of the seed, so both runs stop with
    the same outcome and the same variables, hence with the same
    supplier, material, BOM-edge and order records; these are the
    records of [run]. *)
Theorem same_seed_same_records (cfg1 cfg2 : Config) (env1 env2 : Generators Py Np Fk) :
  seed cfg1 = seed cfg2 ->
  NUM_SUPPLIERS cfg1 = NUM_SUPPLIERS cfg2 ->
  NUM_MATERIALS cfg1 = NUM_MATERIALS cfg2 ->
  TARGET_PO_COUNT cfg1 = TARGET_PO_COUNT cfg2 ->
  TIER_DISTRIBUTION cfg1 = TIER_DISTRIBUTION cfg2 ->
  COUNTRY_WEIGHTS cfg1 = COUNTRY_WEIGHTS cfg2 ->
  run_process cfg1 env1 = run_process cfg2 env2 /\
  suppliers (snd (run_process cfg1 env1)) = suppliers (snd (run_process cfg2 env2)) /\
  materials (snd (run_process cfg1 env1)) = materials (snd (run_process cfg2 env2)) /\
  bom_edges (snd (run_process cfg1 env1)) = bom_edges (snd (run_process cfg2 env2)) /\
  order_records (snd (run_process cfg1 env1))
    = order_records (snd (run_process cfg2 env2)) /\
  run_process cfg1 env1 = run cfg1.
Proof.
  intros Hseed Hs Hm Ht Htd Hcw.
  assert (Hcfg : cfg1 = cfg2).
  { destruct cfg1, cfg2. simpl in *. congruence. }
  subst cfg2.
  assert (Hrun : run_process cfg1 env1 = run_process cfg1 env2)
    by (rewrite !run_process_seeded; reflexivity).
  rewrite <- Hrun. repeat (split; [reflexivity|]). apply run_process_seeded.
Qed.

End Seeding.

(** ** The three generators as tapes *)

#[export] Instance tape_python : PythonRandom Tape.t := {|
  py_seed := Tape.seed;
  py_random := Tape.unit_interval;
  py_below := Tape.below;
  py_lognormvariate := fun _ _ => Tape.positive_real;
  py_random_range := tape_unit_interval_range;
  py_below_lt := tape_below_lt;
  py_lognormvariate_pos := fun _ _ => tape_positive_real_pos
|}.

#[export] Instance tape_numpy : NumpyRandom Tape.t := {|
  numpy_seed := Tape.seed;
  numpy_random_sample := Tape.unit_interval;
  numpy_zipf := fun _ => Tape.positive_int;
  numpy_poisson := fun _ => Tape.nonneg_int;
  numpy_pareto := fun _ => Tape.nonneg_real;
  numpy_permutation := Tape.permutation;
  numpy_random_sample_range := tape_unit_interval_range;
  numpy_zipf_ge := fun _ => tape_positive_int_ge;
  numpy_poisson_ge := fun _ => tape_nonneg_int_ge;
  numpy_pareto_ge := fun _ => tape_nonneg_real_ge;
  numpy_permutation_perm := fun n s => tape_insertions_perm n (fst (Tape.next s))
|}.

#[export] Instance tape_faker : FakerRandom Tape.t := {|
  faker_seed := Tape.seed;
  faker_company := Tape.company;
  faker_date_between := Tape.date_between;
  faker_date_between_range := tape_date_between_range
|}.

(** A process whose generators start at the head of three tapes. *)
Definition process (py np fk : list N) : Generators Tape.t Tape.t Tape.t :=
  {| py_state := Tape.of_list py;
     numpy_state := Tape.of_list np;
     faker_state := Tape.of_list fk |}.

(** Each of the three generators shows in the records: the cells
    started without the seeding cell, in processes that differ in one
    generator only, give another country (a draw of [random]), another
    tier (a draw of numpy), another name (a draw of Faker). *)
Lemma unseeded_generators_show_in_the_records :
  map supplier_id
    (suppliers (snd (run_from (RS := generators_stream)
                       (small_config 1 1 0 (TIER_DISTRIBUTION script_config))
                       (process [4503599627370496%N] [] []))))
  <> map supplier_id
       (suppliers (snd (run_from (RS := generators_stream)
                          (small_config 1 1 0 (TIER_DISTRIBUTION script_config))
                          (process [0%N] [] [])))) /\
  map tier_level
    (materials (snd (run_from (RS := generators_stream)
                       (small_config 1 1 0 (TIER_DISTRIBUTION script_config))
                       (process [] [0%N; 4503599627370496%N] []))))
  <> map tier_level
       (materials (snd (run_from (RS := generators_stream)
                          (small_config 1 1 0 (TIER_DISTRIBUTION script_config))
                          (process [] [0%N; 0%N] [])))) /\
  map name
    (suppliers (snd (run_from (RS := generators_stream)
                       (small_config 1 1 0 (TIER_DISTRIBUTION script_config))
                       (process [] [] [1%N]))))
  <> map name
       (suppliers (snd (run_from (RS := generators_stream)
                          (small_config 1 1 0 (TIER_DISTRIBUTION script_config))
                          (process [] [] [0%N])))).
Proof. vm_compute. repeat split; discriminate. Qed.

(** The constants of the script in two processes whose generators
    start in different states. *)
Lemma same_seed_witness :
  process [] [] [] <> process [7%N] [8%N] [9%N] /\
  seed script_config = seed script_config /\
  run_process script_config (process [] [] [])
    = run_process script_config (process [7%N] [8%N] [9%N]).
Proof.
  refine (conj _ (conj eq_refl
           (proj1 (same_seed_same_records script_config script_config
                     (process [] [] []) (process [7%N] [8%N] [9%N])
                     eq_refl eq_refl eq_refl eq_refl eq_refl eq_refl)))).
  discriminate.
Defined.
